(** * Fall-detection backend: pose normalisation, fall scoring, job registry

    A shallow embedding of [backend/app/schemas.py], [fall.py], [pose.py]
    and the job-registry, query and signal-handler parts of [main.py].

    Conventions of the embedding.
    - A Python [float] is a real number ([R]): arithmetic is exact, there is
      no rounding, no infinity and no NaN.  Where a Python operation raises
      instead of returning (a pydantic validation, a tuple unpacking of the
      wrong length, [math.exp] out of the double range, an index out of
      range) the embedding returns [Raise] with the exception.
    - A Python [int] is a [Z], a [str] a [string], [None]-able values are
      [option]s, a [dict] used as a map is a [gmap].
    - [logger.debug] calls have no effect on any value and are left out,
      but for the one in the signal handler [_set_stop_event]: made while
      a signal interrupts a write of the log stream it can raise, and the
      handler's [except] clause then changes what the handler does. *)

From Stdlib Require Import Reals Lra Lia ZArith Ascii String List Sorted.
From stdpp Require Import base option list strings gmap.

Local Open Scope R_scope.

(** ** Python exceptions and the result of a call *)

Module Py.

(** The exception classes this code can raise.  [SystemExit] derives from
    [BaseException] only; every other one derives from [Exception]. *)
Inductive Exc : Type :=
| ValueError
| ValidationError
| OverflowError
| IndexError
| KeyError
| ZeroDivisionError
| RuntimeError
| SystemExit (code : Z)
| HTTPException (status_code : Z) (detail : string).

(** [isinstance(e, Exception)] *)
Definition is_Exception (e : Exc) : bool :=
  match e with
  | SystemExit _ => false
  | _ => true
  end.

Inductive Result (A : Type) : Type :=
| Ok (a : A)
| Raise (e : Exc).
Arguments Ok {A} a.
Arguments Raise {A} e.

Definition bind {A B} (m : Result A) (k : A -> Result B) : Result B :=
  match m with
  | Ok a => k a
  | Raise e => Raise e
  end.

(** A list comprehension whose body may raise: left to right, the first
    exception ends it. *)
Fixpoint mapM {A B} (f : A -> Result B) (l : list A) : Result (list B) :=
  match l with
  | [] => Ok []
  | a :: l' =>
      bind (f a) (fun b => bind (mapM f l') (fun bs => Ok (b :: bs)))
  end.

(** Comparisons of floats as Python booleans. *)
Definition Rltb (a b : R) : bool := if Rlt_dec a b then true else false.
Definition Rleb (a b : R) : bool := if Rle_dec a b then true else false.
Definition Rgeb (a b : R) : bool := if Rge_dec a b then true else false.
Definition Rgtb (a b : R) : bool := if Rgt_dec a b then true else false.
Definition Reqb (a b : R) : bool := if Req_dec_T a b then true else false.

(** [max(l)] of a list: raises [ValueError] on the empty list. *)
Definition max_list (l : list R) : Result R :=
  match l with
  | [] => Raise ValueError
  | a :: l' => Ok (fold_left Rmax l' a)
  end.

(** [math.atan2(y, x)]: the angle of the point [(x, y)], in [(-PI, PI]].
    Library function, written out from its mathematical definition. *)
Definition atan2 (y x : R) : R :=
  if Rlt_dec 0 x then atan (y / x)
  else if Rlt_dec x 0 then
    (if Rle_dec 0 y then atan (y / x) + PI else atan (y / x) - PI)
  else if Rlt_dec 0 y then PI / 2
  else if Rlt_dec y 0 then - (PI / 2)
  else 0.

(** [math.degrees(r)] *)
Definition degrees (r : R) : R := r * 180 / PI.

(** The largest finite double, [(2 - 2^-52) * 2^1023]. *)
Definition DBL_MAX : R := (2 - / 2 ^ 52) * 2 ^ 1023.

(** [math.exp(x)]: raises [OverflowError] ("math range error") when the
    result does not fit a double. *)
Definition exp (x : R) : Result R :=
  if Rlt_dec DBL_MAX (Rtrigo_def.exp x) then Raise OverflowError
  else Ok (Rtrigo_def.exp x).

(** [round(r)] of a float to an int: to the nearest integer, a tie going
    to the even one. *)
Definition round (r : R) : Z :=
  let f := Int_part r in
  let d := r - IZR f in
  if Rlt_dec d (1 / 2) then f
  else if Rlt_dec (1 / 2) d then (f + 1)%Z
  else if Z.even f then f else (f + 1)%Z.

End Py.

Notation "'do' x <- m ; k" := (Py.bind m (fun x => k))
  (at level 10, x name, m at level 100, k at level 200).

(** ** schemas.py *)

(** [class Keypoint(BaseModel)]: [score] is declared
    [Field(0.0, ge=0.0, le=1.0)]; pydantic checks the bounds when the object
    is built and raises [ValidationError] outside them. It does not clamp. *)
Module Keypoint.

Record t : Type := mk {
  x : R;
  y : R;
  score : R;
  name : option string
}.

Definition new (x y score : R) (name : option string) : Py.Result t :=
  if Py.Rleb 0 score && Py.Rleb score 1
  then Py.Ok (mk x y score name)
  else Py.Raise Py.ValidationError.

End Keypoint.

(** [class PersonPose(BaseModel)]: [score] has the same bounds; [bbox] is
    [Optional[list[float]]], by its comment laid out [[x1, y1, x2, y2]]. *)
Module PersonPose.

Record t : Type := mk {
  keypoints : list Keypoint.t;
  score : R;
  bbox : option (list R)
}.

Definition new (keypoints : list Keypoint.t) (score : R)
    (bbox : option (list R)) : Py.Result t :=
  if Py.Rleb 0 score && Py.Rleb score 1
  then Py.Ok (mk keypoints score bbox)
  else Py.Raise Py.ValidationError.

(** The layout the schema documents for [bbox]: absent (or empty, which
    Python also treats as absent), or four coordinates. *)
Definition bbox_ok (p : t) : bool :=
  match bbox p with
  | None | Some [] | Some [_; _; _; _] => true
  | Some _ => false
  end.

End PersonPose.

(** ** fall.py: [class FallDetector] *)

Module Fall.

Definition _get_point (person : PersonPose.t) (name : string)
    : option Keypoint.t :=
  List.find (fun kp => bool_decide (Keypoint.name kp = Some name))
    (PersonPose.keypoints person).

Definition _center (a b : Keypoint.t) : R * R :=
  ((Keypoint.x a + Keypoint.x b) / 2, (Keypoint.y a + Keypoint.y b) / 2).

Definition _torso_angle_deg (person : PersonPose.t) : option R :=
  let left_shoulder := _get_point person "left_shoulder" in
  let right_shoulder := _get_point person "right_shoulder" in
  let left_hip := _get_point person "left_hip" in
  let right_hip := _get_point person "right_hip" in
  match left_shoulder, right_shoulder, left_hip, right_hip with
  | Some left_shoulder, Some right_shoulder, Some left_hip, Some right_hip =>
      let '(sx, sy) := _center left_shoulder right_shoulder in
      let '(hx, hy) := _center left_hip right_hip in
      let dx := sx - hx in
      let dy := sy - hy in
      let angle_rad := Rabs (Py.atan2 dx dy) in
      Some (Py.degrees angle_rad)
  | _, _, _, _ => None
  end.

(** [x1, y1, x2, y2 = person.bbox] raises [ValueError] when the list does
    not have four entries. *)
Definition _aspect_ratio (person : PersonPose.t) : Py.Result (option R) :=
  match PersonPose.bbox person with
  | None | Some [] => Py.Ok None
  | Some [x1; y1; x2; y2] =>
      let w := Rmax 1 (x2 - x1) in
      let h := Rmax 1 (y2 - y1) in
      Py.Ok (Some (w / h))
  | Some _ => Py.Raise Py.ValueError
  end.

Definition score_person (person : PersonPose.t) : Py.Result R :=
  let angle := _torso_angle_deg person in
  do ar <- _aspect_ratio person;
  let score := 0 in
  let score :=
    match angle with
    | Some angle =>
        let score_angle := Rmin 1 (Rmax 0 ((angle - 20) / (90 - 20))) in
        Rmax score score_angle
    | None => score
    end in
  let score :=
    match ar with
    | Some ar =>
        let score_ar := Rmin 1 (Rmax 0 ((ar - 0.8) / (2.0 - 0.8))) in
        Rmax score score_ar
    | None => score
    end in
  let score := score * Rmax 0.5 (Rmin 1 (PersonPose.score person)) in
  Py.Ok score.

Definition predict (people : list PersonPose.t) : Py.Result (bool * R) :=
  match people with
  | [] => Py.Ok (false, 0)
  | _ =>
      do scores <- Py.mapM score_person people;
      do fall_score <- Py.max_list scores;
      let is_fall := Py.Rgeb fall_score 0.6 in
      Py.Ok (is_fall, fall_score)
  end.

(** *** The scorer as the specification words it *)

Definition clamp (v lo hi : R) : R := Rmax lo (Rmin hi v).




(** The keypoints of a person that bear [name], in the order they are
    listed; the landmark of that name is the first of them (the
    specification names one keypoint per landmark and does not say which is
    meant when several bear the name). *)
Definition named (person : PersonPose.t) (name : string)
    : list Keypoint.t :=
  filter (fun kp => Keypoint.name kp = Some name)
    (PersonPose.keypoints person).

Definition landmark (person : PersonPose.t) (name : string)
    : option Keypoint.t :=
  head (named person name).

Definition midpoint (a b : Keypoint.t) : R * R :=
  ((Keypoint.x a + Keypoint.x b) / 2, (Keypoint.y a + Keypoint.y b) / 2).

(** angle from vertical, in degrees, of shoulder midpoint minus hip
    midpoint *)
Definition spec_torso_angle (ls rs lh rh : Keypoint.t) : R :=
  let s := midpoint ls rs in
  let h := midpoint lh rh in
  Rabs (Py.atan2 (fst s - fst h) (snd s - snd h)) * 180 / PI.

Definition spec_angle_term (person : PersonPose.t) : R :=
  match landmark person "left_shoulder", landmark person "right_shoulder",
        landmark person "left_hip", landmark person "right_hip" with
  | Some ls, Some rs, Some lh, Some rh =>
      clamp ((spec_torso_angle ls rs lh rh - 20) / 70) 0 1
  | _, _, _, _ => 0
  end.

Definition spec_aspect_term (person : PersonPose.t) : R :=
  match PersonPose.bbox person with
  | Some [x1; y1; x2; y2] =>
      let ratio := Rmax 1 (x2 - x1) / Rmax 1 (y2 - y1) in
      clamp ((ratio - 0.8) / 1.2) 0 1
  | _ => 0
  end.

Definition spec_score_person (person : PersonPose.t) : R :=
  Rmax (spec_angle_term person) (spec_aspect_term person)
  * Rmax 0.5 (Rmin 1 (PersonPose.score person)).

End Fall.

(** ** utils.py *)

Module Utils.

Definition COCO_KEYPOINT_NAMES : list string :=
  [ "nose"; "left_eye"; "right_eye"; "left_ear"; "right_ear";
    "left_shoulder"; "right_shoulder"; "left_elbow"; "right_elbow";
    "left_wrist"; "right_wrist"; "left_hip"; "right_hip";
    "left_knee"; "right_knee"; "left_ankle"; "right_ankle" ]%string.

End Utils.

(** ** pose.py: [class PoseEstimator] *)

Module Pose.

(** A PIL image as far as this code looks at it: its [size]. *)
Record Image : Type := mkImage {
  width : Z;
  height : Z
}.

(** One entry of what the Sports2D model returns: a dict read through
    [pose["keypoints"]], [pose.get("score", 1.0)] and [pose.get("bbox")];
    a keypoint [k] is read through [k[0]], [k[1]], [k[2]]. *)
Record RawPose : Type := mkRawPose {
  raw_keypoints : option (list (list R));
  raw_score : option R;
  raw_bbox : option (list R)
}.

(** What the torchvision Keypoint R-CNN returns for one image: a dict of
    tensors, [boxes] of shape [N, 4], [scores] of shape [N], [keypoints] of
    shape [N, K, 3] and, under either of two keys, per-keypoint scores of
    shape [N, K]. A missing key reads as [None]; [keypoints_shape1] is
    [keypoints.shape[1]], the [K]. *)
Record Detections : Type := mkDetections {
  boxes : option (list (R * R * R * R));
  scores : option (list R);
  keypoints_shape1 : nat;
  keypoints : option (list (list (R * R * R)));
  keypoints_scores : option (list (list R));
  keypoints_score : option (list (list R))
}.

Inductive Backend : Type := sports2d | torchvision.

(** The estimator after [__init__]: the settings and the loaded model, a
    black box from an image to its raw output. *)
Record t : Type := mk {
  score_threshold : R;
  max_side : Z;
  backend : Backend;
  sports2d_predict : Image -> list RawPose;
  torchvision_model : Image -> Detections
}.

(** [seq[i]], raising [IndexError] out of range. *)
Definition index {A} (l : list A) (i : nat) : Py.Result A :=
  match l !! i with
  | Some a => Py.Ok a
  | None => Py.Raise Py.IndexError
  end.

Definition sports2d_keypoint (k : list R) : Py.Result Keypoint.t :=
  do x <- index k 0;
  do y <- index k 1;
  do s <- index k 2;
  Keypoint.new x y s None.

Definition sports2d_person (pose : RawPose) : Py.Result PersonPose.t :=
  do ks <- match raw_keypoints pose with
           | Some ks => Py.Ok ks
           | None => Py.Raise Py.KeyError
           end;
  do kps <- Py.mapM sports2d_keypoint ks;
  PersonPose.new kps (default 1 (raw_score pose)) (raw_bbox pose).

Definition _estimate_sports2d (self : t) (image : Image)
    : Py.Result (list PersonPose.t) :=
  let outputs := sports2d_predict self image in
  Py.mapM sports2d_person outputs.

Definition _resize_for_inference (self : t) (image : Image)
    : Py.Result (Image * R) :=
  let w := width image in
  let h := height image in
  let max_wh := Z.max w h in
  if (max_side self <? max_wh)%Z then
    if (max_wh =? 0)%Z then Py.Raise Py.ZeroDivisionError
    else
      let scale := IZR (max_side self) / IZR max_wh in
      let new_w := Z.max 1 (Py.round (IZR w * scale)) in
      let new_h := Z.max 1 (Py.round (IZR h * scale)) in
      Py.Ok (mkImage new_w new_h, scale)
  else Py.Ok (image, 1).

Definition _normalize_kp_score (value : R) (used_scores_tensor : bool)
    : Py.Result R :=
  let score := value in
  do score <-
    (if used_scores_tensor then
       if Py.Rltb score 0 || Py.Rgtb score 1 then
         do e <- Py.exp (- score);
         Py.Ok (1 / (1 + e))
       else Py.Ok score
     else Py.Ok (Rmax 0 (Rmin 1 (score / 2))));
  Py.Ok (Rmax 0 (Rmin 1 score)).

(** The body of the inner loop [for j in range(keypoints.shape[1])]. *)
Definition torchvision_keypoint (scale inv_scale : R)
    (keypoints : list (list (R * R * R)))
    (keypoints_scores : option (list (list R))) (i j : nat)
    : Py.Result Keypoint.t :=
  do row <- index keypoints i;
  do xyv <- index row j;
  let '(x, y, v) := xyv in
  let x := if Py.Reqb scale 1 then x else x * inv_scale in
  let y := if Py.Reqb scale 1 then y else y * inv_scale in
  do kp_score <-
    match keypoints_scores with
    | Some ks =>
        do srow <- index ks i;
        do raw <- index srow j;
        _normalize_kp_score raw true
    | None => _normalize_kp_score v false
    end;
  let name := Utils.COCO_KEYPOINT_NAMES !! j in
  Keypoint.new x y kp_score name.

(** The body of the outer loop [for i in range(num)]; [None] is the
    [continue] of a detection under the threshold. *)
Definition torchvision_person (self : t) (scale inv_scale : R)
    (boxes : list (R * R * R * R)) (scores : list R)
    (shape1 : nat) (keypoints : list (list (R * R * R)))
    (keypoints_scores : option (list (list R))) (i : nat)
    : Py.Result (option PersonPose.t) :=
  do score <- index scores i;
  if Py.Rltb score (score_threshold self) then Py.Ok None
  else
    do box <- index boxes i;
    let '(b0, b1, b2, b3) := box in
    let bbox :=
      if Py.Reqb scale 1 then [b0; b1; b2; b3]
      else [b0 * inv_scale; b1 * inv_scale; b2 * inv_scale; b3 * inv_scale] in
    do kps <- Py.mapM
                (torchvision_keypoint scale inv_scale keypoints
                   keypoints_scores i)
                (seq 0 shape1);
    do person <- PersonPose.new kps score (Some bbox);
    Py.Ok (Some person).

Definition _estimate_torchvision (self : t) (image : Image)
    : Py.Result (list PersonPose.t) :=
  do resized <- _resize_for_inference self image;
  let '(image_resized, scale) := resized in
  let outputs := torchvision_model self image_resized in
  let keypoints_scores :=
    match keypoints_scores outputs with
    | Some ks => Some ks
    | None => keypoints_score outputs
    end in
  match boxes outputs, scores outputs, keypoints outputs with
  | Some boxes, Some scores, Some keypoints =>
      let num := length boxes in
      let inv_scale := if Py.Reqb scale 0 then 1 else 1 / scale in
      do people <- Py.mapM
                     (torchvision_person self scale inv_scale boxes scores
                        (keypoints_shape1 outputs) keypoints keypoints_scores)
                     (seq 0 num);
      Py.Ok (omap (fun kept => kept) people)
  | _, _, _ => Py.Ok []
  end.

Definition estimate (self : t) (image : Image)
    : Py.Result (list PersonPose.t) :=
  match backend self with
  | sports2d => _estimate_sports2d self image
  | torchvision => _estimate_torchvision self image
  end.

(** Every confidence of a result: the person's and each keypoint's. *)
Definition confidences (p : PersonPose.t) : list R :=
  PersonPose.score p :: map Keypoint.score (PersonPose.keypoints p).

Definition in_unit_interval (c : R) : Prop := 0 <= c <= 1.

(** A raw Sports2D keypoint [k] and the [Keypoint] that carries its three
    numbers unchanged. *)
Definition keypoint_passed_through (k : list R) (kp : Keypoint.t) : Prop :=
  k !! 0%nat = Some (Keypoint.x kp)
  /\ k !! 1%nat = Some (Keypoint.y kp)
  /\ k !! 2%nat = Some (Keypoint.score kp)
  /\ Keypoint.name kp = None.

(** A raw Sports2D pose and the [PersonPose] that carries its keypoints,
    score (1.0 when the backend gives none) and box unchanged. *)
Definition passed_through (pose : RawPose) (p : PersonPose.t) : Prop :=
  (exists ks, raw_keypoints pose = Some ks
              /\ Forall2 keypoint_passed_through ks (PersonPose.keypoints p))
  /\ PersonPose.score p = default 1 (raw_score pose)
  /\ PersonPose.bbox p = raw_bbox pose.

(** A raw Sports2D pose the schemas accept: keypoints present, each with
    at least three numbers and a score in [[0, 1]], and a person score in
    [[0, 1]]. *)
Definition raw_in_range (pose : RawPose) : Prop :=
  (exists ks, raw_keypoints pose = Some ks
              /\ Forall (fun k => exists x y s rest,
                                   k = x :: y :: s :: rest
                                   /\ in_unit_interval s) ks)
  /\ in_unit_interval (default 1 (raw_score pose)).

(** A returned person whose box and keypoint coordinates are those of
    detection [i] of [outputs], each multiplied by [1 / s]. *)
Definition rescaled_from (outputs : Detections) (s : R) (i : nat)
    (p : PersonPose.t) : Prop :=
  (exists b0 b1 b2 b3 bs,
      boxes outputs = Some bs /\ bs !! i = Some (b0, b1, b2, b3)
      /\ PersonPose.bbox p
         = Some [b0 * (1 / s); b1 * (1 / s); b2 * (1 / s); b3 * (1 / s)])
  /\ (exists rows,
        keypoints outputs = Some rows
        /\ length (PersonPose.keypoints p) = keypoints_shape1 outputs
        /\ forall j kp, PersonPose.keypoints p !! j = Some kp ->
             exists row x y v, rows !! i = Some row
                               /\ row !! j = Some (x, y, v)
                               /\ Keypoint.x kp = x * (1 / s)
                               /\ Keypoint.y kp = y * (1 / s)).

End Pose.

(** ** main.py: the job registry, its queries and the signal handler *)

Module Main.

Inductive Status : Type := running | done | error.

#[global] Instance Status_eq_dec : EqDecision Status.
Proof. solve_decision. Defined.

(** One entry of [_JOBS]: the dict built by [_start_job_state]. *)
Record Job : Type := mkJob {
  status : Status;
  processed : Z;
  total : option Z;
  error_message : option string;
  out_path : option string;
  filename : string
}.

(** [job[key] = value], one definition per key. *)
Definition set_status (v : Status) (job : Job) : Job :=
  mkJob v (processed job) (total job) (error_message job) (out_path job)
    (filename job).
Definition set_processed (v : Z) (job : Job) : Job :=
  mkJob (status job) v (total job) (error_message job) (out_path job)
    (filename job).
Definition set_total (v : option Z) (job : Job) : Job :=
  mkJob (status job) (processed job) v (error_message job) (out_path job)
    (filename job).
Definition set_error (v : option string) (job : Job) : Job :=
  mkJob (status job) (processed job) (total job) v (out_path job)
    (filename job).
Definition set_out_path (v : option string) (job : Job) : Job :=
  mkJob (status job) (processed job) (total job) (error_message job) v
    (filename job).

(** The process-wide state these functions read and write: the registry
    [_JOBS], the flag of [_STOP_EVENT], and the paths that exist on disk
    (what [os.path.exists] answers). *)
Record World : Type := mkWorld {
  _JOBS : gmap string Job;
  _STOP_EVENT : bool;
  files : gset string
}.

(** A call runs from a state to a state and returns or raises; what was
    written before an exception stays written. *)
Definition M (A : Type) : Type := World -> World * Py.Result A.

Definition ret {A} (a : A) : M A := fun w => (w, Py.Ok a).

Definition raise {A} (e : Py.Exc) : M A := fun w => (w, Py.Raise e).

Definition bind {A B} (m : M A) (k : A -> M B) : M B :=
  fun w =>
    match m w with
    | (w', Py.Ok a) => k a w'
    | (w', Py.Raise e) => (w', Py.Raise e)
    end.

(** [try: body / except Exception: handler]: an exception that is not an
    [Exception] passes through. *)
Definition try_except_Exception {A} (body : M A) (handler : Py.Exc -> M A)
    : M A :=
  fun w =>
    match body w with
    | (w', Py.Ok a) => (w', Py.Ok a)
    | (w', Py.Raise e) =>
        if Py.is_Exception e then handler e w' else (w', Py.Raise e)
    end.

Definition get_jobs : M (gmap string Job) := fun w => (w, Py.Ok (_JOBS w)).

Definition put_jobs (jobs : gmap string Job) : M unit :=
  fun w => (mkWorld jobs (_STOP_EVENT w) (files w), Py.Ok tt).

(** [_STOP_EVENT.set()] *)
Definition stop_event_set : M unit :=
  fun w => (mkWorld (_JOBS w) true (files w), Py.Ok tt).

(** [os.path.exists(path)] *)
Definition path_exists (path : string) : M bool :=
  fun w => (w, Py.Ok (bool_decide (path ∈ files w))).

(** [sys.exit(code)] raises [SystemExit]. *)
Definition sys_exit {A} (code : Z) : M A := raise (Py.SystemExit code).

(** [logger.debug(...)] made from a signal handler. The call returns, or
    it raises: the handler runs in the main thread between two of its
    bytecodes, and when the signal arrived while that thread was inside a
    write of the log stream, the write the call makes fails with
    [RuntimeError] (reentrant call). [outcome] is what the call does; it
    writes nothing this code reads. *)
Definition logger_debug (outcome : Py.Result unit) : M unit :=
  fun w => (w, outcome).

End Main.

Notation "'run' x <- m ; k" := (Main.bind m (fun x => k))
  (at level 10, x name, m at level 100, k at level 200).
Notation "'exec' m ; k" := (Main.bind m (fun _ => k))
  (at level 10, m at level 100, k at level 200).

Module Handlers.
Import Main.

(** [logged] is what the handler's [logger.debug] call does. *)
Definition _set_stop_event (logged : Py.Result unit) : M unit :=
  exec try_except_Exception
         (exec logger_debug logged;
          sys_exit 0)
         (fun _ => ret tt);
  stop_event_set.

(** [job_id] is the token [uuid.uuid4().hex] produced. *)
Definition _start_job_state (job_id : string) (filename : string)
    (total_frames : option Z) : M string :=
  run jobs <- get_jobs;
  exec put_jobs (<[job_id := mkJob running 0 total_frames None None filename]> jobs);
  ret job_id.

Definition _update_job (job_id : string) (processed : Z) (total : option Z)
    : M unit :=
  run jobs <- get_jobs;
  match jobs !! job_id with
  | Some job =>
      let job := set_processed processed job in
      let job :=
        match total with
        | Some total => set_total (Some total) job
        | None => job
        end in
      put_jobs (<[job_id := job]> jobs)
  | None => ret tt
  end.

Definition _finish_job (job_id : string) (out_path : string) : M unit :=
  run jobs <- get_jobs;
  match jobs !! job_id with
  | Some job =>
      let job := set_status done job in
      let job := set_out_path (Some out_path) job in
      put_jobs (<[job_id := job]> jobs)
  | None => ret tt
  end.

Definition _error_job (job_id : string) (message : string) : M unit :=
  run jobs <- get_jobs;
  match jobs !! job_id with
  | Some job =>
      let job := set_status error job in
      let job := set_error (Some message) job in
      put_jobs (<[job_id := job]> jobs)
  | None => ret tt
  end.

(** The dict [annotate_progress] returns. *)
Record Progress : Type := mkProgress {
  progress_status : Status;
  progress_processed : Z;
  progress_total : option Z;
  progress_percent : option R;
  progress_error : option string
}.

(** [FileResponse(path, media_type=..., filename=...)] *)
Record FileResponse : Type := mkFileResponse {
  response_path : string;
  response_media_type : string;
  response_filename : string
}.

Definition job_not_found : Py.Exc := Py.HTTPException 404 "job not found".
Definition job_not_finished : Py.Exc := Py.HTTPException 409 "job not finished".
Definition result_gone : Py.Exc :=
  Py.HTTPException 410 "result expired or missing".

Definition annotate_progress (job_id : string) : M Progress :=
  run jobs <- get_jobs;
  match jobs !! job_id with
  | None => raise job_not_found
  | Some job =>
      let processed := processed job in
      let total := total job in
      let status := status job in
      let error := error_message job in
      let percent :=
        match total with
        | Some t =>
            if (0 <? t)%Z
            then Some (Rmin 100 (Rmax 0 (IZR processed / IZR t * 100)))
            else None
        | None => None
        end in
      ret (mkProgress status processed total percent error)
  end.

(** [s.rsplit('.', 1)]: when [s] has a dot, what stands before the last
    one. *)
Fixpoint before_last_dot (s : string) : option string :=
  match s with
  | EmptyString => None
  | String c s' =>
      match before_last_dot s' with
      | Some p => Some (String c p)
      | None => if Ascii.eqb c "."%char then Some EmptyString else None
      end
  end.

(** [s.rsplit('.', 1)[0]] *)
Definition rsplit_dot_head (s : string) : string :=
  default s (before_last_dot s).

(** The output of a finished job is unset (or the empty path), or its file
    is not on disk. *)
Definition output_missing (w : World) (job : Job) : Prop :=
  match out_path job with
  | None => True
  | Some path => path = EmptyString \/ path ∉ files w
  end.

Definition annotate_result (job_id : string) : M FileResponse :=
  run jobs <- get_jobs;
  match jobs !! job_id with
  | None => raise job_not_found
  | Some job =>
      if negb (bool_decide (status job = done)) then raise job_not_finished
      else
        let out_path := out_path job in
        let filename := filename job in
        match out_path with
        | None | Some EmptyString => raise result_gone
        | Some path =>
            run there <- path_exists path;
            if negb there then raise result_gone
            else
              let download_name :=
                ((if String.eqb filename "" then "annotated"
                  else rsplit_dot_head filename) ++ "_annotated.mp4")%string in
              ret (mkFileResponse path "video/mp4" download_name)
        end
  end.

End Handlers.

(** ** main.py: [_annotate_worker], as the steps of one job's thread

    Only what the worker does to the registry and what it reads of the stop
    event is followed; the frames, the files it writes and removes and the
    list of worker threads are left out. The capture, the estimator and the
    writer are the environment: whether the capture opens, how many frames
    it yields and whether a call raises are choices of the step taken. *)

Module Worker.
Import Main Handlers.

(** Where the thread stands: before [cap.isOpened()] is answered; inside or
    just after the [while] loop with its local [processed] and [out_path];
    between [_update_job] and [_finish_job] at the end of the [try]; after
    its last registry call. *)
Inductive Phase : Type :=
| starting
| looping (processed : Z) (out_path : string)
| finishing (out_path : string)
| exited.

Record State : Type := mkState {
  phase : Phase;
  world : World
}.

(** The state a call leaves. *)
Definition after {A} (m : M A) (w : World) : World := fst (m w).

(** [int(count) if int(count) > 0 else None] *)
Definition frame_total (count : Z) : option Z :=
  if (0 <? count)%Z then Some count else None.

(** Where an exception can be raised inside the [try]: anywhere before the
    last two registry calls. *)
Definition can_raise (ph : Phase) : bool :=
  match ph with
  | starting | looping _ _ => true
  | finishing _ | exited => false
  end.

Inductive step (job_id : string) : State -> State -> Prop :=
| step_cannot_open w :
    (* [if not cap.isOpened(): _error_job(...); return] *)
    step job_id (mkState starting w)
      (mkState exited (after (_error_job job_id "Failed to read video") w))
| step_open w (count : Z) (out_path : string) :
    (* [_update_job(job_id, processed=0, total=total)], output file named *)
    step job_id (mkState starting w)
      (mkState (looping 0 out_path)
         (after (_update_job job_id 0 (frame_total count)) w))
| step_frame w (processed : Z) (out_path : string) :
    (* one turn of the loop: the event is not set and a frame is read *)
    _STOP_EVENT w = false ->
    step job_id (mkState (looping processed out_path) w)
      (mkState (looping (processed + 1) out_path)
         (if ((processed + 1) mod 5 =? 0)%Z
          then after (_update_job job_id (processed + 1) None) w
          else w))
| step_stopping w (processed : Z) (out_path : string) :
    (* the event is seen set: [_error_job(job_id, "Server stopping")] *)
    _STOP_EVENT w = true ->
    step job_id (mkState (looping processed out_path) w)
      (mkState exited (after (_error_job job_id "Server stopping") w))
| step_end_of_video w (processed : Z) (out_path : string) :
    (* no frame is left and the event is not set: [_update_job] *)
    _STOP_EVENT w = false ->
    step job_id (mkState (looping processed out_path) w)
      (mkState (finishing out_path)
         (after (_update_job job_id processed None) w))
| step_finish w (out_path : string) :
    (* [_finish_job(job_id, out_path)] *)
    step job_id (mkState (finishing out_path) w)
      (mkState exited (after (_finish_job job_id out_path) w))
| step_exception w (ph : Phase) (message : string) :
    (* [except Exception as e: _error_job(job_id, str(e))] *)
    can_raise ph = true ->
    step job_id (mkState ph w)
      (mkState exited (after (_error_job job_id message) w))
| step_stop_event w (ph : Phase) :
    (* another thread: the shutdown sets the event *)
    step job_id (mkState ph w) (mkState ph (after stop_event_set w)).

(** The job is registered, and it is [running] exactly while its worker has
    a registry call ahead. *)
Definition consistent (job_id : string) (s : State) : Prop :=
  exists job,
    _JOBS (world s) !! job_id = Some job
    /\ (status job = running <-> phase s <> exited).

End Worker.

(** ** Concrete inputs used by the examples below *)

Module Samples.

(** A detection with no keypoints and a box twice as wide as high. *)
Definition lying_box : PersonPose.t :=
  PersonPose.mk [] 1 (Some [0; 0; 4; 2]).

(** A detection with neither keypoints nor a box. *)
Definition bare : PersonPose.t := PersonPose.mk [] 1 None.


(** Shoulders one unit to the side of the hips, at the same height: a
    horizontal torso. *)
Definition horizontal_torso : PersonPose.t :=
  PersonPose.mk
    [ Keypoint.mk 1 0 1 (Some "left_shoulder"%string);
      Keypoint.mk 1 0 1 (Some "right_shoulder"%string);
      Keypoint.mk 0 0 1 (Some "left_hip"%string);
      Keypoint.mk 0 0 1 (Some "right_hip"%string) ]
    1 None.

Definition image_640x480 : Pose.Image := Pose.mkImage 640 480.
Definition image_1280x960 : Pose.Image := Pose.mkImage 1280 960.
Definition image_10000x1 : Pose.Image := Pose.mkImage 10000 1.

Definition no_detections : Pose.Detections :=
  Pose.mkDetections None None 17 None None None.

(** One detection in the downscaled frame of a 1280x960 image. *)
Definition one_detection : Pose.Detections :=
  Pose.mkDetections (Some [(10, 20, 110, 220)]) (Some [0.9]) 1
    (Some [[(50, 60, 1)]]) None None.

(** A Sports2D output inside the schema's bounds, and one whose keypoint
    score is 1.5. *)
Definition raw_good : Pose.RawPose :=
  Pose.mkRawPose (Some [[10; 20; 0.5]]) (Some 0.9) None.
Definition raw_out_of_range : Pose.RawPose :=
  Pose.mkRawPose (Some [[10; 20; 1.5]]) (Some 0.9) None.

(** Estimators with the constructor's defaults
    ([score_threshold = 0.5], [max_side = 640]). *)
Definition estimator (backend : Pose.Backend) (raw : list Pose.RawPose)
    (outputs : Pose.Detections) : Pose.t :=
  Pose.mk 0.5 640 backend (fun _ => raw) (fun _ => outputs).

Definition sports2d_good : Pose.t :=
  estimator Pose.sports2d [raw_good] no_detections.
Definition sports2d_out_of_range : Pose.t :=
  estimator Pose.sports2d [raw_out_of_range] no_detections.
Definition torchvision_empty : Pose.t :=
  estimator Pose.torchvision [] no_detections.
Definition torchvision_one : Pose.t :=
  estimator Pose.torchvision [] one_detection.

(** Registry states: empty; one running job; one finished job whose output
    file exists; one finished job whose output file is gone. *)
Definition running_job : Main.Job :=
  Main.mkJob Main.running 5 (Some 10%Z) None None "clip.mp4".
Definition done_job : Main.Job :=
  Main.mkJob Main.done 10 (Some 10%Z) None (Some "/tmp/out.mp4"%string)
    "clip.mp4".

Definition world_empty : Main.World := Main.mkWorld ∅ false ∅.
Definition world_running : Main.World :=
  Main.mkWorld {[ "job1"%string := running_job ]} false ∅.
Definition world_done : Main.World :=
  Main.mkWorld {[ "job1"%string := done_job ]} false {[ "/tmp/out.mp4"%string ]}.
Definition world_gone : Main.World :=
  Main.mkWorld {[ "job1"%string := done_job ]} false ∅.

End Samples.

(** ** Python [str] methods

    A [str] is modelled by a [string] of characters with codes below 256;
    on these, whitespace and lower case are what Python's Unicode tables
    say. *)

Module Str.

(** [c.isspace()]: tab to carriage return, the four separators 28 to 31,
    space, next-line (133) and no-break space (160). *)
Definition isspace (c : ascii) : bool :=
  let n := N_of_ascii c in
  ((9 <=? n) && (n <=? 13) || (28 <=? n) && (n <=? 32)
   || (n =? 133) || (n =? 160))%N.

(** [c.lower()]: [A]-[Z] and the capital letters 192 to 222 (the
    multiplication sign 215 is not one) move up by 32. *)
Definition lower_char (c : ascii) : ascii :=
  let n := N_of_ascii c in
  if ((65 <=? n) && (n <=? 90)
      || (192 <=? n) && (n <=? 222) && negb (n =? 215))%N
  then ascii_of_N (n + 32)
  else c.

Fixpoint lower (s : string) : string :=
  match s with
  | EmptyString => EmptyString
  | String c s' => String (lower_char c) (lower s')
  end.

Fixpoint lstrip (s : string) : string :=
  match s with
  | EmptyString => EmptyString
  | String c s' => if isspace c then lstrip s' else s
  end.

Fixpoint rstrip (s : string) : string :=
  match s with
  | EmptyString => EmptyString
  | String c s' =>
      match rstrip s' with
      | EmptyString => if isspace c then EmptyString else String c EmptyString
      | r => String c r
      end
  end.

Definition strip (s : string) : string := rstrip (lstrip s).

(** [s.startswith(p)] *)
Definition startswith (p s : string) : bool := String.prefix p s.

(** [c in s] for a one-character [c] *)
Fixpoint contains (c : ascii) (s : string) : bool :=
  match s with
  | EmptyString => false
  | String c' s' => Ascii.eqb c c' || contains c s'
  end.

(** [s.split(c, 1)[1]]: what follows the first [c]; [None] stands for the
    [IndexError] of a string without [c]. *)
Fixpoint after_first (c : ascii) (s : string) : option string :=
  match s with
  | EmptyString => None
  | String c' s' => if Ascii.eqb c c' then Some s' else after_first c s'
  end.

End Str.

(** ** device.py *)

Module Device.

(** What torch reports of the machine. *)
Record Hardware : Type := mkHardware {
  mps_is_available : bool;
  mps_is_built : bool;
  cuda_is_available : bool
}.

(** [torch.device(device_type)], of which the code reads [.type]. *)
Record TorchDevice : Type := mkTorchDevice {
  type : string
}.

Definition get_torch_device (hw : Hardware) (preferred : option string)
    : TorchDevice * string :=
  let preferred_normalized := Str.lower (Str.strip (default EmptyString preferred)) in
  let device_type :=
    if bool_decide (preferred_normalized ∈ ["mps"; "cuda"; "cpu"]%string)
    then preferred_normalized
    else if mps_is_available hw && mps_is_built hw then "mps"%string
    else if cuda_is_available hw then "cuda"%string
    else "cpu"%string in
  let device := mkTorchDevice device_type in
  (device, device_type).

(** The three CUDA probes [summarize_device] makes, each of which may
    raise. *)
Record CudaProbe : Type := mkCudaProbe {
  current_device : Py.Result Z;
  get_device_name : Z -> Py.Result string;
  get_device_capability : Z -> Py.Result (Z * Z)
}.

(** The dict [summarize_device] builds; a key it did not set is [None]. *)
Record DeviceInfo : Type := mkDeviceInfo {
  info_type : string;
  info_name : option string;
  info_capability : option (Z * Z)
}.

Definition summarize_device (cuda : CudaProbe) (device : TorchDevice)
    : Py.Result DeviceInfo :=
  let info := mkDeviceInfo (type device) None None in
  if String.eqb (type device) "cuda" then
    (* what the [try] body leaves of [info], and how it ends *)
    let '(info, outcome) :=
      match current_device cuda with
      | Py.Raise e => (info, Py.Raise e)
      | Py.Ok idx =>
          match get_device_name cuda idx with
          | Py.Raise e => (info, Py.Raise e)
          | Py.Ok name =>
              let info := mkDeviceInfo (info_type info) (Some name)
                            (info_capability info) in
              match get_device_capability cuda idx with
              | Py.Raise e => (info, Py.Raise e)
              | Py.Ok capability =>
                  (mkDeviceInfo (info_type info) (info_name info)
                     (Some capability), Py.Ok tt)
              end
          end
      end in
    match outcome with
    | Py.Ok _ => Py.Ok info
    | Py.Raise e =>
        if Py.is_Exception e
        then Py.Ok (mkDeviceInfo (info_type info) (Some "unknown"%string)
                      (info_capability info))
        else Py.Raise e
    end
  else if String.eqb (type device) "mps" then
    Py.Ok (mkDeviceInfo (info_type info) (Some "Apple Metal (MPS)"%string)
             (info_capability info))
  else
    Py.Ok (mkDeviceInfo (info_type info) (Some "CPU"%string)
             (info_capability info)).

End Device.

(** ** utils.py: [data_url_to_image] *)

Module DataUrl.

(** The text handed to [base64.b64decode]: what follows the first comma of a
    data URL, or the whole input. *)
Definition base64_part (data_url : string) : string :=
  if Str.contains ","%char data_url
     && Str.startswith "data:" (Str.lower (Str.strip data_url))
  then match Str.after_first ","%char data_url with
       | Some rest => rest
       | None => data_url   (* not reached: a comma is there *)
       end
  else data_url.

(** [b64decode] and [open_rgb] stand for [base64.b64decode] and
    [Image.open(io.BytesIO(.)).convert("RGB")], either of which may raise. *)
Definition data_url_to_image (b64decode : string -> Py.Result string)
    (open_rgb : string -> Py.Result Pose.Image) (data_url : string)
    : Py.Result Pose.Image :=
  let base64_part := base64_part data_url in
  do binary <- b64decode base64_part;
  do image <- open_rgb binary;
  Py.Ok image.

End DataUrl.

(** ** The frame count a worker has reported *)

Module WorkerCount.
Import Main Worker.

(** The registry never shows more frames than the worker has processed. *)
Definition counted (job_id : string) (s : State) : Prop :=
  exists job,
    _JOBS (world s) !! job_id = Some job
    /\ match phase s with
       | starting => (processed job <= 0)%Z
       | looping done_frames _ => (processed job <= done_frames)%Z
       | finishing _ | exited => True
       end.

End WorkerCount.

(** ** draw.py *)

Module Draw.

Definition SKELETON_PAIRS : list (string * string) :=
  [ ("left_shoulder", "right_shoulder"); ("left_hip", "right_hip");
    ("left_shoulder", "left_hip"); ("right_shoulder", "right_hip");
    ("left_shoulder", "left_elbow"); ("left_elbow", "left_wrist");
    ("right_shoulder", "right_elbow"); ("right_elbow", "right_wrist");
    ("left_hip", "left_knee"); ("left_knee", "left_ankle");
    ("right_hip", "right_knee"); ("right_knee", "right_ankle") ]%string.

(** A Python [dict] with its insertion order: [d[k] = v] replaces the value
    of a key that is there, in place, and appends a new key. *)
Definition Dict (V : Type) : Type := list (string * V).

Fixpoint dict_set {V} (k : string) (v : V) (d : Dict V) : Dict V :=
  match d with
  | [] => [(k, v)]
  | (k', v') :: d' =>
      if String.eqb k k' then (k', v) :: d' else (k', v') :: dict_set k v d'
  end.

Fixpoint dict_get {V} (k : string) (d : Dict V) : option V :=
  match d with
  | [] => None
  | (k', v') :: d' => if String.eqb k k' then Some v' else dict_get k d'
  end.

(** [if kp.name:]: a name that is neither [None] nor empty. *)
Definition truthy_name (kp : Keypoint.t) : option string :=
  match Keypoint.name kp with
  | Some EmptyString | None => None
  | Some name => Some name
  end.

(** The body of the loop of [_kp_by_name]. *)
Definition kp_step (m : Dict (R * R * R)) (kp : Keypoint.t)
    : Dict (R * R * R) :=
  match truthy_name kp with
  | Some name =>
      dict_set name (Keypoint.x kp, Keypoint.y kp, Keypoint.score kp) m
  | None => m
  end.

Definition _kp_by_name (person : PersonPose.t) : Dict (R * R * R) :=
  fold_left kp_step (PersonPose.keypoints person) [].

(** What cv2 is asked to draw; colours are BGR triples, a thickness of -1
    fills. The line type, always [cv2.LINE_AA], is left out. *)
Inductive Shape : Type :=
| circle (center : Z * Z) (radius : Z) (color : Z * Z * Z) (thickness : Z)
| line (pt1 pt2 : Z * Z) (color : Z * Z * Z) (thickness : Z)
| rectangle (pt1 pt2 : Z * Z) (color : Z * Z * Z) (thickness : Z).

(** A frame as far as this code looks at it: [shape[:2]] and what has been
    drawn on it, oldest first. *)
Record Frame : Type := mkFrame {
  frame_height : Z;
  frame_width : Z;
  drawn : list Shape
}.

Definition draw (shape : Shape) (frame : Frame) : Frame :=
  mkFrame (frame_height frame) (frame_width frame) (drawn frame ++ [shape]).

(** [(int(round(x)), int(round(y)))] *)
Definition point (x y : R) : Z * Z := (Py.round x, Py.round y).

Definition kp_color : Z * Z * Z := (0, 255, 136)%Z.
Definition edge_color : Z * Z * Z := (0, 255, 136)%Z.
Definition box_color : Z * Z * Z := (0, 170, 255)%Z.

(** The body of the loop over [by_name.items()]: the circle to draw, if
    any. *)
Definition keypoint_shape (score_thresh : R) (radius : Z)
    (item : string * (R * R * R)) : option Shape :=
  let '(name, (x, y, s)) := item in
  if Py.Rltb s score_thresh then None
  else Some (circle (point x y) radius kp_color (-1)).

(** The body of the loop over [SKELETON_PAIRS]: the line to draw, if any. *)
Definition edge_shape (by_name : Dict (R * R * R)) (score_thresh : R)
    (thickness : Z) (pair : string * string) : option Shape :=
  let '(a, b) := pair in
  match dict_get a by_name, dict_get b by_name with
  | Some (x1, y1, s1), Some (x2, y2, s2) =>
      if Py.Rgeb s1 score_thresh && Py.Rgeb s2 score_thresh
      then Some (line (point x1 y1) (point x2 y2) edge_color thickness)
      else None
  | _, _ => None
  end.

(** [if person.bbox and len(person.bbox) == 4:] the rectangle to draw. *)
Definition bbox_shape (person : PersonPose.t) (thickness : Z)
    : option Shape :=
  match PersonPose.bbox person with
  | Some [x1; y1; x2; y2] =>
      Some (rectangle (point x1 y1) (point x2 y2) box_color thickness)
  | _ => None
  end.

(** One loop of drawing calls: each item draws its shape or is passed. *)
Definition draw_each {A} (shape_of : A -> option Shape) (items : list A)
    (frame : Frame) : Frame :=
  fold_left
    (fun frame item =>
       match shape_of item with
       | Some shape => draw shape frame
       | None => frame
       end)
    items frame.

(** The body of the loop over [people]. *)
Definition draw_person (score_thresh : R) (radius thickness : Z)
    (frame : Frame) (person : PersonPose.t) : Frame :=
  let by_name := _kp_by_name person in
  let frame := draw_each (keypoint_shape score_thresh radius) by_name frame in
  let frame :=
    draw_each (edge_shape by_name score_thresh thickness) SKELETON_PAIRS
      frame in
  match bbox_shape person thickness with
  | Some shape => draw shape frame
  | None => frame
  end.

Definition draw_skeleton (frame_bgr : Frame) (people : list PersonPose.t)
    (score_thresh : R) : Frame :=
  let h := frame_height frame_bgr in
  let w := frame_width frame_bgr in
  let thickness := Z.max 2 (Py.round (0.004 * IZR (Z.max h w))) in
  let radius := Z.max 2 (Py.round (0.006 * IZR (Z.max h w))) in
  fold_left (draw_person score_thresh radius thickness) people frame_bgr.

(** A shape that [draw_skeleton] may draw for [person]: a filled circle on
    a named keypoint, an edge of the skeleton between two named keypoints,
    each scored at least [score_thresh], or the rectangle of a box of four
    numbers. *)
Definition drawn_for (person : PersonPose.t) (score_thresh : R)
    (shape : Shape) : Prop :=
  match shape with
  | circle center _ color thickness =>
      color = kp_color /\ thickness = (-1)%Z
      /\ exists name x y s,
           dict_get name (_kp_by_name person) = Some (x, y, s)
           /\ score_thresh <= s /\ center = point x y
  | line pt1 pt2 color _ =>
      color = edge_color
      /\ exists a b x1 y1 s1 x2 y2 s2,
           In (a, b) SKELETON_PAIRS
           /\ dict_get a (_kp_by_name person) = Some (x1, y1, s1)
           /\ dict_get b (_kp_by_name person) = Some (x2, y2, s2)
           /\ score_thresh <= s1 /\ score_thresh <= s2
           /\ pt1 = point x1 y1 /\ pt2 = point x2 y2
  | rectangle pt1 pt2 color _ =>
      color = box_color
      /\ exists x1 y1 x2 y2,
           PersonPose.bbox person = Some [x1; y1; x2; y2]
           /\ pt1 = point x1 y1 /\ pt2 = point x2 y2
  end.

End Draw.

(** ** main.py: the list of worker threads *)

Module Workers.

(** A [Thread] object, by its identity. *)
Definition Thread : Type := nat.

Definition _register_worker (t : Thread) (_WORKERS : list Thread)
    : list Thread :=
  _WORKERS ++ [t].

(** [list.remove(x)]: drops the first [x]; [None] stands for the
    [ValueError] of a list without [x]. *)
Fixpoint list_remove (x : Thread) (l : list Thread) : option (list Thread) :=
  match l with
  | [] => None
  | y :: l' =>
      if Nat.eqb x y then Some l'
      else option_map (cons y) (list_remove x l')
  end.

(** [me] is [current_thread()]; the [ValueError] is passed over. *)
Definition _unregister_current_worker (me : Thread) (_WORKERS : list Thread)
    : list Thread :=
  match list_remove me _WORKERS with
  | Some rest => rest
  | None => _WORKERS
  end.

End Workers.

(** ** pose.py: [PoseEstimator.__init__]; main.py: [get_estimator],
    [analyze_video]

    Writing the upload to a temporary file is taken to succeed; the video
    is given by what the capture yields, the frames in order or nothing when
    it does not open. The stop event is read from the state of the call:
    no other thread sets it while the call runs. *)

Module App.

(** A [PoseEstimator] object: the devices it records and what
    [estimate] works with. *)
Record Estimator : Type := mkEstimator {
  device : Device.TorchDevice;
  device_type : string;
  inference_device : Device.TorchDevice;
  pose : Pose.t
}.

(** What loading the models does: whether a Sports2D module is found, and
    the model each loader returns, any of which may raise. *)
Record Loader : Type := mkLoader {
  find_sports2d : Py.Result bool;
  load_sports2d : Py.Result (Pose.Image -> list Pose.RawPose);
  load_torchvision : Py.Result (Pose.Image -> Pose.Detections)
}.

(** The [try] around the Sports2D initialisation: the model when it is
    there, [None] when it is not found or an [Exception] was raised. *)
Definition try_sports2d (loader : Loader)
    : Py.Result (option (Pose.Image -> list Pose.RawPose)) :=
  let attempt :=
    do found <- find_sports2d loader;
    if found : bool then
      do model <- load_sports2d loader;
      Py.Ok (Some model)
    else Py.Ok None in
  match attempt with
  | Py.Ok backend => Py.Ok backend
  | Py.Raise e => if Py.is_Exception e then Py.Ok None else Py.Raise e
  end.

(** [PoseEstimator(preferred_device, score_threshold, max_side)]. The
    model slot the chosen backend does not use answers with no output. *)
Definition new_estimator (hw : Device.Hardware) (loader : Loader)
    (preferred_device : option string) (score_threshold : R) (max_side : Z)
    : Py.Result Estimator :=
  let '(device, device_type) := Device.get_torch_device hw preferred_device in
  let inference_device := device in
  do sports2d <- try_sports2d loader;
  match sports2d with
  | Some model =>
      Py.Ok (mkEstimator device device_type inference_device
               (Pose.mk score_threshold max_side Pose.sports2d model
                  (fun _ => Pose.mkDetections None None 0 None None None)))
  | None =>
      do model <- load_torchvision loader;
      let inference_device :=
        if String.eqb (Device.type device) "mps"
        then Device.mkTorchDevice "cpu"
        else inference_device in
      Py.Ok (mkEstimator device device_type inference_device
               (Pose.mk score_threshold max_side Pose.torchvision
                  (fun _ => []) model))
  end.

(** What the server is run with: the machine, the model loaders, the value
    of [PREFERRED_DEVICE] and how an exception prints. *)
Record Env : Type := mkEnv {
  hardware : Device.Hardware;
  cuda : Device.CudaProbe;
  loader : Loader;
  PREFERRED_DEVICE : option string;
  str : Py.Exc -> string
}.

(** The globals these functions work on: those of [Main.World] and the
    cache [_estimators]. *)
Record State : Type := mkState {
  world : Main.World;
  _estimators : gmap string Estimator
}.

Definition M (A : Type) : Type := State -> State * Py.Result A.

Definition get_estimator (env : Env) (preferred : option string)
    : M Estimator :=
  fun st =>
    let '(device, device_type) :=
      Device.get_torch_device (hardware env) preferred in
    match _estimators st !! device_type with
    | Some estimator => (st, Py.Ok estimator)
    | None =>
        match new_estimator (hardware env) (loader env) (Some device_type)
                0.5 640 with
        | Py.Raise e => (st, Py.Raise e)
        | Py.Ok estimator =>
            (mkState (world st) (<[device_type := estimator]> (_estimators st)),
             Py.Ok estimator)
        end
    end.

Record VideoAnalyzeResponse : Type := mkVideoAnalyzeResponse {
  response_device : Device.DeviceInfo;
  analyzed_frames : Z;
  any_fall : bool;
  fall_frames : list Z;
  average_fall_score : R
}.

Definition server_stopping : Py.Exc := Py.HTTPException 503 "Server stopping".
Definition failed_to_read : Py.Exc :=
  Py.HTTPException 400 "Failed to read video".

(** The [while] loop of [analyze_video] over the frames the capture still
    has, with the local variables it carries. *)
Fixpoint video_loop (stop : bool) (estimator : Pose.t)
    (frames : list Pose.Image) (frame_idx analyzed : Z)
    (fall_frames : list Z) (scores : list R)
    : Py.Result (Z * list Z * list R) :=
  if stop then Py.Ok (analyzed, fall_frames, scores)
  else
    match frames with
    | [] => Py.Ok (analyzed, fall_frames, scores)
    | frame :: frames =>
        let frame_idx := (frame_idx + 1)%Z in
        if negb (frame_idx mod 3 =? 0)%Z
        then video_loop stop estimator frames frame_idx analyzed fall_frames
               scores
        else
          do people <- Pose.estimate estimator frame;
          do verdict <- Fall.predict people;
          let '(is_fall, fall_score) := verdict in
          let analyzed := (analyzed + 1)%Z in
          let scores := scores ++ [fall_score] in
          let fall_frames :=
            if is_fall : bool then fall_frames ++ [frame_idx]
            else fall_frames in
          video_loop stop estimator frames frame_idx analyzed fall_frames
            scores
    end.

(** [except HTTPException: raise / except Exception as e: raise
    HTTPException(500, str(e))] *)
Definition as_http_error {A} (env : Env) (r : Py.Result A) : Py.Result A :=
  match r with
  | Py.Ok a => Py.Ok a
  | Py.Raise (Py.HTTPException status detail) =>
      Py.Raise (Py.HTTPException status detail)
  | Py.Raise e =>
      if Py.is_Exception e then Py.Raise (Py.HTTPException 500 (str env e))
      else Py.Raise e
  end.

(** [float(sum(scores) / len(scores)) if scores else 0.0] *)
Definition average (scores : list R) : R :=
  match scores with
  | [] => 0
  | _ => fold_left Rplus scores 0 / INR (length scores)
  end.

Definition analyze_video (env : Env) (video : option (list Pose.Image))
    : M VideoAnalyzeResponse :=
  fun st =>
    let stop := Main._STOP_EVENT (world st) in
    if stop then (st, Py.Raise server_stopping)
    else
      let preferred_device := PREFERRED_DEVICE env in
      let '(st, got) := get_estimator env preferred_device st in
      let stop := Main._STOP_EVENT (world st) in
      let tried :=
        do estimator <- got;
        do device_info <- Device.summarize_device (cuda env) (device estimator);
        match video with
        | None => Py.Raise failed_to_read
        | Some frames =>
            do counted <- video_loop stop (pose estimator) frames 0 0 [] [];
            if stop then Py.Raise server_stopping
            else Py.Ok (device_info, counted)
        end in
      match as_http_error env tried with
      | Py.Raise e => (st, Py.Raise e)
      | Py.Ok (device_info, (analyzed, fall_frames, scores)) =>
          let avg_score := average scores in
          (st,
           Py.Ok (mkVideoAnalyzeResponse device_info analyzed
                    (0 <? length fall_frames)%nat fall_frames avg_score))
      end.

(** Every cached estimator sits under its own device type. *)
Definition cache_ok (st : State) : Prop :=
  forall key estimator,
    _estimators st !! key = Some estimator ->
    device_type estimator = key /\ Device.type (device estimator) = key.

End App.

(** ** Further concrete inputs *)

Module MoreSamples.

(** A person standing upright in the image: shoulders at height 50, hips
    at height 150, all on the vertical [x = 100]. *)
Definition standing : PersonPose.t :=
  PersonPose.mk
    [ Keypoint.mk 90 50 1 (Some "left_shoulder"%string);
      Keypoint.mk 110 50 1 (Some "right_shoulder"%string);
      Keypoint.mk 90 150 1 (Some "left_hip"%string);
      Keypoint.mk 110 150 1 (Some "right_hip"%string) ]
    0.9 None.

(** A Sports2D output within the schema's bounds whose box has three
    numbers. *)
Definition raw_short_box : Pose.RawPose :=
  Pose.mkRawPose (Some [[10; 20; 0.5]]) (Some 0.9) (Some [0; 0; 4]).
Definition sports2d_short_box : Pose.t :=
  Samples.estimator Pose.sports2d [raw_short_box] Samples.no_detections.

(** A server on a machine without accelerator or Sports2D, whose detector
    finds nobody; and its state before any request. *)
Definition quiet_env : App.Env :=
  App.mkEnv (Device.mkHardware false false false)
    (Device.mkCudaProbe (Py.Raise Py.ValueError)
       (fun _ => Py.Raise Py.ValueError) (fun _ => Py.Raise Py.ValueError))
    (App.mkLoader (Py.Ok false) (Py.Raise Py.KeyError)
       (Py.Ok (fun _ => Samples.no_detections)))
    None (fun _ => "error"%string).

Definition fresh_state : App.State := App.mkState Samples.world_empty ∅.

Definition three_frames : list Pose.Image :=
  [Samples.image_640x480; Samples.image_640x480; Samples.image_640x480].

End MoreSamples.

(** * Properties *)

(** ** Real-number helpers *)

Ltac case_minmax :=
  unfold Rmax, Rmin in *;
  repeat match goal with
         | |- context [Rle_dec ?a ?b] => destruct (Rle_dec a b)
         | H : context [Rle_dec ?a ?b] |- _ => destruct (Rle_dec a b)
         end;
  try lra.

Lemma min_max_clamp (v : R) : Rmin 1 (Rmax 0 v) = Fall.clamp v 0 1.
Proof. unfold Fall.clamp. case_minmax. Qed.

Lemma clamp_range (v : R) : 0 <= Fall.clamp v 0 1 <= 1.
Proof. unfold Fall.clamp. case_minmax. Qed.

Lemma Rmax_0_nonneg (a : R) : 0 <= a -> Rmax 0 a = a.
Proof. intros. case_minmax. Qed.

Lemma damping_range (c : R) : 0.5 <= Rmax 0.5 (Rmin 1 c) <= 1.
Proof. case_minmax. Qed.

Lemma Rgeb_true (a b : R) : Py.Rgeb a b = true <-> b <= a.
Proof.
  unfold Py.Rgeb. destruct (Rge_dec a b) as [Hge | Hn]; split; intros H;
    try reflexivity; try discriminate.
  - lra.
  - exfalso. apply Hn. lra.
Qed.

Lemma Rleb_true (a b : R) : Py.Rleb a b = true <-> a <= b.
Proof.
  unfold Py.Rleb. destruct (Rle_dec a b); split; intros H;
    try reflexivity; try discriminate; tauto.
Qed.

Lemma Rltb_true (a b : R) : Py.Rltb a b = true <-> a < b.
Proof.
  unfold Py.Rltb. destruct (Rlt_dec a b); split; intros H;
    try reflexivity; try discriminate; tauto.
Qed.

Lemma Rgtb_true (a b : R) : Py.Rgtb a b = true <-> b < a.
Proof.
  unfold Py.Rgtb. destruct (Rgt_dec a b) as [Hgt | Hn]; split; intros H;
    try reflexivity; try discriminate.
  - exact Hgt.
  - exfalso. apply Hn. exact H.
Qed.

Lemma Reqb_true (a b : R) : Py.Reqb a b = true <-> a = b.
Proof.
  unfold Py.Reqb. destruct (Req_dec_T a b); split; intros H;
    try reflexivity; try discriminate; tauto.
Qed.

(** ** fall.py *)

Section FallScoring.

Implicit Types (person : PersonPose.t) (people : list PersonPose.t).



(** The first keypoint bearing a name is the one the code's loop
    returns. *)
Lemma landmark_get_point person (name : string) :
  Fall.landmark person name = Fall._get_point person name.
Proof.
  unfold Fall.landmark, Fall.named, Fall._get_point.
  induction (PersonPose.keypoints person) as [| kp kps IH]; [reflexivity |].
  rewrite filter_cons. cbn [find].
  destruct (decide (Keypoint.name kp = Some name)) as [Hname | Hname].
  - rewrite (bool_decide_true _ Hname). reflexivity.
  - rewrite (bool_decide_false _ Hname). exact IH.
Qed.

Lemma angle_term_eq person :
  match Fall._torso_angle_deg person with
  | Some angle => Rmin 1 (Rmax 0 ((angle - 20) / (90 - 20)))
  | None => 0
  end = Fall.spec_angle_term person.
Proof.
  unfold Fall._torso_angle_deg, Fall.spec_angle_term, Fall.spec_torso_angle,
    Fall._center, Fall.midpoint, Py.degrees.
  rewrite !landmark_get_point.
  destruct (Fall._get_point person "left_shoulder") as [ls |]; [| reflexivity].
  destruct (Fall._get_point person "right_shoulder") as [rs |]; [| reflexivity].
  destruct (Fall._get_point person "left_hip") as [lh |]; [| reflexivity].
  destruct (Fall._get_point person "right_hip") as [rh |]; [| reflexivity].
  simpl. rewrite min_max_clamp. f_equal. lra.
Qed.

Lemma score_person_eq person :
  PersonPose.bbox_ok person = true ->
  Fall.score_person person = Py.Ok (Fall.spec_score_person person).
Proof.
  intros Hbox. unfold Fall.score_person, Fall.spec_score_person.
  rewrite <- angle_term_eq.
  unfold Fall._aspect_ratio, Fall.spec_aspect_term, PersonPose.bbox_ok in *.
  destruct (PersonPose.bbox person) as [[| x1 [| y1 [| x2 [| y2 [| ? ?]]]]] |];
    try discriminate; simpl.
  - destruct (Fall._torso_angle_deg person) as [angle |];
      (apply f_equal, f_equal2; [| reflexivity]); case_minmax.
  - replace (2.0 - 0.8) with 1.2 by lra. rewrite min_max_clamp.
    destruct (Fall._torso_angle_deg person) as [angle |].
    + rewrite min_max_clamp, (Rmax_0_nonneg (Fall.clamp _ 0 1)); [reflexivity |].
      apply clamp_range.
    + reflexivity.
  - destruct (Fall._torso_angle_deg person) as [angle |];
      (apply f_equal, f_equal2; [| reflexivity]); case_minmax.
Qed.

Lemma spec_angle_term_range person : 0 <= Fall.spec_angle_term person <= 1.
Proof.
  unfold Fall.spec_angle_term.
  repeat match goal with
         | |- context [match ?o with Some _ => _ | None => _ end] => destruct o
         end; try lra; apply clamp_range.
Qed.

Lemma spec_aspect_term_range person : 0 <= Fall.spec_aspect_term person <= 1.
Proof.
  unfold Fall.spec_aspect_term.
  destruct (PersonPose.bbox person) as [[| x1 [| y1 [| x2 [| y2 [| ? ?]]]]] |];
    try lra; apply clamp_range.
Qed.

Lemma spec_score_person_range person :
  0 <= Fall.spec_score_person person <= 1.
Proof.
  unfold Fall.spec_score_person.
  pose proof (spec_angle_term_range person) as Ha.
  pose proof (spec_aspect_term_range person) as Hb.
  pose proof (damping_range (PersonPose.score person)) as Hc.
  assert (Hm : 0 <= Rmax (Fall.spec_angle_term person)
                       (Fall.spec_aspect_term person) <= 1)
    by (unfold Rmax; destruct (Rle_dec _ _); lra).
  nra.
Qed.

Lemma mapM_score_person people :
  Forall (fun p => PersonPose.bbox_ok p = true) people ->
  Py.mapM Fall.score_person people
  = Py.Ok (map Fall.spec_score_person people).
Proof.
  induction 1 as [| p people Hp _ IH]; simpl.
  - reflexivity.
  - rewrite (score_person_eq p Hp). simpl. rewrite IH. reflexivity.
Qed.

Lemma fold_left_Rmax_ge (l : list R) (a : R) :
  a <= fold_left Rmax l a /\ Forall (fun s => s <= fold_left Rmax l a) l.
Proof.
  revert a. induction l as [| b l IH]; intros a; simpl.
  - split; [lra | constructor].
  - destruct (IH (Rmax a b)) as [H1 H2]. split.
    + pose proof (Rmax_l a b). lra.
    + constructor; [| exact H2]. pose proof (Rmax_r a b). lra.
Qed.

Lemma fold_left_Rmax_in (l : list R) (a : R) :
  In (fold_left Rmax l a) (a :: l).
Proof.
  revert a. induction l as [| b l IH]; intros a; simpl.
  - left. reflexivity.
  - destruct (IH (Rmax a b)) as [H | H].
    + unfold Rmax in H at 1. destruct (Rle_dec a b); auto.
    + right. right. exact H.
Qed.

End FallScoring.

(** A horizontal box of ratio 2 scores 1 at full confidence. *)
Example score_person_lying_box :
  Fall.score_person Samples.lying_box = Py.Ok 1.
Proof.
  unfold Fall.score_person, Samples.lying_box. simpl.
  f_equal. case_minmax.
Qed.

(** A torso at 90 degrees from the vertical scores 1 at full confidence. *)
Example score_person_horizontal_torso :
  Fall.score_person Samples.horizontal_torso = Py.Ok 1.
Proof.
  unfold Fall.score_person, Fall._torso_angle_deg, Fall._get_point,
    Samples.horizontal_torso. simpl.
  assert (Hangle : Py.degrees (Rabs (Py.atan2 ((1 + 1) / 2 - (0 + 0) / 2)
                                       ((0 + 0) / 2 - (0 + 0) / 2))) = 90).
  { unfold Py.atan2, Py.degrees.
    destruct (Rlt_dec 0 _) as [H | _]; [lra |].
    destruct (Rlt_dec _ 0) as [H | _]; [lra |].
    destruct (Rlt_dec 0 _) as [_ | H]; [| lra].
    pose proof PI_RGT_0 as Hpi.
    rewrite Rabs_right by lra. field. lra. }
  rewrite Hangle. f_equal. case_minmax.
Qed.







(** On these two detections the verdict is a fall with score 1. *)
Example predict_bare_and_lying_box :
  Fall.predict [Samples.bare; Samples.lying_box] = Py.Ok (true, 1).
Proof.
  cbv beta iota delta [Fall.predict]. cbn [Py.mapM].
  rewrite score_person_lying_box.
  assert (Hb : Fall.score_person Samples.bare = Py.Ok 0).
  { unfold Fall.score_person, Samples.bare. simpl. f_equal. lra. }
  rewrite Hb. simpl.
  assert (Hm : Rmax 0 1 = 1) by case_minmax. rewrite Hm.
  assert (Hg : Py.Rgeb 1 0.6 = true) by (apply Rgeb_true; lra).
  rewrite Hg. reflexivity.
Qed.

(** ** pose.py *)

Section Exponential.

(** [exp] grows at least like a power: [(1 + x)^n <= exp (n * x)]. *)
Lemma exp_lower_bound (x : R) (n : nat) :
  0 <= x -> (1 + x) ^ n <= Rtrigo_def.exp (INR n * x).
Proof.
  intros Hx. induction n as [| n IH].
  - simpl. rewrite Rmult_0_l, exp_0. lra.
  - rewrite S_INR, Rmult_plus_distr_r, Rmult_1_l, exp_plus.
    change ((1 + x) ^ S n) with ((1 + x) * (1 + x) ^ n).
    rewrite (Rmult_comm (1 + x)).
    apply Rmult_le_compat.
    + apply pow_le. lra.
    + lra.
    + exact IH.
    + apply exp_ineq1_le.
Qed.

Lemma DBL_MAX_lt_pow : Py.DBL_MAX < 2 ^ 1024.
Proof.
  unfold Py.DBL_MAX.
  change (2 ^ 1024) with (2 * 2 ^ 1023).
  assert (H52 : 0 < / 2 ^ 52) by (apply Rinv_0_lt_compat, pow_lt; lra).
  assert (H1023 : 0 < 2 ^ 1023) by (apply pow_lt; lra).
  generalize dependent (2 ^ 1023). generalize dependent (/ 2 ^ 52).
  intros a Ha b Hb. nra.
Qed.

Lemma pow_1024_le : 2 ^ 1024 <= (1 + 1 / 4) ^ 4000.
Proof.
  assert (H4 : 0 < 4 ^ 4000) by (apply pow_lt; lra).
  apply (Rmult_le_reg_r (4 ^ 4000)); [exact H4 |].
  rewrite <- (Rpow_mult_distr (1 + 1 / 4) 4).
  replace ((1 + 1 / 4) * 4) with 5 by lra.
  rewrite !pow_IZR, <- mult_IZR. apply IZR_le.
  apply Z.leb_le. vm_compute. reflexivity.
Qed.

Lemma exp_1000_overflows : Py.DBL_MAX < Rtrigo_def.exp 1000.
Proof.
  pose proof DBL_MAX_lt_pow as H1. pose proof pow_1024_le as H2.
  pose proof (exp_lower_bound (1 / 4) 4000) as H3.
  replace (INR 4000 * (1 / 4)) with 1000 in H3.
  - assert (0 <= 1 / 4) by lra. specialize (H3 H).
    eapply Rlt_le_trans; [exact H1 |]. eapply Rle_trans; [exact H2 | exact H3].
  - rewrite INR_IZR_INZ. change (Z.of_nat 4000) with 4000%Z. lra.
Qed.

(** [exp] grows at most like a power of 3: [exp n <= 3^n]. *)
Lemma exp_upper_bound (n : nat) : Rtrigo_def.exp (INR n) <= 3 ^ n.
Proof.
  induction n as [| n IH].
  - simpl. rewrite exp_0. lra.
  - rewrite S_INR, exp_plus.
    change (3 ^ S n) with (3 * 3 ^ n). rewrite (Rmult_comm 3).
    apply Rmult_le_compat.
    + left. apply exp_pos.
    + left. apply exp_pos.
    + exact IH.
    + exact exp_le_3.
Qed.

Lemma pow_1023_le_DBL_MAX : 2 ^ 1023 <= Py.DBL_MAX.
Proof.
  unfold Py.DBL_MAX.
  assert (H52 : / 2 ^ 52 <= 1).
  { assert (Hp : 1 <= 2 ^ 52) by (apply pow_R1_Rle; lra).
    pose proof (Rinv_le_contravar 1 (2 ^ 52) Rlt_0_1 Hp) as Hi.
    rewrite Rinv_1 in Hi. exact Hi. }
  assert (H1023 : 0 < 2 ^ 1023) by (apply pow_lt; lra).
  generalize dependent (2 ^ 1023). generalize dependent (/ 2 ^ 52).
  intros a Ha b Hb. nra.
Qed.

Lemma exp_500_fits : Rtrigo_def.exp 500 <= Py.DBL_MAX.
Proof.
  pose proof (exp_upper_bound 500) as H.
  replace (INR 500) with 500 in H
    by (rewrite INR_IZR_INZ; change (Z.of_nat 500) with 500%Z; reflexivity).
  eapply Rle_trans; [exact H |].
  eapply Rle_trans; [| exact pow_1023_le_DBL_MAX].
  rewrite !pow_IZR. apply IZR_le. apply Z.leb_le. vm_compute. reflexivity.
Qed.

End Exponential.

Section KeypointScores.

(** C3. A heatmap score of -1000 read from the scores tensor is not
    normalised into [[0, 1]]: [math.exp(1000.0)] is out of the double
    range and the call raises [OverflowError]. *)
Theorem normalize_kp_score_overflow :
  Pose._normalize_kp_score (-1000) true = Py.Raise Py.OverflowError.
Proof.
  unfold Pose._normalize_kp_score.
  assert (Hneg : Py.Rltb (-1000) 0 = true) by (apply Rltb_true; lra).
  rewrite Hneg. cbn [orb].
  replace (- -1000) with 1000 by lra.
  unfold Py.exp. destruct (Rlt_dec _ _) as [_ | Hn]; [reflexivity |].
  exfalso. apply Hn, exp_1000_overflows.
Qed.

(** Whatever [_normalize_kp_score] returns lies in [[0, 1]]. *)
Lemma normalize_kp_score_range (value : R) (used_scores_tensor : bool) (s : R) :
  Pose._normalize_kp_score value used_scores_tensor = Py.Ok s ->
  0 <= s <= 1.
Proof.
  unfold Pose._normalize_kp_score. intros H.
  destruct (if used_scores_tensor then _ else _) as [score | e];
    simpl in H; [| discriminate].
  injection H as <-. case_minmax.
Qed.

(** The visibility path returns for every input. *)
Lemma normalize_kp_score_visibility (value : R) :
  Pose._normalize_kp_score value false
  = Py.Ok (Rmax 0 (Rmin 1 (Rmax 0 (Rmin 1 (value / 2))))).
Proof. reflexivity. Qed.

(** The scores-tensor path returns for every input from -500 up: the
    overflow needs a score far below any heatmap value seen in practice. *)
Lemma normalize_kp_score_moderate (value : R) :
  -500 <= value ->
  exists s, Pose._normalize_kp_score value true = Py.Ok s /\ 0 <= s <= 1.
Proof.
  intros Hv.
  assert (Hreturns : exists s, Pose._normalize_kp_score value true = Py.Ok s).
  { unfold Pose._normalize_kp_score.
    destruct (Py.Rltb value 0 || Py.Rgtb value 1); [| eexists; reflexivity].
    unfold Py.exp.
    destruct (Rlt_dec _ _) as [Hbig | _]; [| eexists; reflexivity].
    exfalso.
    assert (Hexp : Rtrigo_def.exp (- value) <= Rtrigo_def.exp 500).
    { destruct (Req_dec_T (- value) 500) as [-> | Hne]; [lra |].
      left. apply exp_increasing. lra. }
    pose proof exp_500_fits. lra. }
  destruct Hreturns as [s Hs]. exists s. split; [exact Hs |].
  apply (normalize_kp_score_range value true s Hs).
Qed.

End KeypointScores.

Section ListsOfResults.

Context {A B : Type}.
Implicit Types (f : A -> Py.Result B) (l : list A) (r : list B).

Lemma mapM_Ok_Forall2 f l r :
  Py.mapM f l = Py.Ok r -> Forall2 (fun a b => f a = Py.Ok b) l r.
Proof.
  revert r. induction l as [| a l IH]; intros r H; simpl in H.
  - injection H as <-. constructor.
  - destruct (f a) as [b | e] eqn:Hfa; simpl in H; [| discriminate].
    destruct (Py.mapM f l) as [bs | e]; simpl in H; [| discriminate].
    injection H as <-. constructor; [exact Hfa | apply IH; reflexivity].
Qed.

Lemma Forall2_mapM_Ok f l r :
  Forall2 (fun a b => f a = Py.Ok b) l r -> Py.mapM f l = Py.Ok r.
Proof.
  induction 1 as [| a b l r Hab _ IH]; simpl.
  - reflexivity.
  - rewrite Hab. simpl. rewrite IH. reflexivity.
Qed.

Lemma mapM_total f l :
  Forall (fun a => exists b, f a = Py.Ok b) l ->
  exists r, Py.mapM f l = Py.Ok r.
Proof.
  induction 1 as [| a l [b Hb] _ [r IH]]; simpl.
  - eexists. reflexivity.
  - rewrite Hb. simpl. rewrite IH. eexists. reflexivity.
Qed.

End ListsOfResults.

Section Schemas.

Lemma Keypoint_new_Ok (x y s : R) (name : option string) (kp : Keypoint.t) :
  Keypoint.new x y s name = Py.Ok kp <->
  0 <= s <= 1 /\ kp = Keypoint.mk x y s name.
Proof.
  unfold Keypoint.new.
  destruct (Py.Rleb 0 s) eqn:H0; destruct (Py.Rleb s 1) eqn:H1; simpl.
  - apply Rleb_true in H0, H1. split.
    + intros [= <-]. tauto.
    + intros [_ ->]. reflexivity.
  - split; [discriminate |]. intros [[_ H] _].
    apply Rleb_true in H. congruence.
  - split; [discriminate |]. intros [[H _] _].
    apply Rleb_true in H. congruence.
  - split; [discriminate |]. intros [[H _] _].
    apply Rleb_true in H. congruence.
Qed.

Lemma PersonPose_new_Ok (kps : list Keypoint.t) (s : R)
    (bbox : option (list R)) (p : PersonPose.t) :
  PersonPose.new kps s bbox = Py.Ok p <->
  0 <= s <= 1 /\ p = PersonPose.mk kps s bbox.
Proof.
  unfold PersonPose.new.
  destruct (Py.Rleb 0 s) eqn:H0; destruct (Py.Rleb s 1) eqn:H1; simpl.
  - apply Rleb_true in H0, H1. split.
    + intros [= <-]. tauto.
    + intros [_ ->]. reflexivity.
  - split; [discriminate |]. intros [[_ H] _].
    apply Rleb_true in H. congruence.
  - split; [discriminate |]. intros [[H _] _].
    apply Rleb_true in H. congruence.
  - split; [discriminate |]. intros [[H _] _].
    apply Rleb_true in H. congruence.
Qed.

End Schemas.

Section Sports2D.

Lemma sports2d_keypoint_Ok (k : list R) (kp : Keypoint.t) :
  Pose.sports2d_keypoint k = Py.Ok kp <->
  exists x y s rest,
    k = x :: y :: s :: rest /\ Pose.in_unit_interval s
    /\ kp = Keypoint.mk x y s None.
Proof.
  unfold Pose.sports2d_keypoint, Pose.index, Pose.in_unit_interval.
  destruct k as [| x [| y [| s rest]]]; simpl.
  1-3: split; [discriminate | intros (? & ? & ? & ? & [=] & _)].
  rewrite Keypoint_new_Ok. split.
  - intros [Hs ->]. exists x, y, s, rest. tauto.
  - intros (x' & y' & s' & rest' & [= -> -> -> ->] & Hs & ->). tauto.
Qed.

Lemma sports2d_keypoints_Ok (ks : list (list R)) (kps : list Keypoint.t) :
  Py.mapM Pose.sports2d_keypoint ks = Py.Ok kps ->
  Forall2 Pose.keypoint_passed_through ks kps
  /\ Forall Pose.in_unit_interval (map Keypoint.score kps)
  /\ Forall (fun k => exists x y s rest,
                        k = x :: y :: s :: rest /\ Pose.in_unit_interval s) ks.
Proof.
  intros H. apply mapM_Ok_Forall2 in H.
  induction H as [| k kp ks kps Hk _ (IH1 & IH2 & IH3)]; simpl.
  - repeat constructor.
  - apply sports2d_keypoint_Ok in Hk.
    destruct Hk as (x & y & s & rest & -> & Hs & ->).
    split; [| split].
    + constructor; [| exact IH1]. repeat split.
    + constructor; [exact Hs | exact IH2].
    + constructor; [| exact IH3]. exists x, y, s, rest. tauto.
Qed.

Lemma sports2d_person_Ok (pose : Pose.RawPose) (p : PersonPose.t) :
  Pose.sports2d_person pose = Py.Ok p ->
  Pose.passed_through pose p
  /\ Forall Pose.in_unit_interval (Pose.confidences p)
  /\ Pose.raw_in_range pose.
Proof.
  unfold Pose.sports2d_person, Pose.passed_through, Pose.raw_in_range,
    Pose.confidences.
  destruct (Pose.raw_keypoints pose) as [ks |]; simpl; [| discriminate].
  destruct (Py.mapM Pose.sports2d_keypoint ks) as [kps | e] eqn:Hkps; simpl;
    [| discriminate].
  intros H. apply PersonPose_new_Ok in H. destruct H as [Hs ->]. simpl.
  destruct (sports2d_keypoints_Ok ks kps Hkps) as (H1 & H2 & H3).
  repeat split; try tauto; try (exists ks; tauto).
  constructor; [exact Hs | exact H2].
Qed.

Lemma sports2d_person_total (pose : Pose.RawPose) :
  Pose.raw_in_range pose -> exists p, Pose.sports2d_person pose = Py.Ok p.
Proof.
  unfold Pose.raw_in_range, Pose.sports2d_person.
  intros [(ks & -> & Hks) Hs]. simpl.
  destruct (mapM_total Pose.sports2d_keypoint ks) as [kps Hkps].
  { eapply Forall_impl; [exact Hks |]. simpl.
    intros k (x & y & s & rest & -> & Hin). eexists.
    apply sports2d_keypoint_Ok. exists x, y, s, rest. tauto. }
  rewrite Hkps. simpl. eexists. apply PersonPose_new_Ok. split; [exact Hs |].
  reflexivity.
Qed.

End Sports2D.

(** What the Sports2D path does when it returns. [estimate] passes the
    backend's keypoints, score and box through unchanged; it returns exactly
    when every raw keypoint has its three numbers with a score in [[0, 1]]
    and every person score (1.0 when absent) is in [[0, 1]]; whenever it
    returns, every confidence of the result is the raw one and lies in
    [[0, 1]]. *)
Theorem estimate_sports2d_spec (self : Pose.t) (image : Pose.Image)
    (Hbackend : Pose.backend self = Pose.sports2d) :
  (forall people, Pose.estimate self image = Py.Ok people ->
     Forall2 Pose.passed_through (Pose.sports2d_predict self image) people
     /\ Forall (fun p => Forall Pose.in_unit_interval (Pose.confidences p))
          people)
  /\ ((exists people, Pose.estimate self image = Py.Ok people) <->
      Forall Pose.raw_in_range (Pose.sports2d_predict self image)).
Proof.
  unfold Pose.estimate, Pose._estimate_sports2d. rewrite Hbackend.
  assert (Hok : forall people,
             Py.mapM Pose.sports2d_person (Pose.sports2d_predict self image)
             = Py.Ok people ->
             Forall2 Pose.passed_through (Pose.sports2d_predict self image) people
             /\ Forall (fun p => Forall Pose.in_unit_interval (Pose.confidences p))
                  people
             /\ Forall Pose.raw_in_range (Pose.sports2d_predict self image)).
  { intros people H. apply mapM_Ok_Forall2 in H.
    induction H as [| pose p poses people Hp _ (IH1 & IH2 & IH3)].
    - repeat constructor.
    - apply sports2d_person_Ok in Hp. destruct Hp as (H1 & H2 & H3).
      repeat split; constructor; assumption. }
  split; [| split].
  - intros people H. destruct (Hok people H) as (H1 & H2 & _). tauto.
  - intros [people H]. apply (Hok people H).
  - intros H. apply mapM_total. eapply Forall_impl; [exact H |].
    apply sports2d_person_total.
Qed.

Lemma estimate_sports2d_spec_witness :
  Pose.backend Samples.sports2d_good = Pose.sports2d
  /\ ((exists people,
         Pose.estimate Samples.sports2d_good Samples.image_640x480
         = Py.Ok people) <->
      Forall Pose.raw_in_range
        (Pose.sports2d_predict Samples.sports2d_good Samples.image_640x480)).
Proof.
  split; [reflexivity |].
  apply (estimate_sports2d_spec Samples.sports2d_good Samples.image_640x480
           eq_refl).
Defined.

(** C6. The Sports2D path does not clamp. On a backend output of one pose
    with one keypoint [[10, 20, 1.5]] and person score 0.9, [estimate] does
    not return a confidence clamped into [[0, 1]]: it builds the [Keypoint]
    from the raw score and the schema's bound check raises
    [ValidationError]. The torchvision path of the same class brings the
    same raw score 1.5 into [[0, 1]] before it builds the [Keypoint],
    whichever of its two normalisations applies. *)
Theorem estimate_sports2d_out_of_range :
  Pose.backend Samples.sports2d_out_of_range = Pose.sports2d
  /\ Pose.sports2d_predict Samples.sports2d_out_of_range
       Samples.image_640x480
     = [Pose.mkRawPose (Some [[10; 20; 1.5]]) (Some 0.9) None]
  /\ Pose.estimate Samples.sports2d_out_of_range Samples.image_640x480
     = Py.Raise Py.ValidationError
  /\ (forall used_scores_tensor : bool,
        exists s, Pose._normalize_kp_score 1.5 used_scores_tensor = Py.Ok s
                  /\ 0 <= s <= 1).
Proof.
  split; [reflexivity |]. split; [reflexivity |]. split.
  - unfold Pose.estimate, Pose._estimate_sports2d. simpl.
    unfold Pose.sports2d_person. simpl.
    unfold Pose.sports2d_keypoint, Pose.index. simpl.
    unfold Keypoint.new.
    assert (H : Py.Rleb 1.5 1 = false).
    { destruct (Py.Rleb 1.5 1) eqn:E; [| reflexivity].
      apply Rleb_true in E. lra. }
    rewrite H, andb_false_r. reflexivity.
  - intros [|].
    + apply normalize_kp_score_moderate. lra.
    + eexists. split; [apply normalize_kp_score_visibility |].
      eapply normalize_kp_score_range, normalize_kp_score_visibility.
Qed.

(** The same estimator on a raw output inside the bounds returns it. *)
Example estimate_sports2d_good :
  Pose.estimate Samples.sports2d_good Samples.image_640x480
  = Py.Ok [PersonPose.mk [Keypoint.mk 10 20 0.5 None] 0.9 None].
Proof.
  unfold Pose.estimate, Pose._estimate_sports2d. simpl.
  unfold Pose.sports2d_person. simpl.
  unfold Pose.sports2d_keypoint, Pose.index. simpl.
  unfold Keypoint.new, PersonPose.new.
  assert (H1 : Py.Rleb 0 0.5 = true) by (apply Rleb_true; lra).
  assert (H2 : Py.Rleb 0.5 1 = true) by (apply Rleb_true; lra).
  assert (H3 : Py.Rleb 0 0.9 = true) by (apply Rleb_true; lra).
  assert (H4 : Py.Rleb 0.9 1 = true) by (apply Rleb_true; lra).
  rewrite H1, H2. simpl. rewrite H3, H4. reflexivity.
Qed.

Section Rounding.

Lemma Int_part_IZR (m : Z) : Int_part (IZR m) = m.
Proof. symmetry. apply Int_part_spec. lra. Qed.

Lemma round_IZR (m : Z) : Py.round (IZR m) = m.
Proof.
  unfold Py.round. rewrite Int_part_IZR.
  destruct (Rlt_dec _ _) as [_ | H]; [reflexivity | lra].
Qed.

Lemma Int_part_lt (r : R) (m : Z) : r < IZR m -> (Int_part r + 1 <= m)%Z.
Proof.
  intros H. destruct (base_Int_part r) as [Hlo _].
  assert (Hlt : IZR (Int_part r) < IZR m) by lra.
  apply lt_IZR in Hlt. lia.
Qed.

Lemma round_le (r : R) (m : Z) : r <= IZR m -> (Py.round r <= m)%Z.
Proof.
  intros [Hlt | ->]; [| rewrite round_IZR; lia].
  pose proof (Int_part_lt r m Hlt). unfold Py.round.
  destruct (Rlt_dec _ _); [lia |].
  destruct (Rlt_dec _ _); [lia |].
  destruct (Z.even _); lia.
Qed.

Lemma round_small (r : R) : 0 <= r < 1 / 2 -> Py.round r = 0%Z.
Proof.
  intros H. assert (Hf : Int_part r = 0%Z).
  { symmetry. apply Int_part_spec. lra. }
  unfold Py.round. rewrite Hf.
  destruct (Rlt_dec _ _) as [_ | Hn]; [reflexivity | lra].
Qed.

End Rounding.

Section Resize.

Variables (self : Pose.t) (image : Pose.Image).
Hypothesis Hw : (0 < Pose.width image)%Z.
Hypothesis Hh : (0 < Pose.height image)%Z.
Hypothesis Hm : (0 < Pose.max_side self)%Z.

Let longer : Z := Z.max (Pose.width image) (Pose.height image).

Lemma resize_small :
  (longer <= Pose.max_side self)%Z ->
  Pose._resize_for_inference self image = Py.Ok (image, 1).
Proof.
  intros H. unfold Pose._resize_for_inference. fold longer.
  destruct (Z.ltb_spec (Pose.max_side self) longer); [lia | reflexivity].
Qed.

Lemma resize_large :
  (Pose.max_side self < longer)%Z ->
  let s := IZR (Pose.max_side self) / IZR longer in
  Pose._resize_for_inference self image
  = Py.Ok (Pose.mkImage
             (Z.max 1 (Py.round (IZR (Pose.width image) * s)))
             (Z.max 1 (Py.round (IZR (Pose.height image) * s))), s)
  /\ 0 < s < 1
  /\ Z.max (Z.max 1 (Py.round (IZR (Pose.width image) * s)))
           (Z.max 1 (Py.round (IZR (Pose.height image) * s)))
     = Pose.max_side self.
Proof.
  intros H s.
  assert (Hl : (0 < longer)%Z) by (unfold longer; lia).
  assert (HlR : 0 < IZR longer) by (apply IZR_lt; exact Hl).
  assert (HmR : 0 < IZR (Pose.max_side self)) by (apply IZR_lt; exact Hm).
  assert (HlmR : IZR (Pose.max_side self) < IZR longer) by (apply IZR_lt; exact H).
  assert (Hs : 0 < s < 1).
  { unfold s. split.
    - apply Rdiv_lt_0_compat; assumption.
    - apply (Rmult_lt_reg_r (IZR longer)); [exact HlR |].
      unfold Rdiv. rewrite Rmult_assoc, Rinv_l, Rmult_1_r, Rmult_1_l by lra.
      exact HlmR. }
  assert (Hfull : IZR longer * s = IZR (Pose.max_side self)).
  { unfold s. field. lra. }
  assert (Hside : forall d : Z, (0 < d <= longer)%Z ->
            (Z.max 1 (Py.round (IZR d * s)) <= Pose.max_side self)%Z).
  { intros d [Hd0 Hd]. apply Z.max_lub; [lia |]. apply round_le.
    rewrite <- Hfull. apply Rmult_le_compat_r; [lra |].
    apply IZR_le. exact Hd. }
  assert (Hlong : Z.max 1 (Py.round (IZR longer * s)) = Pose.max_side self).
  { rewrite Hfull, round_IZR. lia. }
  split; [| split].
  - unfold Pose._resize_for_inference. fold longer.
    destruct (Z.ltb_spec (Pose.max_side self) longer); [| lia].
    destruct (Z.eqb_spec longer 0); [lia |]. reflexivity.
  - exact Hs.
  - pose proof (Hside (Pose.width image)) as Hsw.
    pose proof (Hside (Pose.height image)) as Hsh.
    unfold longer in *.
    destruct (Z.max_spec (Pose.width image) (Pose.height image))
      as [[Hlt Heq] | [Hle Heq]]; rewrite Heq in *.
    + rewrite Hlong. apply Z.max_r. apply Hsw. lia.
    + rewrite Hlong. apply Z.max_l. apply Hsh. lia.
Qed.

End Resize.

Section Torchvision.

Lemma index_Ok {A} (l : list A) (i : nat) (a : A) :
  Pose.index l i = Py.Ok a <-> l !! i = Some a.
Proof.
  unfold Pose.index. destruct (l !! i); split; congruence.
Qed.

(** What the code does to a coordinate, as one multiplication. *)
Lemma rescale_coordinate (s x : R) :
  0 < s ->
  (if Py.Reqb s 1 then x else x * (if Py.Reqb s 0 then 1 else 1 / s))
  = x * (1 / s).
Proof.
  intros Hs. unfold Py.Reqb.
  destruct (Req_dec_T s 1) as [-> | H1].
  - field.
  - destruct (Req_dec_T s 0); [lra | reflexivity].
Qed.

Variables (self : Pose.t) (s : R).
Hypothesis Hs : 0 < s.

Let inv_scale : R := if Py.Reqb s 0 then 1 else 1 / s.

Lemma torchvision_keypoint_Ok (rows : list (list (R * R * R)))
    (kss : option (list (list R))) (i j : nat) (kp : Keypoint.t) :
  Pose.torchvision_keypoint s inv_scale rows kss i j = Py.Ok kp ->
  exists row x y v,
    rows !! i = Some row /\ row !! j = Some (x, y, v)
    /\ Keypoint.x kp = x * (1 / s) /\ Keypoint.y kp = y * (1 / s)
    /\ Pose.in_unit_interval (Keypoint.score kp)
    /\ Keypoint.name kp = Utils.COCO_KEYPOINT_NAMES !! j.
Proof.
  unfold Pose.torchvision_keypoint. intros H.
  destruct (Pose.index rows i) as [row | e] eqn:Hrow; simpl in H;
    [| discriminate].
  destruct (Pose.index row j) as [[[x y] v] | e] eqn:Hxyv; simpl in H;
    [| discriminate].
  apply index_Ok in Hrow, Hxyv.
  match type of H with
  | Py.bind ?m _ = _ => destruct m as [kp_score | e] eqn:Hscore
  end; simpl in H; [| discriminate].
  apply Keypoint_new_Ok in H. destruct H as [Hrange ->]. simpl.
  exists row, x, y, v. unfold inv_scale, Pose.in_unit_interval.
  rewrite !rescale_coordinate by exact Hs. tauto.
Qed.

Lemma torchvision_person_Ok (bs : list (R * R * R * R)) (ss : list R)
    (shape1 : nat) (rows : list (list (R * R * R)))
    (kss : option (list (list R))) (i : nat) (p : PersonPose.t) :
  Pose.torchvision_person self s inv_scale bs ss shape1 rows kss i
  = Py.Ok (Some p) ->
  (exists b0 b1 b2 b3,
      bs !! i = Some (b0, b1, b2, b3)
      /\ PersonPose.bbox p
         = Some [b0 * (1 / s); b1 * (1 / s); b2 * (1 / s); b3 * (1 / s)])
  /\ length (PersonPose.keypoints p) = shape1
  /\ (forall j kp, PersonPose.keypoints p !! j = Some kp ->
        exists row x y v, rows !! i = Some row
                          /\ row !! j = Some (x, y, v)
                          /\ Keypoint.x kp = x * (1 / s)
                          /\ Keypoint.y kp = y * (1 / s))
  /\ Forall Pose.in_unit_interval (Pose.confidences p)
  /\ ss !! i = Some (PersonPose.score p)
  /\ Pose.score_threshold self <= PersonPose.score p.
Proof.
  unfold Pose.torchvision_person. intros H.
  destruct (Pose.index ss i) as [score | e] eqn:Hscore; simpl in H;
    [| discriminate].
  destruct (Py.Rltb score (Pose.score_threshold self)) eqn:Hthr;
    [discriminate |].
  destruct (Pose.index bs i) as [[[[b0 b1] b2] b3] | e] eqn:Hbox; simpl in H;
    [| discriminate].
  apply index_Ok in Hscore, Hbox.
  match type of H with
  | Py.bind ?m _ = _ => destruct m as [kps | e] eqn:Hkps
  end; simpl in H; [| discriminate].
  match type of H with
  | Py.bind ?m _ = _ => destruct m as [person | e] eqn:Hperson
  end; simpl in H; [| discriminate].
  injection H as ->.
  apply PersonPose_new_Ok in Hperson. destruct Hperson as [Hrange ->].
  apply mapM_Ok_Forall2 in Hkps.
  assert (Hlen : length kps = shape1).
  { apply Forall2_length in Hkps. rewrite length_seq in Hkps. congruence. }
  assert (Hkp : forall j kp, kps !! j = Some kp ->
            Pose.torchvision_keypoint s inv_scale rows kss i j = Py.Ok kp).
  { intros j kp Hj.
    destruct (Forall2_lookup_r _ _ _ _ _ Hkps Hj) as (j' & Hj' & Hok).
    apply lookup_seq in Hj'. destruct Hj' as [-> _]. exact Hok. }
  simpl. split; [| split; [| split; [| split; [| split]]]].
  - exists b0, b1, b2, b3. split; [exact Hbox |].
    unfold inv_scale, Py.Reqb.
    destruct (Req_dec_T s 1) as [-> | H1].
    + repeat f_equal; field.
    + destruct (Req_dec_T s 0); [lra | reflexivity].
  - exact Hlen.
  - intros j kp Hj.
    destruct (torchvision_keypoint_Ok rows kss i j kp (Hkp j kp Hj))
      as (row & x & y & v & Hrow & Hxyv & Hx & Hy & _).
    exists row, x, y, v. tauto.
  - unfold Pose.confidences. simpl. constructor; [exact Hrange |].
    apply Forall_forall. intros c Hc. apply list_elem_of_In, in_map_iff in Hc.
    destruct Hc as (kp & <- & Hin). apply list_elem_of_In, list_elem_of_lookup in Hin.
    destruct Hin as [j Hj].
    destruct (torchvision_keypoint_Ok rows kss i j kp (Hkp j kp Hj))
      as (_ & _ & _ & _ & _ & _ & _ & _ & Hc & _).
    exact Hc.
  - exact Hscore.
  - destruct (Rle_dec (Pose.score_threshold self) score) as [Hle | Hn];
      [exact Hle |].
    exfalso. assert (Py.Rltb score (Pose.score_threshold self) = true)
      by (apply Rltb_true; lra). congruence.
Qed.

End Torchvision.

(** C7, as the code has it. For a non-empty image and a positive
    [max_side], [_resize_for_inference] returns: the image itself and
    [s = 1] when the longer side is at most [max_side]; otherwise
    [s = max_side / longer_side] and an image of
    [max(1, round(w * s))] by [max(1, round(h * s))] whose longer side is
    exactly [max_side]. Every person [_estimate_torchvision] returns has the
    box and keypoint coordinates of one detection multiplied by [1 / s],
    [x * s * (1 / s) = x], and with [s = 1] a coordinate is returned as it
    is. *)
Theorem resize_and_rescale_spec (self : Pose.t) (image : Pose.Image)
    (Hw : (0 < Pose.width image)%Z) (Hh : (0 < Pose.height image)%Z)
    (Hm : (0 < Pose.max_side self)%Z) :
  let longer := Z.max (Pose.width image) (Pose.height image) in
  exists (image_resized : Pose.Image) (s : R),
    Pose._resize_for_inference self image = Py.Ok (image_resized, s)
    /\ 0 < s <= 1
    /\ ((longer <= Pose.max_side self)%Z -> image_resized = image /\ s = 1)
    /\ ((Pose.max_side self < longer)%Z ->
        s = IZR (Pose.max_side self) / IZR longer
        /\ Pose.width image_resized
           = Z.max 1 (Py.round (IZR (Pose.width image) * s))
        /\ Pose.height image_resized
           = Z.max 1 (Py.round (IZR (Pose.height image) * s))
        /\ Z.max (Pose.width image_resized) (Pose.height image_resized)
           = Pose.max_side self)
    /\ (forall people,
          Pose._estimate_torchvision self image = Py.Ok people ->
          Forall (fun p => exists i,
                      Pose.rescaled_from
                        (Pose.torchvision_model self image_resized) s i p)
            people)
    /\ (forall x : R, x * s * (1 / s) = x)
    /\ (s = 1 -> forall x : R, x * (1 / s) = x).
Proof.
  intros longer.
  assert (Hresize : exists image_resized s,
            Pose._resize_for_inference self image = Py.Ok (image_resized, s)
            /\ 0 < s <= 1
            /\ ((longer <= Pose.max_side self)%Z -> image_resized = image /\ s = 1)
            /\ ((Pose.max_side self < longer)%Z ->
                s = IZR (Pose.max_side self) / IZR longer
                /\ Pose.width image_resized
                   = Z.max 1 (Py.round (IZR (Pose.width image) * s))
                /\ Pose.height image_resized
                   = Z.max 1 (Py.round (IZR (Pose.height image) * s))
                /\ Z.max (Pose.width image_resized) (Pose.height image_resized)
                   = Pose.max_side self)).
  { destruct (Z_le_gt_dec longer (Pose.max_side self)) as [Hle | Hgt].
    - exists image, 1. rewrite (resize_small self image Hle).
      repeat split; try lra; lia.
    - assert (Hlt : (Pose.max_side self < longer)%Z) by lia.
      destruct (resize_large self image Hw Hh Hm Hlt) as (Hr & Hrange & Hside).
      eexists _, _. split; [exact Hr |]. split; [lra |]. split; [lia |].
      intros _. simpl. repeat split. exact Hside. }
  destruct Hresize as (image_resized & s & Hr & Hs & Hsmall & Hlarge).
  exists image_resized, s. repeat split; try tauto.
  - unfold Pose._estimate_torchvision. rewrite Hr. simpl.
    set (outputs := Pose.torchvision_model self image_resized).
    unfold Pose.rescaled_from.
    destruct (Pose.boxes outputs) as [bs |]; [| intros people [= <-]; constructor].
    destruct (Pose.scores outputs) as [ss |]; [| intros people [= <-]; constructor].
    destruct (Pose.keypoints outputs) as [rows |];
      [| intros people [= <-]; constructor].
    intros people H.
    match type of H with
    | Py.bind ?m _ = _ => destruct m as [kept | e] eqn:Hkept
    end; simpl in H; [| discriminate].
    injection H as <-. apply mapM_Ok_Forall2 in Hkept.
    apply Forall_forall. intros p Hp.
    apply list_elem_of_omap in Hp. destruct Hp as (o & Ho & ->).
    apply list_elem_of_lookup in Ho. destruct Ho as [n Hn].
    destruct (Forall2_lookup_r _ _ _ _ _ Hkept Hn) as (i & _ & Hok).
    assert (Hpos : 0 < s) by lra.
    destruct (torchvision_person_Ok self s Hpos _ _ _ _ _ _ _ Hok)
      as ((b0 & b1 & b2 & b3 & Hb & Hbox) & Hlen & Hkps & _).
    exists i. split.
    + exists b0, b1, b2, b3, bs. tauto.
    + exists rows. tauto.
  - intros x. field. lra.
  - intros -> x. field.
Qed.

Lemma resize_and_rescale_spec_witness :
  (0 < Pose.width Samples.image_1280x960)%Z
  /\ (0 < Pose.height Samples.image_1280x960)%Z
  /\ (0 < Pose.max_side Samples.torchvision_one)%Z
  /\ exists (image_resized : Pose.Image) (s : R),
       Pose._resize_for_inference Samples.torchvision_one
         Samples.image_1280x960 = Py.Ok (image_resized, s)
       /\ 0 < s <= 1
       /\ Z.max (Pose.width image_resized) (Pose.height image_resized) = 640%Z.
Proof.
  assert (Hw : (0 < Pose.width Samples.image_1280x960)%Z) by reflexivity.
  assert (Hh : (0 < Pose.height Samples.image_1280x960)%Z) by reflexivity.
  assert (Hm : (0 < Pose.max_side Samples.torchvision_one)%Z) by reflexivity.
  split; [exact Hw |]. split; [exact Hh |]. split; [exact Hm |].
  destruct (resize_and_rescale_spec Samples.torchvision_one
              Samples.image_1280x960 Hw Hh Hm)
    as (image_resized & s & Hr & Hs & _ & Hlarge & _).
  exists image_resized, s. split; [exact Hr |]. split; [exact Hs |].
  apply Hlarge. reflexivity.
Defined.

(** C7 fails as stated: the resized height of a 10000x1 image is 1, not
    [round(h * s) = round(0.064) = 0]; the code floors each side at 1. *)
Lemma resize_thin_image_is_floored :
  Pose._resize_for_inference Samples.torchvision_empty Samples.image_10000x1
  = Py.Ok (Pose.mkImage 640 1, 640 / 10000)
  /\ Py.round (IZR (Pose.height Samples.image_10000x1) * (640 / 10000)) = 0%Z.
Proof.
  assert (Hround_w : Py.round (10000 * (640 / 10000)) = 640%Z).
  { replace (10000 * (640 / 10000)) with 640 by lra. apply round_IZR. }
  assert (Hround_h : Py.round (1 * (640 / 10000)) = 0%Z)
    by (apply round_small; lra).
  split; [| exact Hround_h].
  unfold Pose._resize_for_inference.
  cbn [Pose.width Pose.height Pose.max_side Samples.image_10000x1
       Samples.torchvision_empty Samples.estimator].
  change (Z.max 10000 1) with 10000%Z.
  change (640 <? 10000)%Z with true. change (10000 =? 0)%Z with false.
  cbv iota. rewrite Hround_w, Hround_h. reflexivity.
Qed.

(** C8. On the generic-detector path, when the backend output lacks
    [boxes], [scores] or [keypoints], [estimate] returns the empty list. *)
Theorem estimate_torchvision_no_detections (self : Pose.t) (image : Pose.Image)
    (image_resized : Pose.Image) (s : R)
    (Hbackend : Pose.backend self = Pose.torchvision)
    (Hresize : Pose._resize_for_inference self image
               = Py.Ok (image_resized, s))
    (Hmissing : Pose.boxes (Pose.torchvision_model self image_resized) = None
                \/ Pose.scores (Pose.torchvision_model self image_resized) = None
                \/ Pose.keypoints (Pose.torchvision_model self image_resized)
                   = None) :
  Pose.estimate self image = Py.Ok [].
Proof.
  unfold Pose.estimate, Pose._estimate_torchvision.
  rewrite Hbackend, Hresize. simpl.
  destruct Hmissing as [-> | [-> | ->]].
  - reflexivity.
  - destruct (Pose.boxes _); reflexivity.
  - destruct (Pose.boxes _); [destruct (Pose.scores _) |]; reflexivity.
Qed.

Lemma estimate_torchvision_no_detections_witness :
  Pose.backend Samples.torchvision_empty = Pose.torchvision
  /\ Pose._resize_for_inference Samples.torchvision_empty Samples.image_640x480
     = Py.Ok (Samples.image_640x480, 1)
  /\ Pose.boxes (Pose.torchvision_model Samples.torchvision_empty
                   Samples.image_640x480) = None
  /\ Pose.estimate Samples.torchvision_empty Samples.image_640x480 = Py.Ok [].
Proof.
  split; [reflexivity |]. split; [reflexivity |]. split; [reflexivity |].
  apply (estimate_torchvision_no_detections Samples.torchvision_empty
           Samples.image_640x480 Samples.image_640x480 1 eq_refl eq_refl).
  left. reflexivity.
Defined.

(** Settles a comparison of two concrete floats. *)
Ltac settle_comparison c :=
  let H := fresh "Hcmp" in
  first
    [ assert (H : c = true)
        by (first [ apply Rltb_true | apply Rleb_true | apply Rgeb_true
                  | apply Rgtb_true | apply Reqb_true ]; lra)
    | assert (H : c = false)
        by (apply not_true_iff_false; intros H;
            first [ apply Rltb_true in H | apply Rleb_true in H
                  | apply Rgeb_true in H | apply Rgtb_true in H
                  | apply Reqb_true in H ]; lra) ];
  rewrite H; clear H.

Ltac settle_comparisons :=
  repeat match goal with
         | |- context [Py.Rltb ?a ?b] => settle_comparison (Py.Rltb a b)
         | |- context [Py.Rleb ?a ?b] => settle_comparison (Py.Rleb a b)
         | |- context [Py.Rgeb ?a ?b] => settle_comparison (Py.Rgeb a b)
         | |- context [Py.Rgtb ?a ?b] => settle_comparison (Py.Rgtb a b)
         | |- context [Py.Reqb ?a ?b] => settle_comparison (Py.Reqb a b)
         end.

(** A 1280x960 image is halved for inference; the one detection, found at
    box (10, 20, 110, 220) with a keypoint at (50, 60) and visibility 1 in
    the halved frame, comes back doubled, its keypoint named and scored
    1/2. *)
Example estimate_torchvision_one_detection :
  Pose.estimate Samples.torchvision_one Samples.image_1280x960
  = Py.Ok [PersonPose.mk [Keypoint.mk 100 120 0.5 (Some "nose"%string)] 0.9
             (Some [20; 40; 220; 440])].
Proof.
  unfold Pose.estimate, Pose._estimate_torchvision, Pose._resize_for_inference.
  cbn [Pose.backend Pose.width Pose.height Pose.max_side Pose.torchvision_model
       Samples.image_1280x960 Samples.torchvision_one Samples.estimator].
  change (Z.max 1280 960) with 1280%Z.
  change (640 <? 1280)%Z with true. change (1280 =? 0)%Z with false.
  cbv iota. cbn [Py.bind].
  cbn [Pose.boxes Pose.scores Pose.keypoints Pose.keypoints_scores
       Pose.keypoints_score Pose.keypoints_shape1 Samples.one_detection
       length seq Py.mapM].
  unfold Pose.torchvision_person, Pose.index. cbn [lookup list_lookup Py.bind].
  cbn [Pose.score_threshold Samples.torchvision_one Samples.estimator].
  settle_comparisons.
  cbn [seq Py.mapM]. unfold Pose.torchvision_keypoint, Pose.index.
  cbn [lookup list_lookup Py.bind Utils.COCO_KEYPOINT_NAMES].
  rewrite normalize_kp_score_visibility. cbn [Py.bind].
  replace (Rmax 0 (Rmin 1 (Rmax 0 (Rmin 1 (1 / 2))))) with 0.5 by case_minmax.
  replace (50 * (1 / (640 / 1280))) with 100 by lra.
  replace (60 * (1 / (640 / 1280))) with 120 by lra.
  replace (10 * (1 / (640 / 1280))) with 20 by lra.
  replace (20 * (1 / (640 / 1280))) with 40 by lra.
  replace (110 * (1 / (640 / 1280))) with 220 by lra.
  replace (220 * (1 / (640 / 1280))) with 440 by lra.
  unfold Keypoint.new. settle_comparisons. cbn [andb Py.bind Py.mapM].
  unfold PersonPose.new. settle_comparisons. reflexivity.
Qed.

(** ** main.py *)

Section SignalHandler.
Import Main.

(** The [except Exception] clause does catch an ordinary exception: had
    the body raised one, the handler would go on and set the event. *)
Example except_clause_catches_ValueError (w : World) :
  (exec try_except_Exception (raise Py.ValueError) (fun _ => ret tt);
   stop_event_set) w
  = (mkWorld (_JOBS w) true (files w), Py.Ok tt).
Proof. reflexivity. Qed.

End SignalHandler.

(** C10, as the code has it. What [_set_stop_event] does is decided by
    its [logger.debug] call. When the call returns, the handler ends by
    raising [SystemExit(0)]: the [except Exception] clause does not catch
    it, [_STOP_EVENT.set()] is not reached and the state, the stop event
    included, is as before. When the call raises an [Exception], the
    clause catches it, [sys.exit] is skipped, [_STOP_EVENT.set()] is
    reached and the handler returns with the event set and nothing else
    changed. When the call raises something that is not an [Exception],
    that propagates and the state is as before. So an invocation sets the
    event exactly when its log call raised an [Exception], and raises
    [SystemExit(0)] with the event untouched whenever the log call
    returned. *)
Theorem set_stop_event_spec (logged : Py.Result unit) (w : Main.World) :
  let after := Handlers._set_stop_event logged w in
  (logged = Py.Ok tt ->
   after = (w, Py.Raise (Py.SystemExit 0))
   /\ Py.is_Exception (Py.SystemExit 0) = false)
  /\ (forall e, logged = Py.Raise e -> Py.is_Exception e = true ->
       after = (Main.mkWorld (Main._JOBS w) true (Main.files w), Py.Ok tt))
  /\ (forall e, logged = Py.Raise e -> Py.is_Exception e = false ->
       after = (w, Py.Raise e))
  /\ (snd after = Py.Ok tt <->
       exists e, logged = Py.Raise e /\ Py.is_Exception e = true)
  /\ (Main._STOP_EVENT w = false ->
       (Main._STOP_EVENT (fst after) = true <->
        exists e, logged = Py.Raise e /\ Py.is_Exception e = true))
  /\ Main._JOBS (fst after) = Main._JOBS w
  /\ Main.files (fst after) = Main.files w.
Proof.
  unfold Handlers._set_stop_event, Main.bind, Main.try_except_Exception,
    Main.logger_debug, Main.sys_exit, Main.raise, Main.ret,
    Main.stop_event_set.
  destruct logged as [[] | e]; cbn beta iota zeta.
  - split; [intros _; split; reflexivity |].
    split; [discriminate |]. split; [discriminate |].
    cbn [fst snd Py.is_Exception].
    split; [split; [discriminate | intros (e & He & _); discriminate] |].
    split; [| split; reflexivity].
    intros Hunset. rewrite Hunset.
    split; [discriminate | intros (e & He & _); discriminate].
  - destruct (Py.is_Exception e) eqn:He; cbn [fst snd Main._STOP_EVENT
      Main._JOBS Main.files].
    + split; [discriminate |].
      split; [intros e' [= <-] _; reflexivity |].
      split; [intros e' [= <-] He'; congruence |].
      split; [split; [intros _; exists e; tauto | reflexivity] |].
      split; [| split; reflexivity].
      intros _. split; [intros _; exists e; tauto | reflexivity].
    + split; [discriminate |].
      split; [intros e' [= <-] He'; congruence |].
      split; [intros e' [= <-] _; reflexivity |].
      split; [split; [discriminate |
                      intros (e' & [= <-] & He'); congruence] |].
      split; [| split; reflexivity].
      intros Hunset. rewrite Hunset.
      split; [discriminate | intros (e' & [= <-] & He'); congruence].
Qed.

(** C10 fails as stated: when the handler's log call raises
    [RuntimeError], as it does when the signal arrives during a write of
    the log stream, the handler does not raise [SystemExit]: it returns,
    and it has set the stop event. *)
Lemma set_stop_event_sets_the_event :
  Main._STOP_EVENT Samples.world_running = false
  /\ Py.is_Exception Py.RuntimeError = true
  /\ snd (Handlers._set_stop_event (Py.Raise Py.RuntimeError)
            Samples.world_running) = Py.Ok tt
  /\ Main._STOP_EVENT
       (fst (Handlers._set_stop_event (Py.Raise Py.RuntimeError)
               Samples.world_running)) = true.
Proof. repeat split. Qed.

Section Registry.
Import Main Handlers.

Implicit Types (w : World) (job_id : string) (job : Job).

Lemma update_job_registered w job_id job (processed : Z) (total : option Z) :
  _JOBS w !! job_id = Some job ->
  _update_job job_id processed total w
  = (mkWorld
       (<[job_id := mkJob (status job) processed
                      (match total with
                       | Some t => Some t
                       | None => Main.total job
                       end)
                      (error_message job) (out_path job) (filename job)]>
          (_JOBS w))
       (_STOP_EVENT w) (files w), Py.Ok tt).
Proof.
  intros H. unfold _update_job, bind, get_jobs, put_jobs. rewrite H.
  destruct total; reflexivity.
Qed.

Lemma finish_job_registered w job_id job (path : string) :
  _JOBS w !! job_id = Some job ->
  _finish_job job_id path w
  = (mkWorld
       (<[job_id := mkJob done (processed job) (total job)
                      (error_message job) (Some path) (filename job)]>
          (_JOBS w))
       (_STOP_EVENT w) (files w), Py.Ok tt).
Proof.
  intros H. unfold _finish_job, bind, get_jobs, put_jobs. rewrite H.
  reflexivity.
Qed.

Lemma error_job_registered w job_id job (message : string) :
  _JOBS w !! job_id = Some job ->
  _error_job job_id message w
  = (mkWorld
       (<[job_id := mkJob error (processed job) (total job)
                      (Some message) (out_path job) (filename job)]>
          (_JOBS w))
       (_STOP_EVENT w) (files w), Py.Ok tt).
Proof.
  intros H. unfold _error_job, bind, get_jobs, put_jobs. rewrite H.
  reflexivity.
Qed.

Lemma world_eta w : mkWorld (_JOBS w) (_STOP_EVENT w) (files w) = w.
Proof. destruct w. reflexivity. Qed.

(** Writing an entry back leaves the state as it was exactly when the
    entry written is the one that was there. *)
Lemma put_job_same w job_id job (written : Job) :
  _JOBS w !! job_id = Some job ->
  mkWorld (<[job_id := written]> (_JOBS w)) (_STOP_EVENT w) (files w) = w
  <-> written = job.
Proof.
  intros Hjob. split.
  - intros Heq. apply (f_equal _JOBS) in Heq. cbn [_JOBS] in Heq.
    apply (f_equal (fun jobs => jobs !! job_id)) in Heq.
    rewrite lookup_insert_eq, Hjob in Heq. congruence.
  - intros ->. rewrite (insert_id _ _ _ Hjob). apply world_eta.
Qed.

End Registry.

(** C9. For a [job_id] that is not in the registry, [_update_job],
    [_finish_job] and [_error_job] return normally and leave the whole state,
    the registry included, as it was. *)
Theorem mutation_of_unknown_job (w : Main.World) (job_id : string)
    (Hunknown : Main._JOBS w !! job_id = None) :
  forall (processed : Z) (total : option Z) (path message : string),
    Handlers._update_job job_id processed total w = (w, Py.Ok tt)
    /\ Handlers._finish_job job_id path w = (w, Py.Ok tt)
    /\ Handlers._error_job job_id message w = (w, Py.Ok tt).
Proof.
  intros processed total path message.
  unfold Handlers._update_job, Handlers._finish_job, Handlers._error_job,
    Main.bind, Main.get_jobs, Main.ret.
  rewrite Hunknown. repeat split.
Qed.

Lemma mutation_of_unknown_job_witness :
  Main._JOBS Samples.world_running !! "job2"%string = None
  /\ Handlers._update_job "job2" 7 None Samples.world_running
     = (Samples.world_running, Py.Ok tt)
  /\ Handlers._finish_job "job2" "/tmp/x.mp4" Samples.world_running
     = (Samples.world_running, Py.Ok tt)
  /\ Handlers._error_job "job2" "Server stopping" Samples.world_running
     = (Samples.world_running, Py.Ok tt).
Proof.
  assert (H : Main._JOBS Samples.world_running !! "job2"%string = None)
    by (apply lookup_singleton_ne; discriminate).
  split; [exact H |].
  apply (mutation_of_unknown_job Samples.world_running "job2" H).
Defined.

(** C4, as the code has it. The mutation operations do not look at the
    status. On every registered job, one that is [done] or [error] included,
    they return normally and: [_update_job] sets [processed] (and [total]
    when one is given), [_finish_job] sets the status to [done] and
    [out_path], [_error_job] sets the status to [error] and the message;
    the job's other fields, every other job, the stop event and the files
    stay as they were. So a write leaves the state as it was exactly when
    the fields it sets already hold the values written, whatever the
    status. *)
Theorem mutation_of_registered_job (w : Main.World) (job_id : string)
    (job : Main.Job) (Hjob : Main._JOBS w !! job_id = Some job) :
  forall (processed : Z) (total : option Z) (path message : string),
    let updated := Handlers._update_job job_id processed total w in
    let finished := Handlers._finish_job job_id path w in
    let failed := Handlers._error_job job_id message w in
    (snd updated = Py.Ok tt /\ snd finished = Py.Ok tt /\ snd failed = Py.Ok tt)
    /\ Main._JOBS (fst updated) !! job_id
       = Some (Main.mkJob (Main.status job) processed
                 (match total with Some t => Some t | None => Main.total job end)
                 (Main.error_message job) (Main.out_path job)
                 (Main.filename job))
    /\ Main._JOBS (fst finished) !! job_id
       = Some (Main.mkJob Main.done (Main.processed job) (Main.total job)
                 (Main.error_message job) (Some path) (Main.filename job))
    /\ Main._JOBS (fst failed) !! job_id
       = Some (Main.mkJob Main.error (Main.processed job) (Main.total job)
                 (Some message) (Main.out_path job) (Main.filename job))
    /\ (forall other : string, other <> job_id ->
          Main._JOBS (fst updated) !! other = Main._JOBS w !! other
          /\ Main._JOBS (fst finished) !! other = Main._JOBS w !! other
          /\ Main._JOBS (fst failed) !! other = Main._JOBS w !! other)
    /\ (Main._STOP_EVENT (fst updated) = Main._STOP_EVENT w
        /\ Main._STOP_EVENT (fst finished) = Main._STOP_EVENT w
        /\ Main._STOP_EVENT (fst failed) = Main._STOP_EVENT w)
    /\ (Main.files (fst updated) = Main.files w
        /\ Main.files (fst finished) = Main.files w
        /\ Main.files (fst failed) = Main.files w)
    /\ (fst updated = w <->
        Main.processed job = processed
        /\ (forall t, total = Some t -> Main.total job = Some t))
    /\ (fst finished = w <->
        Main.status job = Main.done /\ Main.out_path job = Some path)
    /\ (fst failed = w <->
        Main.status job = Main.error
        /\ Main.error_message job = Some message).
Proof.
  intros processed total path message.
  rewrite (update_job_registered w job_id job processed total Hjob),
    (finish_job_registered w job_id job path Hjob),
    (error_job_registered w job_id job message Hjob).
  cbn [fst snd Main._JOBS Main._STOP_EVENT Main.files].
  rewrite !lookup_insert_eq, !(put_job_same w job_id job _ Hjob).
  split; [repeat split |]. split; [reflexivity |]. split; [reflexivity |].
  split; [reflexivity |].
  split; [intros other Hother; repeat split; apply lookup_insert_ne;
          congruence |].
  split; [repeat split |]. split; [repeat split |].
  destruct job as [status0 processed0 total0 error0 path0 filename0].
  cbn [Main.status Main.processed Main.total Main.error_message
       Main.out_path Main.filename].
  split; [| split].
  - split.
    + intros [= -> Htotal]. split; [reflexivity |].
      intros t ->. symmetry. exact Htotal.
    + intros [-> Htotal]. f_equal.
      destruct total as [t |]; [symmetry; apply Htotal |]; reflexivity.
  - split; [intros [= -> ->]; tauto | intros [-> ->]; reflexivity].
  - split; [intros [= -> ->]; tauto | intros [-> ->]; reflexivity].
Qed.

Lemma mutation_of_registered_job_witness :
  Main._JOBS Samples.world_done !! "job1"%string = Some Samples.done_job
  /\ Main._JOBS (fst (Handlers._update_job "job1" 3 None Samples.world_done))
       !! "job1"%string
     = Some (Main.mkJob Main.done 3 (Some 10%Z) None
               (Some "/tmp/out.mp4"%string) "clip.mp4")
  /\ fst (Handlers._finish_job "job1" "/tmp/out.mp4" Samples.world_done)
     = Samples.world_done.
Proof.
  assert (H : Main._JOBS Samples.world_done !! "job1"%string
              = Some Samples.done_job) by apply lookup_singleton_eq.
  split; [exact H |].
  destruct (mutation_of_registered_job Samples.world_done "job1"
              Samples.done_job H 3%Z None "/tmp/out.mp4"%string
              "Server stopping"%string)
    as (_ & Hupdated & _ & _ & _ & _ & _ & _ & Hfinished & _).
  split; [exact Hupdated |].
  apply Hfinished. split; reflexivity.
Defined.

(** C4 fails as stated: on a job that is [done], [_error_job] is not a
    no-op, it turns the status to [error] and records the message (and
    [_update_job] overwrites its frame count). *)
Lemma error_job_overwrites_done_job :
  Main.status Samples.done_job = Main.done
  /\ Main._JOBS Samples.world_done !! "job1"%string = Some Samples.done_job
  /\ Main._JOBS (fst (Handlers._error_job "job1" "Server stopping"
                        Samples.world_done)) !! "job1"%string
     = Some (Main.mkJob Main.error 10 (Some 10%Z) (Some "Server stopping"%string)
               (Some "/tmp/out.mp4"%string) "clip.mp4")
  /\ Main._JOBS (fst (Handlers._update_job "job1" 3 None Samples.world_done))
       !! "job1"%string
     = Some (Main.mkJob Main.done 3 (Some 10%Z) None
               (Some "/tmp/out.mp4"%string) "clip.mp4")
  /\ fst (Handlers._error_job "job1" "Server stopping" Samples.world_done)
     <> Samples.world_done.
Proof.
  assert (H : Main._JOBS Samples.world_done !! "job1"%string
              = Some Samples.done_job) by apply lookup_singleton_eq.
  assert (He : Main._JOBS (fst (Handlers._error_job "job1" "Server stopping"
                                  Samples.world_done)) !! "job1"%string
               = Some (Main.mkJob Main.error 10 (Some 10%Z)
                         (Some "Server stopping"%string)
                         (Some "/tmp/out.mp4"%string) "clip.mp4")).
  { rewrite (error_job_registered _ _ _ _ H). apply lookup_insert_eq. }
  split; [reflexivity |]. split; [exact H |]. split; [exact He |]. split.
  - rewrite (update_job_registered _ _ _ _ _ H). apply lookup_insert_eq.
  - intros Heq. rewrite Heq, H in He. discriminate.
Qed.

Section JobQueries.
Import Main Handlers.

Implicit Types (w : World) (job_id : string) (job : Job).

(** Polling a registered job never fails. *)
Lemma annotate_progress_registered w job_id job :
  _JOBS w !! job_id = Some job ->
  exists progress,
    annotate_progress job_id w = (w, Py.Ok progress)
    /\ progress_status progress = status job
    /\ progress_processed progress = processed job
    /\ progress_total progress = total job
    /\ progress_error progress = error_message job.
Proof.
  intros H. unfold annotate_progress, bind, get_jobs. rewrite H.
  eexists. split; [reflexivity |]. repeat split.
Qed.

(** Fetching the result of a finished job whose file is on disk
    succeeds, and does so again. *)
Lemma annotate_result_done w job_id job (path : string) :
  _JOBS w !! job_id = Some job -> status job = done ->
  out_path job = Some path -> path <> EmptyString -> path ∈ files w ->
  exists response,
    annotate_result job_id w = (w, Py.Ok response)
    /\ response_path response = path.
Proof.
  intros H Hdone Hpath Hne Hin.
  unfold annotate_result, bind, get_jobs, path_exists. rewrite H.
  rewrite bool_decide_true by exact Hdone. cbn [negb]. rewrite Hpath.
  destruct path as [| c path']; [congruence |].
  rewrite bool_decide_true by exact Hin. cbn [negb].
  eexists. split; reflexivity.
Qed.

End JobQueries.

(** C5. An unknown [job_id] makes both [annotate_progress] and
    [annotate_result] fail with 404 "job not found"; a registered job that is
    not [done] makes [annotate_result] fail with 409 "job not finished"; a
    [done] job whose output path is unset or whose file is not on disk makes
    it fail with 410 "result expired or missing"; the three exceptions are
    pairwise different, and none of the calls changes the state. *)
Theorem job_query_failures (w : Main.World) (job_id : string) :
  (Main._JOBS w !! job_id = None ->
     Handlers.annotate_progress job_id w
     = (w, Py.Raise Handlers.job_not_found)
     /\ Handlers.annotate_result job_id w
        = (w, Py.Raise Handlers.job_not_found))
  /\ (forall job, Main._JOBS w !! job_id = Some job ->
        Main.status job <> Main.done ->
        Handlers.annotate_result job_id w
        = (w, Py.Raise Handlers.job_not_finished))
  /\ (forall job, Main._JOBS w !! job_id = Some job ->
        Main.status job = Main.done ->
        Handlers.output_missing w job ->
        Handlers.annotate_result job_id w
        = (w, Py.Raise Handlers.result_gone))
  /\ Handlers.job_not_found <> Handlers.job_not_finished
  /\ Handlers.job_not_found <> Handlers.result_gone
  /\ Handlers.job_not_finished <> Handlers.result_gone.
Proof.
  unfold Handlers.annotate_progress, Handlers.annotate_result, Main.bind,
    Main.get_jobs, Main.raise, Main.path_exists, Handlers.output_missing.
  split; [| split; [| split]].
  - intros ->. split; reflexivity.
  - intros job -> Hstatus.
    rewrite bool_decide_false by exact Hstatus. reflexivity.
  - intros job -> Hstatus Hmissing.
    rewrite bool_decide_true by exact Hstatus. cbn [negb].
    destruct (Main.out_path job) as [[| c path] |]; try reflexivity.
    destruct Hmissing as [Hempty | Hgone]; [discriminate |].
    rewrite bool_decide_false by exact Hgone. reflexivity.
  - repeat split; discriminate.
Qed.

Lemma job_query_failures_witness :
  (Main._JOBS Samples.world_empty !! "job1"%string = None
   /\ Handlers.annotate_progress "job1" Samples.world_empty
      = (Samples.world_empty, Py.Raise (Py.HTTPException 404 "job not found"))
   /\ Handlers.annotate_result "job1" Samples.world_empty
      = (Samples.world_empty, Py.Raise (Py.HTTPException 404 "job not found")))
  /\ (Main._JOBS Samples.world_running !! "job1"%string
      = Some Samples.running_job
      /\ Main.status Samples.running_job <> Main.done
      /\ Handlers.annotate_result "job1" Samples.world_running
         = (Samples.world_running,
            Py.Raise (Py.HTTPException 409 "job not finished")))
  /\ (Main._JOBS Samples.world_gone !! "job1"%string = Some Samples.done_job
      /\ Main.status Samples.done_job = Main.done
      /\ Handlers.output_missing Samples.world_gone Samples.done_job
      /\ Handlers.annotate_result "job1" Samples.world_gone
         = (Samples.world_gone,
            Py.Raise (Py.HTTPException 410 "result expired or missing"))).
Proof.
  assert (Hempty : Main._JOBS Samples.world_empty !! "job1"%string = None)
    by apply lookup_empty.
  assert (Hrunning : Main._JOBS Samples.world_running !! "job1"%string
                     = Some Samples.running_job) by apply lookup_singleton_eq.
  assert (Hnot_done : Main.status Samples.running_job <> Main.done)
    by discriminate.
  assert (Hgone : Main._JOBS Samples.world_gone !! "job1"%string
                  = Some Samples.done_job) by apply lookup_singleton_eq.
  assert (Hmissing : Handlers.output_missing Samples.world_gone
                       Samples.done_job).
  { right. cbn [Main.files Samples.world_gone]. apply not_elem_of_empty. }
  destruct (job_query_failures Samples.world_empty "job1") as (H1 & _).
  destruct (job_query_failures Samples.world_running "job1") as (_ & H2 & _).
  destruct (job_query_failures Samples.world_gone "job1") as (_ & _ & H3 & _).
  split; [| split].
  - split; [exact Hempty | exact (H1 Hempty)].
  - split; [exact Hrunning |]. split; [exact Hnot_done |].
    exact (H2 Samples.running_job Hrunning Hnot_done).
  - split; [exact Hgone |]. split; [reflexivity |]. split; [exact Hmissing |].
    exact (H3 Samples.done_job Hgone eq_refl Hmissing).
Defined.

(** On the state whose finished job still has its file, the result is
    served under the name built from the upload's. *)
Example annotate_result_serves_file :
  Handlers.annotate_result "job1" Samples.world_done
  = (Samples.world_done,
     Py.Ok (Handlers.mkFileResponse "/tmp/out.mp4" "video/mp4"
              "clip_annotated.mp4")).
Proof.
  unfold Handlers.annotate_result, Main.bind, Main.get_jobs, Main.path_exists.
  assert (H : Main._JOBS Samples.world_done !! "job1"%string
              = Some Samples.done_job) by apply lookup_singleton_eq.
  rewrite H. rewrite bool_decide_true by reflexivity.
  cbn [negb Main.out_path Samples.done_job].
  rewrite bool_decide_true
    by (cbn [Main.files Samples.world_done]; apply elem_of_singleton; reflexivity).
  reflexivity.
Qed.

(** ** The life of a job under its worker *)

Section WorkerLifecycle.
Import Main Handlers Worker.

Variable job_id : string.

Lemma registry_after_update (w : World) (job : Job) (p : Z) (t : option Z) :
  _JOBS w !! job_id = Some job ->
  exists job',
    _JOBS (after (_update_job job_id p t) w) !! job_id = Some job'
    /\ status job' = status job.
Proof.
  intros H. unfold after. rewrite (update_job_registered w job_id job p t H).
  cbn [fst _JOBS]. rewrite lookup_insert_eq. eexists. split; reflexivity.
Qed.

Lemma registry_after_error (w : World) (job : Job) (message : string) :
  _JOBS w !! job_id = Some job ->
  exists job',
    _JOBS (after (_error_job job_id message) w) !! job_id = Some job'
    /\ status job' = error.
Proof.
  intros H. unfold after. rewrite (error_job_registered w job_id job message H).
  cbn [fst _JOBS]. rewrite lookup_insert_eq. eexists. split; reflexivity.
Qed.

Lemma registry_after_finish (w : World) (job : Job) (path : string) :
  _JOBS w !! job_id = Some job ->
  exists job',
    _JOBS (after (_finish_job job_id path) w) !! job_id = Some job'
    /\ status job' = done.
Proof.
  intros H. unfold after. rewrite (finish_job_registered w job_id job path H).
  cbn [fst _JOBS]. rewrite lookup_insert_eq. eexists. split; reflexivity.
Qed.

(** One step keeps the registry and the worker in agreement, and does not
    touch a job that has left [running]. *)
Lemma step_consistent (s s' : State) :
  consistent job_id s -> step job_id s s' ->
  consistent job_id s'
  /\ (forall job, _JOBS (world s) !! job_id = Some job ->
        status job <> running ->
        _JOBS (world s') !! job_id = Some job).
Proof.
  intros (job & Hjob & Hrun) Hstep. unfold consistent.
  assert (Hkeep : forall w' : World,
            forall j, Some job = Some j -> status j <> running ->
            phase s <> exited -> _JOBS w' !! job_id = Some j).
  { intros w' j [= <-] Hn Hph. exfalso. apply Hn, Hrun, Hph. }
  assert (Hto_exited : forall job' : Job,
            status job' <> running ->
            status job' = running <-> exited <> exited) by (intros; tauto).
  destruct Hstep as [w | w count out_path | w processed out_path Hstop
                    | w processed out_path Hstop | w processed out_path Hstop
                    | w out_path | w ph message Hraise | w ph];
    cbn [phase world] in *; rewrite Hjob.
  - destruct (registry_after_error w job "Failed to read video" Hjob)
      as (job' & Hjob' & Hs).
    split.
    + exists job'. split; [exact Hjob' |]. apply Hto_exited. congruence.
    + intros j Hj Hn. apply Hkeep; [exact Hj | exact Hn | discriminate].
  - destruct (registry_after_update w job 0 (frame_total count) Hjob)
      as (job' & Hjob' & Hs).
    split.
    + exists job'. split; [exact Hjob' |]. rewrite Hs.
      split; [discriminate |]. intros _. apply Hrun. discriminate.
    + intros j Hj Hn. apply Hkeep; [exact Hj | exact Hn | discriminate].
  - split.
    + destruct ((processed + 1) mod 5 =? 0)%Z.
      * destruct (registry_after_update w job (processed + 1) None Hjob)
          as (job' & Hjob' & Hs).
        exists job'. split; [exact Hjob' |]. rewrite Hs.
        split; [discriminate |]. intros _. apply Hrun. discriminate.
      * exists job. split; [exact Hjob |].
        split; [discriminate |]. intros _. apply Hrun. discriminate.
    + intros j Hj Hn. apply Hkeep; [exact Hj | exact Hn | discriminate].
  - destruct (registry_after_error w job "Server stopping" Hjob)
      as (job' & Hjob' & Hs).
    split.
    + exists job'. split; [exact Hjob' |]. apply Hto_exited. congruence.
    + intros j Hj Hn. apply Hkeep; [exact Hj | exact Hn | discriminate].
  - destruct (registry_after_update w job processed None Hjob)
      as (job' & Hjob' & Hs).
    split.
    + exists job'. split; [exact Hjob' |]. rewrite Hs.
      split; [discriminate |]. intros _. apply Hrun. discriminate.
    + intros j Hj Hn. apply Hkeep; [exact Hj | exact Hn | discriminate].
  - destruct (registry_after_finish w job out_path Hjob) as (job' & Hjob' & Hs).
    split.
    + exists job'. split; [exact Hjob' |]. apply Hto_exited. congruence.
    + intros j Hj Hn. apply Hkeep; [exact Hj | exact Hn | discriminate].
  - destruct (registry_after_error w job message Hjob) as (job' & Hjob' & Hs).
    split.
    + exists job'. split; [exact Hjob' |]. apply Hto_exited. congruence.
    + intros j Hj Hn. apply Hkeep; [exact Hj | exact Hn |].
      intros ->. discriminate.
  - split.
    + exists job. split; [exact Hjob | exact Hrun].
    + intros j [= <-] _. exact Hjob.
Qed.

(** Along every run of the worker, from a state in which the job is
    registered and [running] exactly while the worker is not done: the
    agreement is kept, so the job is [done] or [error] once the worker has
    exited; and a job that has left [running] is never written again. *)
Lemma worker_lifecycle (s s' : State) :
  consistent job_id s -> rtc (step job_id) s s' ->
  consistent job_id s'
  /\ (forall job, _JOBS (world s) !! job_id = Some job ->
        status job <> running ->
        _JOBS (world s') !! job_id = Some job).
Proof.
  intros Hs Hrun. induction Hrun as [s | s1 s2 s3 Hstep _ IH].
  - split; [exact Hs | tauto].
  - destruct (step_consistent s1 s2 Hs Hstep) as [Hs2 Hkeep].
    destruct (IH Hs2) as [Hs3 Hkeep'].
    split; [exact Hs3 |]. intros job Hjob Hn. apply Hkeep', Hn.
    apply Hkeep; assumption.
Qed.

End WorkerLifecycle.

(** A job as [_start_job_state] registers it, with its worker about to
    start, is in agreement. *)
Lemma start_job_state_consistent (w : Main.World) (job_id filename : string)
    (total_frames : option Z) :
  Worker.consistent job_id
    (Worker.mkState Worker.starting
       (Worker.after (Handlers._start_job_state job_id filename total_frames) w)).
Proof.
  unfold Worker.consistent, Worker.after, Handlers._start_job_state, Main.bind,
    Main.get_jobs, Main.put_jobs, Main.ret.
  cbn [fst Worker.world Worker.phase Main._JOBS].
  eexists. split; [apply lookup_insert_eq |].
  cbn [Main.status]. split; [discriminate | reflexivity].
Qed.

(** A two-frame video processed to the end: the job goes from [running]
    to [done] with both frames counted and its output recorded. *)
Example worker_run_to_done :
  exists s',
    rtc (Worker.step "job1")
      (Worker.mkState Worker.starting
         (Worker.after
            (Handlers._start_job_state "job1" "clip.mp4" (Some 2%Z))
            Samples.world_empty))
      s'
    /\ Worker.phase s' = Worker.exited
    /\ Main._JOBS (Worker.world s') !! "job1"%string
       = Some (Main.mkJob Main.done 2 (Some 2%Z) None
                 (Some "/tmp/out.mp4"%string) "clip.mp4").
Proof.
  eexists. split.
  - eapply rtc_l; [apply (Worker.step_open _ _ 2 "/tmp/out.mp4") |].
    eapply rtc_l; [apply Worker.step_frame; reflexivity |].
    eapply rtc_l; [apply Worker.step_frame; reflexivity |].
    eapply rtc_l; [apply Worker.step_end_of_video; reflexivity |].
    eapply rtc_l; [apply Worker.step_finish |].
    apply rtc_refl.
  - split; [reflexivity |]. vm_compute. reflexivity.
Qed.

(** * Further properties *)

(** ** fall.py: errors, verdicts, orientation *)

Section FallErrors.

Implicit Types (person : PersonPose.t) (people : list PersonPose.t).

Lemma score_person_malformed person :
  PersonPose.bbox_ok person = false ->
  Fall.score_person person = Py.Raise Py.ValueError.
Proof.
  unfold PersonPose.bbox_ok, Fall.score_person, Fall._aspect_ratio.
  destruct (PersonPose.bbox person) as [[| x1 [| y1 [| x2 [| y2 [| ? ?]]]]] |];
    try discriminate; reflexivity.
Qed.

Lemma mapM_score_person_malformed people :
  Exists (fun p => PersonPose.bbox_ok p = false) people ->
  Py.mapM Fall.score_person people = Py.Raise Py.ValueError.
Proof.
  induction people as [| p people IH]; intros H.
  - inversion H.
  - simpl. destruct (PersonPose.bbox_ok p) eqn:Hp.
    + rewrite (score_person_eq p Hp). simpl. rewrite IH; [reflexivity |].
      inversion H as [? ? Hbad | ? ? Hrest]; subst; [congruence | exact Hrest].
    + rewrite (score_person_malformed p Hp). reflexivity.
Qed.

Lemma all_or_some_malformed people :
  Forall (fun p => PersonPose.bbox_ok p = true) people
  \/ Exists (fun p => PersonPose.bbox_ok p = false) people.
Proof.
  induction people as [| p people [IH | IH]].
  - left. constructor.
  - destruct (PersonPose.bbox_ok p) eqn:Hp.
    + left. constructor; assumption.
    + right. apply Exists_cons_hd. exact Hp.
  - right. apply Exists_cons_tl. exact IH.
Qed.

(** The largest score of a non-empty list, as [predict] computes it. *)
Lemma predict_nonempty (p0 : PersonPose.t) people :
  Forall (fun p => PersonPose.bbox_ok p = true) (p0 :: people) ->
  Fall.predict (p0 :: people)
  = Py.Ok (Py.Rgeb (fold_left Rmax (map Fall.spec_score_person people)
                      (Fall.spec_score_person p0)) 0.6,
           fold_left Rmax (map Fall.spec_score_person people)
             (Fall.spec_score_person p0)).
Proof.
  intros H. unfold Fall.predict. rewrite (mapM_score_person _ H). reflexivity.
Qed.

Lemma predict_malformed people :
  Exists (fun p => PersonPose.bbox_ok p = false) people ->
  Fall.predict people = Py.Raise Py.ValueError.
Proof.
  intros H. destruct people as [| p0 rest]; [inversion H |].
  unfold Fall.predict. rewrite (mapM_score_person_malformed _ H).
  reflexivity.
Qed.

End FallErrors.

(** X1. [predict] raises exactly when a detection carries a box that is neither
    empty nor of four coordinates, and then it raises [ValueError]; in every
    other case it returns. *)
Theorem predict_raises_iff (people : list PersonPose.t) :
  (Exists (fun p => PersonPose.bbox_ok p = false) people ->
   Fall.predict people = Py.Raise Py.ValueError)
  /\ (Forall (fun p => PersonPose.bbox_ok p = true) people ->
      exists is_fall fall_score,
        Fall.predict people = Py.Ok (is_fall, fall_score))
  /\ (forall e, Fall.predict people = Py.Raise e ->
      e = Py.ValueError
      /\ Exists (fun p => PersonPose.bbox_ok p = false) people).
Proof.
  assert (Hbad : Exists (fun p => PersonPose.bbox_ok p = false) people ->
                 Fall.predict people = Py.Raise Py.ValueError).
  { intros H. destruct people as [| p0 rest]; [inversion H |].
    unfold Fall.predict. rewrite (mapM_score_person_malformed _ H).
    reflexivity. }
  assert (Hgood : Forall (fun p => PersonPose.bbox_ok p = true) people ->
                  exists is_fall fall_score,
                    Fall.predict people = Py.Ok (is_fall, fall_score)).
  { intros H. destruct people as [| p0 rest].
    - exists false, 0. reflexivity.
    - rewrite (predict_nonempty p0 rest H). eexists _, _. reflexivity. }
  split; [exact Hbad |]. split; [exact Hgood |].
  intros e He. destruct (all_or_some_malformed people) as [H | H].
  - destruct (Hgood H) as (b & s & Hok). congruence.
  - rewrite (Hbad H) in He. injection He as <-. tauto.
Qed.

Lemma predict_raises_iff_witness :
  Exists (fun p => PersonPose.bbox_ok p = false)
    [Samples.bare; PersonPose.mk [] 1 (Some [0; 0; 4])]
  /\ Fall.predict [Samples.bare; PersonPose.mk [] 1 (Some [0; 0; 4])]
     = Py.Raise Py.ValueError.
Proof.
  assert (H : Exists (fun p => PersonPose.bbox_ok p = false)
                [Samples.bare; PersonPose.mk [] 1 (Some [0; 0; 4])]).
  { apply Exists_cons_tl, Exists_cons_hd. reflexivity. }
  split; [exact H |].
  destruct (predict_raises_iff [Samples.bare; PersonPose.mk [] 1 (Some [0; 0; 4])])
    as (Hbad & _).
  exact (Hbad H).
Defined.

(** X2. On detections with well-laid-out boxes [predict] reports a fall exactly
    when some detection scores at least 0.6, and its score lies in
    [[0, 1]]; the empty list gives no fall. *)
Theorem predict_is_fall_iff (people : list PersonPose.t)
    (Hbox : Forall (fun p => PersonPose.bbox_ok p = true) people) :
  exists (is_fall : bool) (fall_score : R),
    Fall.predict people = Py.Ok (is_fall, fall_score)
    /\ 0 <= fall_score <= 1
    /\ (is_fall = true <->
        exists p s, In p people /\ Fall.score_person p = Py.Ok s /\ 0.6 <= s).
Proof.
  destruct people as [| p0 rest].
  - exists false, 0. split; [reflexivity |]. split; [lra |].
    split; [discriminate | intros (p & s & [] & _)].
  - set (people := p0 :: rest) in *.
    set (m := fold_left Rmax (map Fall.spec_score_person rest)
                (Fall.spec_score_person p0)).
    assert (Hscore : forall p, In p people ->
              Fall.score_person p = Py.Ok (Fall.spec_score_person p)).
    { intros p Hp. apply score_person_eq.
      rewrite Forall_forall in Hbox. apply Hbox, list_elem_of_In, Hp. }
    assert (Hin : exists p, In p people /\ Fall.spec_score_person p = m).
    { pose proof (fold_left_Rmax_in (map Fall.spec_score_person rest)
                    (Fall.spec_score_person p0)) as H.
      change (In m (map Fall.spec_score_person people)) in H.
      apply in_map_iff in H. destruct H as (p & Heq & Hp). eauto. }
    assert (Hge : forall p, In p people -> Fall.spec_score_person p <= m).
    { intros p Hp.
      destruct (fold_left_Rmax_ge (map Fall.spec_score_person rest)
                  (Fall.spec_score_person p0)) as [H0 Hrest].
      destruct Hp as [<- | Hp]; [exact H0 |].
      rewrite List.Forall_forall in Hrest. apply Hrest, in_map, Hp. }
    exists (Py.Rgeb m 0.6), m. split; [apply (predict_nonempty p0 rest Hbox) |].
    split.
    + destruct Hin as (p & _ & <-). apply spec_score_person_range.
    + rewrite Rgeb_true. split.
      * intros Hm. destruct Hin as (p & Hp & Heq).
        exists p, m. rewrite (Hscore p Hp), Heq. tauto.
      * intros (p & s & Hp & Hs & Hle). rewrite (Hscore p Hp) in Hs.
        injection Hs as <-. pose proof (Hge p Hp). lra.
Qed.

Lemma predict_is_fall_iff_witness :
  Forall (fun p => PersonPose.bbox_ok p = true)
    [Samples.bare; Samples.lying_box]
  /\ exists (is_fall : bool) (fall_score : R),
       Fall.predict [Samples.bare; Samples.lying_box]
       = Py.Ok (is_fall, fall_score)
       /\ 0 <= fall_score <= 1.
Proof.
  assert (H : Forall (fun p => PersonPose.bbox_ok p = true)
                [Samples.bare; Samples.lying_box])
    by (repeat constructor).
  split; [exact H |].
  destruct (predict_is_fall_iff [Samples.bare; Samples.lying_box] H)
    as (is_fall & fall_score & Hp & Hr & _).
  exists is_fall, fall_score. split; [exact Hp | exact Hr].
Defined.

Section FallOrder.

Lemma fold_left_Rmax_unique (l l' : list R) (a a' : R) :
  (forall x, In x (a :: l) <-> In x (a' :: l')) ->
  fold_left Rmax l a = fold_left Rmax l' a'.
Proof.
  intros Hsame.
  pose proof (fold_left_Rmax_in l a) as Hin.
  pose proof (fold_left_Rmax_in l' a') as Hin'.
  destruct (fold_left_Rmax_ge l a) as [Ha Hl].
  destruct (fold_left_Rmax_ge l' a') as [Ha' Hl'].
  rewrite List.Forall_forall in Hl, Hl'.
  assert (Hub : forall x, In x (a :: l) -> x <= fold_left Rmax l a).
  { intros x [<- | Hx]; [exact Ha | apply Hl, Hx]. }
  assert (Hub' : forall x, In x (a' :: l') -> x <= fold_left Rmax l' a').
  { intros x [<- | Hx]; [exact Ha' | apply Hl', Hx]. }
  apply Rle_antisym.
  - apply Hub', Hsame, Hin.
  - apply Hub, Hsame, Hin'.
Qed.

End FallOrder.

(** X3. The verdict does not depend on the order in which the detections are
    listed, nor on how often one is repeated: two lists with the same
    members get the same result, a raised [ValueError] included. *)
Theorem predict_order_independent (people people' : list PersonPose.t)
    (Hsame : forall p, In p people <-> In p people') :
  Fall.predict people = Fall.predict people'.
Proof.
  assert (Hbad : forall l l' : list PersonPose.t,
            (forall p, In p l <-> In p l') ->
            Exists (fun p => PersonPose.bbox_ok p = false) l ->
            Exists (fun p => PersonPose.bbox_ok p = false) l').
  { intros l l' H Hex. apply List.Exists_exists in Hex.
    destruct Hex as (p & Hp & Hb). apply List.Exists_exists.
    exists p. split; [apply H, Hp | exact Hb]. }
  destruct (all_or_some_malformed people) as [Hok | Hex].
  - destruct (all_or_some_malformed people') as [Hok' | Hex'].
    + destruct people as [| p0 rest]; destruct people' as [| p0' rest'].
      * reflexivity.
      * exfalso. apply (Hsame p0'). left. reflexivity.
      * exfalso. apply (Hsame p0). left. reflexivity.
      * rewrite (predict_nonempty p0 rest Hok), (predict_nonempty p0' rest' Hok').
        assert (Heq : fold_left Rmax (map Fall.spec_score_person rest)
                        (Fall.spec_score_person p0)
                      = fold_left Rmax (map Fall.spec_score_person rest')
                          (Fall.spec_score_person p0')).
        { apply fold_left_Rmax_unique. intros x.
          change (In x (map Fall.spec_score_person (p0 :: rest))
                  <-> In x (map Fall.spec_score_person (p0' :: rest'))).
          rewrite !in_map_iff. split; intros (p & Heq & Hp); exists p;
            (split; [exact Heq | apply Hsame, Hp]). }
        rewrite Heq. reflexivity.
    + exfalso. apply (Hbad people' people) in Hex'; [| intros p; symmetry; apply Hsame].
      apply List.Exists_exists in Hex'. destruct Hex' as (p & Hp & Hb).
      rewrite Forall_forall in Hok.
      specialize (Hok p (proj2 (list_elem_of_In _ _) Hp)). congruence.
  - pose proof (Hbad people people' Hsame Hex) as Hex'.
    rewrite (predict_malformed people Hex), (predict_malformed people' Hex').
    reflexivity.
Qed.

Lemma predict_order_independent_witness :
  (forall p, In p [Samples.bare; Samples.lying_box]
             <-> In p [Samples.lying_box; Samples.bare; Samples.bare])
  /\ Fall.predict [Samples.bare; Samples.lying_box]
     = Fall.predict [Samples.lying_box; Samples.bare; Samples.bare].
Proof.
  assert (H : forall p, In p [Samples.bare; Samples.lying_box]
                        <-> In p [Samples.lying_box; Samples.bare; Samples.bare])
    by (intros p; simpl; tauto).
  split; [exact H |].
  exact (predict_order_independent _ _ H).
Defined.

Section Atan2.

Lemma atan_neg (x : R) : x < 0 -> atan x < 0.
Proof. intros H. rewrite <- atan_0. apply atan_increasing, H. Qed.

Lemma atan_pos (x : R) : 0 < x -> 0 < atan x.
Proof. intros H. rewrite <- atan_0. apply atan_increasing, H. Qed.

(** [math.atan2] answers in [(-PI, PI]]. *)
Lemma atan2_range (y x : R) : - PI < Py.atan2 y x <= PI.
Proof.
  pose proof PI_RGT_0 as Hpi. unfold Py.atan2.
  destruct (Rlt_dec 0 x) as [Hx | Hx].
  { destruct (atan_bound (y / x)). lra. }
  destruct (Rlt_dec x 0) as [Hx' | Hx'].
  - destruct (atan_bound (y / x)) as [Hlo Hhi].
    destruct (Rle_dec 0 y) as [Hy | Hy].
    + assert (Hq : y / x <= 0).
      { unfold Rdiv. assert (/ x < 0) by (apply Rinv_lt_0_compat, Hx'). nra. }
      assert (atan (y / x) <= 0).
      { destruct Hq as [Hq | ->]; [left; apply atan_neg, Hq | rewrite atan_0; lra]. }
      lra.
    + assert (Hq : 0 < y / x).
      { unfold Rdiv. assert (/ x < 0) by (apply Rinv_lt_0_compat, Hx'). nra. }
      pose proof (atan_pos _ Hq). lra.
  - destruct (Rlt_dec 0 y); [lra |]. destruct (Rlt_dec y 0); lra.
Qed.

(** Along the negative x axis the angle is [PI], along the positive one 0;
    along the y axis it is a quarter turn. *)
Lemma atan2_axes (t : R) :
  (t < 0 -> Py.atan2 0 t = PI)
  /\ (0 < t -> Py.atan2 0 t = 0)
  /\ (t <> 0 -> Rabs (Py.atan2 t 0) = PI / 2).
Proof.
  pose proof PI_RGT_0 as Hpi. unfold Py.atan2. repeat split; intros Ht.
  - destruct (Rlt_dec 0 t); [lra |]. destruct (Rlt_dec t 0); [| lra].
    destruct (Rle_dec 0 0); [| lra].
    unfold Rdiv. rewrite Rmult_0_l, atan_0. lra.
  - destruct (Rlt_dec 0 t); [| lra].
    unfold Rdiv. rewrite Rmult_0_l, atan_0. reflexivity.
  - destruct (Rlt_dec 0 0); [lra |].
    destruct (Rlt_dec 0 t).
    + rewrite Rabs_right; lra.
    + destruct (Rlt_dec t 0); [| lra]. rewrite Rabs_left; lra.
Qed.

End Atan2.

(** X4. The torso angle is measured from the direction of growing [y]. With the
    four landmarks present it lies in [[0, 180]]; when the shoulder midpoint
    is straight above the hip midpoint in image coordinates (same [x],
    smaller [y]) it is 180, straight below it is 0, and level with it (same
    [y], other [x]) it is 90. *)
Theorem torso_angle_orientation (person : PersonPose.t)
    (ls rs lh rh : Keypoint.t)
    (Hls : Fall._get_point person "left_shoulder" = Some ls)
    (Hrs : Fall._get_point person "right_shoulder" = Some rs)
    (Hlh : Fall._get_point person "left_hip" = Some lh)
    (Hrh : Fall._get_point person "right_hip" = Some rh) :
  let sx := (Keypoint.x ls + Keypoint.x rs) / 2 in
  let sy := (Keypoint.y ls + Keypoint.y rs) / 2 in
  let hx := (Keypoint.x lh + Keypoint.x rh) / 2 in
  let hy := (Keypoint.y lh + Keypoint.y rh) / 2 in
  exists angle,
    Fall._torso_angle_deg person = Some angle
    /\ 0 <= angle <= 180
    /\ (sx = hx -> sy < hy -> angle = 180)
    /\ (sx = hx -> hy < sy -> angle = 0)
    /\ (sy = hy -> sx <> hx -> angle = 90).
Proof.
  intros sx sy hx hy. pose proof PI_RGT_0 as Hpi.
  unfold Fall._torso_angle_deg. rewrite Hls, Hrs, Hlh, Hrh.
  unfold Fall._center. fold sx sy hx hy.
  eexists. split; [reflexivity |]. unfold Py.degrees.
  split; [| split; [| split]].
  - destruct (atan2_range (sx - hx) (sy - hy)) as [Hlo Hhi].
    assert (Habs : 0 <= Rabs (Py.atan2 (sx - hx) (sy - hy)) <= PI).
    { split; [apply Rabs_pos |]. apply Rabs_le. lra. }
    split.
    + apply Rmult_le_pos; [nra | left; apply Rinv_0_lt_compat, Hpi].
    + apply (Rmult_le_reg_r PI); [exact Hpi |]. field_simplify; nra.
  - intros Hx Hy. replace (sx - hx) with 0 by lra.
    destruct (atan2_axes (sy - hy)) as (H & _ & _). rewrite H by lra.
    rewrite Rabs_right by lra. field. lra.
  - intros Hx Hy. replace (sx - hx) with 0 by lra.
    destruct (atan2_axes (sy - hy)) as (_ & H & _). rewrite H by lra.
    rewrite Rabs_R0. field. lra.
  - intros Hy Hx. replace (sy - hy) with 0 by lra.
    destruct (atan2_axes (sx - hx)) as (_ & _ & H). rewrite H by lra.
    field. lra.
Qed.

Lemma torso_angle_orientation_witness :
  Fall._get_point MoreSamples.standing "left_shoulder"
  = Some (Keypoint.mk 90 50 1 (Some "left_shoulder"%string))
  /\ exists angle,
       Fall._torso_angle_deg MoreSamples.standing = Some angle
       /\ 0 <= angle <= 180
       /\ angle = 180.
Proof.
  split; [reflexivity |].
  destruct (torso_angle_orientation MoreSamples.standing
              (Keypoint.mk 90 50 1 (Some "left_shoulder"%string))
              (Keypoint.mk 110 50 1 (Some "right_shoulder"%string))
              (Keypoint.mk 90 150 1 (Some "left_hip"%string))
              (Keypoint.mk 110 150 1 (Some "right_hip"%string))
              eq_refl eq_refl eq_refl eq_refl)
    as (angle & Ha & Hr & Hup & _).
  exists angle. split; [exact Ha |]. split; [exact Hr |].
  apply Hup; simpl; lra.
Defined.

(** X5. A person whose shoulder midpoint is straight above the hip midpoint in
    image coordinates gets the angle term 1: the score is
    [max(0.5, min(1, confidence))] whatever the box, and at a confidence of
    0.6 or more [predict] reports a fall for that person alone. *)
Theorem upright_torso_scores_full (person : PersonPose.t)
    (ls rs lh rh : Keypoint.t)
    (Hls : Fall._get_point person "left_shoulder" = Some ls)
    (Hrs : Fall._get_point person "right_shoulder" = Some rs)
    (Hlh : Fall._get_point person "left_hip" = Some lh)
    (Hrh : Fall._get_point person "right_hip" = Some rh)
    (Hbox : PersonPose.bbox_ok person = true)
    (Hx : Keypoint.x ls + Keypoint.x rs = Keypoint.x lh + Keypoint.x rh)
    (Hy : Keypoint.y ls + Keypoint.y rs < Keypoint.y lh + Keypoint.y rh) :
  Fall.score_person person
  = Py.Ok (Rmax 0.5 (Rmin 1 (PersonPose.score person)))
  /\ (0.6 <= PersonPose.score person ->
      exists fall_score, Fall.predict [person] = Py.Ok (true, fall_score)).
Proof.
  pose proof PI_RGT_0 as Hpi.
  assert (Hterm : Fall.spec_angle_term person = 1).
  { unfold Fall.spec_angle_term, Fall.spec_torso_angle, Fall.midpoint.
    rewrite !landmark_get_point, Hls, Hrs, Hlh, Hrh. cbn [fst snd].
    replace ((Keypoint.x ls + Keypoint.x rs) / 2
             - (Keypoint.x lh + Keypoint.x rh) / 2) with 0 by lra.
    destruct (atan2_axes ((Keypoint.y ls + Keypoint.y rs) / 2
                          - (Keypoint.y lh + Keypoint.y rh) / 2)) as (H & _).
    rewrite H by lra. rewrite Rabs_right by lra.
    replace (PI * 180 / PI) with 180 by (field; lra).
    unfold Fall.clamp. case_minmax. }
  assert (Hscore : Fall.spec_score_person person
                   = Rmax 0.5 (Rmin 1 (PersonPose.score person))).
  { unfold Fall.spec_score_person. rewrite Hterm.
    pose proof (spec_aspect_term_range person) as Ha.
    replace (Rmax 1 (Fall.spec_aspect_term person)) with 1
      by (unfold Rmax; destruct (Rle_dec _ _); lra).
    lra. }
  split.
  - rewrite (score_person_eq person Hbox), Hscore. reflexivity.
  - intros Hconf.
    assert (Hall : Forall (fun p => PersonPose.bbox_ok p = true) [person])
      by (repeat constructor; exact Hbox).
    rewrite (predict_nonempty person [] Hall). cbn [map fold_left].
    eexists. f_equal. f_equal. apply Rgeb_true. rewrite Hscore.
    case_minmax.
Qed.

Lemma upright_torso_scores_full_witness :
  PersonPose.bbox_ok MoreSamples.standing = true
  /\ Fall.score_person MoreSamples.standing
     = Py.Ok (Rmax 0.5 (Rmin 1 (PersonPose.score MoreSamples.standing)))
  /\ exists fall_score,
       Fall.predict [MoreSamples.standing] = Py.Ok (true, fall_score).
Proof.
  split; [reflexivity |].
  assert (Hx : Keypoint.x (Keypoint.mk 90 50 1 (Some "left_shoulder"%string))
               + Keypoint.x (Keypoint.mk 110 50 1 (Some "right_shoulder"%string))
               = Keypoint.x (Keypoint.mk 90 150 1 (Some "left_hip"%string))
                 + Keypoint.x (Keypoint.mk 110 150 1 (Some "right_hip"%string)))
    by (simpl; lra).
  assert (Hy : Keypoint.y (Keypoint.mk 90 50 1 (Some "left_shoulder"%string))
               + Keypoint.y (Keypoint.mk 110 50 1 (Some "right_shoulder"%string))
               < Keypoint.y (Keypoint.mk 90 150 1 (Some "left_hip"%string))
                 + Keypoint.y (Keypoint.mk 110 150 1 (Some "right_hip"%string)))
    by (simpl; lra).
  destruct (upright_torso_scores_full MoreSamples.standing _ _ _ _
              eq_refl eq_refl eq_refl eq_refl eq_refl Hx Hy) as [Hs Hp].
  split; [exact Hs |]. apply Hp. simpl. lra.
Defined.

(** X6. The detection confidence only damps: the score lies between half of and
    the whole of what the same person would score at confidence 1; it is
    that half for every confidence up to 0.5 and the whole from 1 on. *)
Theorem score_person_damping (person : PersonPose.t)
    (Hbox : PersonPose.bbox_ok person = true) :
  let at_full := PersonPose.mk (PersonPose.keypoints person) 1
                   (PersonPose.bbox person) in
  exists s full,
    Fall.score_person person = Py.Ok s
    /\ Fall.score_person at_full = Py.Ok full
    /\ full / 2 <= s <= full
    /\ (PersonPose.score person <= 0.5 -> s = full / 2)
    /\ (1 <= PersonPose.score person -> s = full).
Proof.
  intros at_full.
  assert (Hbox' : PersonPose.bbox_ok at_full = true) by exact Hbox.
  rewrite (score_person_eq person Hbox), (score_person_eq at_full Hbox').
  eexists _, _. split; [reflexivity |]. split; [reflexivity |].
  assert (Ha : Fall.spec_angle_term at_full = Fall.spec_angle_term person)
    by reflexivity.
  assert (Hb : Fall.spec_aspect_term at_full = Fall.spec_aspect_term person)
    by reflexivity.
  unfold Fall.spec_score_person. rewrite Ha, Hb. cbn [PersonPose.score at_full].
  pose proof (spec_angle_term_range person) as Hra.
  pose proof (spec_aspect_term_range person) as Hrb.
  assert (Hm : 0 <= Rmax (Fall.spec_angle_term person)
                       (Fall.spec_aspect_term person))
    by (unfold Rmax; destruct (Rle_dec _ _); lra).
  set (m := Rmax (Fall.spec_angle_term person) (Fall.spec_aspect_term person))
    in *.
  replace (Rmax 0.5 (Rmin 1 1)) with 1 by case_minmax.
  pose proof (damping_range (PersonPose.score person)) as Hd.
  repeat split.
  - nra.
  - nra.
  - intros Hlow.
    replace (Rmax 0.5 (Rmin 1 (PersonPose.score person))) with 0.5
      by case_minmax. lra.
  - intros Hhigh.
    replace (Rmax 0.5 (Rmin 1 (PersonPose.score person))) with 1
      by case_minmax. lra.
Qed.

Lemma score_person_damping_witness :
  PersonPose.bbox_ok Samples.lying_box = true
  /\ exists s full,
       Fall.score_person Samples.lying_box = Py.Ok s
       /\ full / 2 <= s <= full.
Proof.
  split; [reflexivity |].
  destruct (score_person_damping Samples.lying_box eq_refl)
    as (s & full & Hs & _ & Hr & _).
  exists s, full. split; [exact Hs | exact Hr].
Defined.

(** ** pose.py: what [estimate] hands to the scorer *)

Section TorchvisionShape.

Variable self : Pose.t.

Lemma torchvision_keypoint_shape (scale inv_scale : R)
    (rows : list (list (R * R * R))) (kss : option (list (list R)))
    (i j : nat) (kp : Keypoint.t) :
  Pose.torchvision_keypoint scale inv_scale rows kss i j = Py.Ok kp ->
  Pose.in_unit_interval (Keypoint.score kp)
  /\ Keypoint.name kp = Utils.COCO_KEYPOINT_NAMES !! j.
Proof.
  unfold Pose.torchvision_keypoint. intros H.
  destruct (Pose.index rows i) as [row | e]; simpl in H; [| discriminate].
  destruct (Pose.index row j) as [[[x y] v] | e]; simpl in H; [| discriminate].
  match type of H with
  | Py.bind ?m _ = _ => destruct m as [kp_score | e]
  end; simpl in H; [| discriminate].
  apply Keypoint_new_Ok in H. destruct H as [Hrange ->]. simpl.
  split; [exact Hrange | reflexivity].
Qed.

Lemma torchvision_person_shape (scale inv_scale : R)
    (bs : list (R * R * R * R)) (ss : list R) (shape1 : nat)
    (rows : list (list (R * R * R))) (kss : option (list (list R)))
    (i : nat) (p : PersonPose.t) :
  Pose.torchvision_person self scale inv_scale bs ss shape1 rows kss i
  = Py.Ok (Some p) ->
  ss !! i = Some (PersonPose.score p)
  /\ Pose.score_threshold self <= PersonPose.score p
  /\ Pose.in_unit_interval (PersonPose.score p)
  /\ (exists a b c d, PersonPose.bbox p = Some [a; b; c; d])
  /\ length (PersonPose.keypoints p) = shape1
  /\ (forall j kp, PersonPose.keypoints p !! j = Some kp ->
        Pose.in_unit_interval (Keypoint.score kp)
        /\ Keypoint.name kp = Utils.COCO_KEYPOINT_NAMES !! j).
Proof.
  unfold Pose.torchvision_person. intros H.
  destruct (Pose.index ss i) as [score | e] eqn:Hscore; simpl in H;
    [| discriminate].
  destruct (Py.Rltb score (Pose.score_threshold self)) eqn:Hthr;
    [discriminate |].
  destruct (Pose.index bs i) as [[[[b0 b1] b2] b3] | e]; simpl in H;
    [| discriminate].
  apply index_Ok in Hscore.
  match type of H with
  | Py.bind ?m _ = _ => destruct m as [kps | e] eqn:Hkps
  end; simpl in H; [| discriminate].
  match type of H with
  | Py.bind ?m _ = _ => destruct m as [person | e] eqn:Hperson
  end; simpl in H; [| discriminate].
  injection H as ->.
  apply PersonPose_new_Ok in Hperson. destruct Hperson as [Hrange ->].
  apply mapM_Ok_Forall2 in Hkps. simpl.
  split; [exact Hscore |]. split.
  { destruct (Rle_dec (Pose.score_threshold self) score) as [Hle | Hn];
      [exact Hle |].
    exfalso. assert (Py.Rltb score (Pose.score_threshold self) = true)
      by (apply Rltb_true; lra). congruence. }
  split; [exact Hrange |]. split.
  { destruct (Py.Reqb scale 1); eexists _, _, _, _; reflexivity. }
  split.
  { apply Forall2_length in Hkps. rewrite length_seq in Hkps. congruence. }
  intros j kp Hj.
  destruct (Forall2_lookup_r _ _ _ _ _ Hkps Hj) as (j' & Hj' & Hok).
  apply lookup_seq in Hj'. destruct Hj' as [-> _].
  apply (torchvision_keypoint_shape _ _ _ _ _ _ _ Hok).
Qed.

Lemma omap_length_le {A B} (f : A -> option B) (l : list A) :
  (length (omap f l) <= length l)%nat.
Proof.
  induction l as [| a l IH]; [reflexivity |].
  cbn [omap list_omap]. destruct (f a); cbn [length]; lia.
Qed.

(** What a returning [_estimate_torchvision] has done: nothing, for want of
    an output, or one pass over the boxes. *)
Lemma estimate_torchvision_Ok (image : Pose.Image) (people : list PersonPose.t) :
  Pose._estimate_torchvision self image = Py.Ok people ->
  exists image_resized scale,
    Pose._resize_for_inference self image = Py.Ok (image_resized, scale)
    /\ (people = []
        \/ exists bs ss rows kss inv_scale kept,
             Pose.boxes (Pose.torchvision_model self image_resized) = Some bs
             /\ Forall2
                  (fun i o =>
                     Pose.torchvision_person self scale inv_scale bs ss
                       (Pose.keypoints_shape1
                          (Pose.torchvision_model self image_resized))
                       rows kss i = Py.Ok o)
                  (seq 0 (length bs)) kept
             /\ people = omap (fun o => o) kept).
Proof.
  unfold Pose._estimate_torchvision. intros H.
  destruct (Pose._resize_for_inference self image)
    as [[image_resized scale] | e]; simpl in H; [| discriminate].
  exists image_resized, scale. split; [reflexivity |].
  destruct (Pose.boxes _) as [bs |]; [| left; congruence].
  destruct (Pose.scores _) as [ss |]; [| left; congruence].
  destruct (Pose.keypoints _) as [rows |]; [| left; congruence].
  match type of H with
  | Py.bind ?m _ = _ => destruct m as [kept | e] eqn:Hkept
  end; simpl in H; [| discriminate].
  injection H as <-. apply mapM_Ok_Forall2 in Hkept.
  right. eexists bs, ss, rows, _, _, kept. split; [reflexivity |].
  split; [exact Hkept | reflexivity].
Qed.

Lemma estimate_torchvision_person (image : Pose.Image)
    (people : list PersonPose.t) (p : PersonPose.t) :
  Pose._estimate_torchvision self image = Py.Ok people -> p ∈ people ->
  Pose.score_threshold self <= PersonPose.score p
  /\ Pose.in_unit_interval (PersonPose.score p)
  /\ (exists a b c d, PersonPose.bbox p = Some [a; b; c; d])
  /\ (forall j kp, PersonPose.keypoints p !! j = Some kp ->
        Pose.in_unit_interval (Keypoint.score kp)
        /\ Keypoint.name kp = Utils.COCO_KEYPOINT_NAMES !! j).
Proof.
  intros H Hp.
  destruct (estimate_torchvision_Ok image people H)
    as (image_resized & scale & _ & [-> | Hrun]).
  { inversion Hp. }
  destruct Hrun as (bs & ss & rows & kss & inv_scale & kept & _ & Hkept & ->).
  apply list_elem_of_omap in Hp. destruct Hp as (o & Ho & ->).
  apply list_elem_of_lookup in Ho. destruct Ho as [n Hn].
  destruct (Forall2_lookup_r _ _ _ _ _ Hkept Hn) as (i & _ & Hok).
  destruct (torchvision_person_shape _ _ _ _ _ _ _ _ _ Hok)
    as (_ & Hthr & Hrange & Hbox & _ & Hkps).
  tauto.
Qed.

End TorchvisionShape.

(** X7. Whatever [estimate] returns, on either backend, every confidence in it
    (each person's and each keypoint's) lies in [[0, 1]]. *)
Theorem estimate_confidences_in_range (self : Pose.t) (image : Pose.Image)
    (people : list PersonPose.t)
    (Hreturns : Pose.estimate self image = Py.Ok people) :
  Forall (fun p => Forall Pose.in_unit_interval (Pose.confidences p)) people.
Proof.
  unfold Pose.estimate in Hreturns. destruct (Pose.backend self).
  - unfold Pose._estimate_sports2d in Hreturns.
    apply mapM_Ok_Forall2 in Hreturns.
    induction Hreturns as [| pose p poses people Hp _ IH]; constructor.
    + apply (sports2d_person_Ok pose p Hp).
    + exact IH.
  - apply Forall_forall. intros p Hp.
    destruct (estimate_torchvision_person self image people p Hreturns Hp)
      as (_ & Hrange & _ & Hkps).
    unfold Pose.confidences. constructor; [exact Hrange |].
    apply Forall_forall. intros c Hc.
    apply list_elem_of_In, in_map_iff in Hc. destruct Hc as (kp & <- & Hin).
    apply list_elem_of_In, list_elem_of_lookup in Hin. destruct Hin as [j Hj].
    apply (Hkps j kp Hj).
Qed.

Lemma estimate_confidences_in_range_witness :
  Pose.estimate Samples.torchvision_one Samples.image_1280x960
  = Py.Ok [PersonPose.mk [Keypoint.mk 100 120 0.5 (Some "nose"%string)] 0.9
             (Some [20; 40; 220; 440])]
  /\ Forall (fun p => Forall Pose.in_unit_interval (Pose.confidences p))
       [PersonPose.mk [Keypoint.mk 100 120 0.5 (Some "nose"%string)] 0.9
          (Some [20; 40; 220; 440])].
Proof.
  split; [exact estimate_torchvision_one_detection |].
  exact (estimate_confidences_in_range _ _ _ estimate_torchvision_one_detection).
Defined.

(** X8. On the generic-detector path every returned person has a detection
    score of at least [score_threshold] and a box of four coordinates, there
    are no more persons than boxes, and scoring them cannot fail: [predict]
    returns a verdict with a score in [[0, 1]]. *)
Theorem estimate_torchvision_then_predict (self : Pose.t) (image : Pose.Image)
    (people : list PersonPose.t)
    (Hbackend : Pose.backend self = Pose.torchvision)
    (Hreturns : Pose.estimate self image = Py.Ok people) :
  Forall (fun p => Pose.score_threshold self <= PersonPose.score p
                   /\ exists a b c d, PersonPose.bbox p = Some [a; b; c; d])
    people
  /\ (forall image_resized scale bs,
        Pose._resize_for_inference self image = Py.Ok (image_resized, scale) ->
        Pose.boxes (Pose.torchvision_model self image_resized) = Some bs ->
        (length people <= length bs)%nat)
  /\ exists is_fall fall_score,
       Fall.predict people = Py.Ok (is_fall, fall_score)
       /\ 0 <= fall_score <= 1.
Proof.
  unfold Pose.estimate in Hreturns. rewrite Hbackend in Hreturns.
  assert (Hall : Forall (fun p => Pose.score_threshold self <= PersonPose.score p
                   /\ exists a b c d, PersonPose.bbox p = Some [a; b; c; d])
                   people).
  { apply Forall_forall. intros p Hp.
    destruct (estimate_torchvision_person self image people p Hreturns Hp)
      as (Hthr & _ & Hbox & _). tauto. }
  split; [exact Hall |]. split.
  - intros image_resized scale bs Hr Hb.
    destruct (estimate_torchvision_Ok self image people Hreturns)
      as (image_resized' & scale' & Hr' & [-> | Hrun]); [simpl; lia |].
    rewrite Hr in Hr'. injection Hr' as <- <-.
    destruct Hrun as (bs' & ss & rows & kss & inv_scale & kept & Hb' & Hkept & ->).
    rewrite Hb in Hb'. injection Hb' as <-.
    apply Forall2_length in Hkept. rewrite length_seq in Hkept.
    pose proof (omap_length_le (fun o : option PersonPose.t => o) kept). lia.
  - assert (Hok : Forall (fun p => PersonPose.bbox_ok p = true) people).
    { eapply Forall_impl; [exact Hall |]. simpl.
      intros p (_ & a & b & c & d & Hb). unfold PersonPose.bbox_ok.
      rewrite Hb. reflexivity. }
    destruct people as [| p0 rest].
    + exists false, 0. split; [reflexivity | lra].
    + rewrite (predict_nonempty p0 rest Hok). eexists _, _.
      split; [reflexivity |].
      pose proof (fold_left_Rmax_in (map Fall.spec_score_person rest)
                    (Fall.spec_score_person p0)) as Hin.
      change (In (fold_left Rmax (map Fall.spec_score_person rest)
                    (Fall.spec_score_person p0))
                (map Fall.spec_score_person (p0 :: rest))) in Hin.
      apply in_map_iff in Hin. destruct Hin as (p & <- & _).
      apply spec_score_person_range.
Qed.

Lemma estimate_torchvision_then_predict_witness :
  Pose.backend Samples.torchvision_one = Pose.torchvision
  /\ Pose.estimate Samples.torchvision_one Samples.image_1280x960
     = Py.Ok [PersonPose.mk [Keypoint.mk 100 120 0.5 (Some "nose"%string)] 0.9
                (Some [20; 40; 220; 440])]
  /\ exists is_fall fall_score,
       Fall.predict
         [PersonPose.mk [Keypoint.mk 100 120 0.5 (Some "nose"%string)] 0.9
            (Some [20; 40; 220; 440])]
       = Py.Ok (is_fall, fall_score)
       /\ 0 <= fall_score <= 1.
Proof.
  split; [reflexivity |]. split; [exact estimate_torchvision_one_detection |].
  destruct (estimate_torchvision_then_predict Samples.torchvision_one
              Samples.image_1280x960 _ eq_refl
              estimate_torchvision_one_detection) as (_ & _ & H).
  exact H.
Defined.

Section NamedKeypoints.

(** In a list named position by position from a duplicate-free list of
    names, looking a name up finds the keypoint at that name's position. *)
Lemma find_named (names : list string) (kps : list Keypoint.t)
    (j : nat) (name : string) (kp : Keypoint.t) :
  NoDup names ->
  (forall i k, kps !! i = Some k -> Keypoint.name k = names !! i) ->
  names !! j = Some name -> kps !! j = Some kp ->
  List.find (fun k => bool_decide (Keypoint.name k = Some name)) kps = Some kp.
Proof.
  revert names j. induction kps as [| k0 kps IH]; intros names j Hnodup Hnamed Hname Hkp.
  - discriminate.
  - destruct names as [| n0 names]; [discriminate |].
    pose proof (Hnamed 0%nat k0 eq_refl) as Hk0. cbn in Hk0.
    destruct j as [| j]; cbn in Hname, Hkp.
    + injection Hname as ->. injection Hkp as ->. cbn [List.find].
      rewrite bool_decide_true by exact Hk0. reflexivity.
    + cbn [List.find].
      assert (Hne : n0 <> name).
      { intros ->. apply NoDup_cons in Hnodup. destruct Hnodup as [Hnotin _].
        apply Hnotin. apply list_elem_of_lookup. exists j. exact Hname. }
      rewrite bool_decide_false by congruence.
      apply (IH names j).
      * apply NoDup_cons in Hnodup. tauto.
      * intros i k Hi. apply (Hnamed (S i) k Hi).
      * exact Hname.
      * exact Hkp.
Qed.

Lemma COCO_KEYPOINT_NAMES_NoDup : NoDup Utils.COCO_KEYPOINT_NAMES.
Proof.
  apply (bool_decide_unpack (NoDup Utils.COCO_KEYPOINT_NAMES)).
  vm_compute. exact I.
Qed.

End NamedKeypoints.

(** X9. The detector's keypoints reach the scorer under their COCO names: in a
    person returned on the generic-detector path, the keypoint at output
    index [j] is the one [_get_point] finds under the [j]-th COCO name. *)
Theorem torchvision_keypoints_found_by_name (self : Pose.t)
    (image : Pose.Image) (people : list PersonPose.t) (p : PersonPose.t)
    (j : nat) (name : string) (kp : Keypoint.t)
    (Hbackend : Pose.backend self = Pose.torchvision)
    (Hreturns : Pose.estimate self image = Py.Ok people)
    (Hp : In p people)
    (Hname : Utils.COCO_KEYPOINT_NAMES !! j = Some name)
    (Hkp : PersonPose.keypoints p !! j = Some kp) :
  Fall._get_point p name = Some kp.
Proof.
  unfold Pose.estimate in Hreturns. rewrite Hbackend in Hreturns.
  apply list_elem_of_In in Hp.
  destruct (estimate_torchvision_person self image people p Hreturns Hp)
    as (_ & _ & _ & Hkps).
  unfold Fall._get_point.
  apply (find_named Utils.COCO_KEYPOINT_NAMES _ j).
  - exact COCO_KEYPOINT_NAMES_NoDup.
  - intros i k Hi. apply (Hkps i k Hi).
  - exact Hname.
  - exact Hkp.
Qed.

Lemma torchvision_keypoints_found_by_name_witness :
  Pose.estimate Samples.torchvision_one Samples.image_1280x960
  = Py.Ok [PersonPose.mk [Keypoint.mk 100 120 0.5 (Some "nose"%string)] 0.9
             (Some [20; 40; 220; 440])]
  /\ Fall._get_point
       (PersonPose.mk [Keypoint.mk 100 120 0.5 (Some "nose"%string)] 0.9
          (Some [20; 40; 220; 440])) "nose"
     = Some (Keypoint.mk 100 120 0.5 (Some "nose"%string)).
Proof.
  split; [exact estimate_torchvision_one_detection |].
  apply (torchvision_keypoints_found_by_name Samples.torchvision_one
           Samples.image_1280x960 _ _ 0%nat "nose" _ eq_refl
           estimate_torchvision_one_detection).
  - left. reflexivity.
  - reflexivity.
  - reflexivity.
Defined.

(** X10. On the Sports2D path the raw box reaches the scorer unchecked: when the
    backend gives some pose a non-empty box that does not have four numbers
    and [estimate] returns, [predict] on the result raises [ValueError]. *)
Theorem estimate_sports2d_then_predict_raises (self : Pose.t)
    (image : Pose.Image) (people : list PersonPose.t)
    (Hbackend : Pose.backend self = Pose.sports2d)
    (Hreturns : Pose.estimate self image = Py.Ok people)
    (Hbox : Exists (fun pose => match Pose.raw_bbox pose with
                                | None | Some [] | Some [_; _; _; _] => False
                                | Some _ => True
                                end)
              (Pose.sports2d_predict self image)) :
  Fall.predict people = Py.Raise Py.ValueError.
Proof.
  unfold Pose.estimate, Pose._estimate_sports2d in Hreturns.
  rewrite Hbackend in Hreturns. apply mapM_Ok_Forall2 in Hreturns.
  apply predict_malformed.
  induction Hreturns as [| pose p poses people Hp _ IH].
  - inversion Hbox.
  - apply Exists_cons in Hbox. destruct Hbox as [Hbad | Hrest].
    + apply Exists_cons_hd.
      apply sports2d_person_Ok in Hp. destruct Hp as ((_ & _ & Hb) & _).
      unfold PersonPose.bbox_ok. rewrite Hb.
      destruct (Pose.raw_bbox pose) as [[| ? [| ? [| ? [| ? [| ? ?]]]]] |];
        try contradiction; reflexivity.
    + apply Exists_cons_tl, IH, Hrest.
Qed.

Lemma estimate_sports2d_short_box :
  Pose.estimate MoreSamples.sports2d_short_box Samples.image_640x480
  = Py.Ok [PersonPose.mk [Keypoint.mk 10 20 0.5 None] 0.9 (Some [0; 0; 4])].
Proof.
  unfold Pose.estimate, Pose._estimate_sports2d. simpl.
  unfold Pose.sports2d_person. simpl.
  unfold Pose.sports2d_keypoint, Pose.index. simpl.
  unfold Keypoint.new, PersonPose.new. settle_comparisons. simpl.
  settle_comparisons. reflexivity.
Qed.

Lemma estimate_sports2d_then_predict_raises_witness :
  Pose.backend MoreSamples.sports2d_short_box = Pose.sports2d
  /\ Pose.estimate MoreSamples.sports2d_short_box Samples.image_640x480
     = Py.Ok [PersonPose.mk [Keypoint.mk 10 20 0.5 None] 0.9 (Some [0; 0; 4])]
  /\ Fall.predict
       [PersonPose.mk [Keypoint.mk 10 20 0.5 None] 0.9 (Some [0; 0; 4])]
     = Py.Raise Py.ValueError.
Proof.
  split; [reflexivity |]. split; [exact estimate_sports2d_short_box |].
  apply (estimate_sports2d_then_predict_raises MoreSamples.sports2d_short_box
           Samples.image_640x480 _ eq_refl estimate_sports2d_short_box).
  apply Exists_cons_hd. exact I.
Defined.

(** X11. [_resize_for_inference] never enlarges: on a non-empty image with a
    positive [max_side] each side of the result is at least 1, at most what
    it was and at most [max_side]; and resizing the result again changes
    nothing. *)
Theorem resize_never_enlarges (self : Pose.t) (image : Pose.Image)
    (Hw : (0 < Pose.width image)%Z) (Hh : (0 < Pose.height image)%Z)
    (Hm : (0 < Pose.max_side self)%Z) :
  exists image_resized s,
    Pose._resize_for_inference self image = Py.Ok (image_resized, s)
    /\ (1 <= Pose.width image_resized <= Pose.width image)%Z
    /\ (1 <= Pose.height image_resized <= Pose.height image)%Z
    /\ (Z.max (Pose.width image_resized) (Pose.height image_resized)
        <= Pose.max_side self)%Z
    /\ Pose._resize_for_inference self image_resized
       = Py.Ok (image_resized, 1).
Proof.
  set (longer := Z.max (Pose.width image) (Pose.height image)).
  destruct (Z_le_gt_dec longer (Pose.max_side self)) as [Hle | Hgt].
  - exists image, 1. rewrite (resize_small self image Hle).
    unfold longer in Hle. repeat split; try lia.
  - assert (Hlt : (Pose.max_side self < longer)%Z) by lia.
    destruct (resize_large self image Hw Hh Hm Hlt) as (Hr & Hs & Hside).
    fold longer in Hr, Hside.
    set (s := IZR (Pose.max_side self) / IZR longer) in *.
    assert (Hshrink : forall d : Z, (0 < d)%Z ->
              (1 <= Z.max 1 (Py.round (IZR d * s)) <= d)%Z).
    { intros d Hd. split; [lia |]. apply Z.max_lub; [lia |].
      apply round_le. assert (Hd0 : 0 < IZR d) by (apply IZR_lt; exact Hd).
      rewrite <- (Rmult_1_r (IZR d)) at 2.
      apply Rmult_le_compat_l; [lra |]. destruct Hs as [_ Hs1]. left. exact Hs1. }
    eexists _, s. split; [exact Hr |]. cbn [Pose.width Pose.height].
    pose proof (Hshrink _ Hw) as H1. pose proof (Hshrink _ Hh) as H2.
    split; [exact H1 |]. split; [exact H2 |]. split; [lia |].
    apply resize_small. cbn [Pose.width Pose.height]. lia.
Qed.

Lemma resize_never_enlarges_witness :
  (0 < Pose.width Samples.image_1280x960)%Z
  /\ (0 < Pose.height Samples.image_1280x960)%Z
  /\ (0 < Pose.max_side Samples.torchvision_one)%Z
  /\ exists image_resized s,
       Pose._resize_for_inference Samples.torchvision_one
         Samples.image_1280x960 = Py.Ok (image_resized, s)
       /\ (1 <= Pose.width image_resized <= 1280)%Z
       /\ Pose._resize_for_inference Samples.torchvision_one image_resized
          = Py.Ok (image_resized, 1).
Proof.
  assert (Hw : (0 < Pose.width Samples.image_1280x960)%Z) by reflexivity.
  assert (Hh : (0 < Pose.height Samples.image_1280x960)%Z) by reflexivity.
  assert (Hm : (0 < Pose.max_side Samples.torchvision_one)%Z) by reflexivity.
  split; [exact Hw |]. split; [exact Hh |]. split; [exact Hm |].
  destruct (resize_never_enlarges Samples.torchvision_one
              Samples.image_1280x960 Hw Hh Hm)
    as (image_resized & s & Hr & Hwidth & _ & _ & Hagain).
  exists image_resized, s. split; [exact Hr |]. split; [exact Hwidth |].
  exact Hagain.
Defined.

(** X12. How [_normalize_kp_score] treats its input. From the scores
    tensor a value already in [[0, 1]] is returned as it is, while every
    value above 1 is squashed above 1/2 and at most 1, and up to the value
    2 to at most 0.9, hence below what the value 1 gets. A visibility flag
    is halved between 0 and 2, and gives 0 below and 1 above. *)
Theorem normalize_kp_score_shape (value : R) :
  (0 <= value <= 1 -> Pose._normalize_kp_score value true = Py.Ok value)
  /\ (1 < value ->
      exists s, Pose._normalize_kp_score value true = Py.Ok s
                /\ s = 1 / (1 + Rtrigo_def.exp (- value))
                /\ 1 / 2 < s <= 1
                /\ (value <= 2 -> s <= 0.9))
  /\ (value <= 0 -> Pose._normalize_kp_score value false = Py.Ok 0)
  /\ (0 <= value <= 2 ->
      Pose._normalize_kp_score value false = Py.Ok (value / 2))
  /\ (2 <= value -> Pose._normalize_kp_score value false = Py.Ok 1).
Proof.
  split; [| split; [| split; [| split]]].
  - intros Hv. unfold Pose._normalize_kp_score.
    assert (H0 : Py.Rltb value 0 = false).
    { apply not_true_iff_false. intros H. apply Rltb_true in H. lra. }
    assert (H1 : Py.Rgtb value 1 = false).
    { apply not_true_iff_false. intros H. apply Rgtb_true in H. lra. }
    rewrite H0, H1. cbn [orb Py.bind]. f_equal. case_minmax.
  - intros Hv. unfold Pose._normalize_kp_score.
    assert (H1 : Py.Rgtb value 1 = true) by (apply Rgtb_true; lra).
    rewrite H1, orb_true_r.
    assert (Hexp : 0 < Rtrigo_def.exp (- value) < 1).
    { split; [apply exp_pos |]. rewrite <- exp_0. apply exp_increasing. lra. }
    unfold Py.exp. destruct (Rlt_dec _ _) as [Hbig | _].
    { exfalso. pose proof pow_1023_le_DBL_MAX as Hd.
      assert (1 <= 2 ^ 1023) by (apply pow_R1_Rle; lra). lra. }
    cbn [Py.bind]. set (e := Rtrigo_def.exp (- value)) in *.
    assert (Hs : 1 / 2 < 1 / (1 + e) < 1).
    { split.
      - apply (Rmult_lt_reg_r (1 + e)); [lra |]. field_simplify; lra.
      - apply (Rmult_lt_reg_r (1 + e)); [lra |]. field_simplify; lra. }
    assert (Hnear : value <= 2 -> 1 / (1 + e) <= 0.9).
    { intros Hv2.
      assert (He2 : Rtrigo_def.exp (Ropp 2) <= e).
      { destruct (Req_dec value 2) as [-> | Hne]; [subst e; lra |].
        left. apply exp_increasing. lra. }
      pose proof (exp_upper_bound 2) as Hup.
      change (INR 2) with (1 + 1) in Hup.
      replace (1 + 1) with 2 in Hup by lra.
      assert (Hpos : 0 < Rtrigo_def.exp 2) by apply exp_pos.
      assert (Hinv : 1 / 9 <= Rtrigo_def.exp (Ropp 2)).
      { rewrite exp_Ropp.
        apply (Rmult_le_reg_r (Rtrigo_def.exp 2)); [exact Hpos |].
        rewrite Rinv_l by lra. simpl in Hup. lra. }
      apply (Rmult_le_reg_r (1 + e)); [lra |]. field_simplify; lra. }
    exists (1 / (1 + e)).
    split; [| split; [reflexivity | split; [lra | exact Hnear]]].
    f_equal. case_minmax.
  - intros Hv. rewrite normalize_kp_score_visibility. f_equal. case_minmax.
  - intros Hv. rewrite normalize_kp_score_visibility. f_equal. case_minmax.
  - intros Hv. rewrite normalize_kp_score_visibility. f_equal. case_minmax.
Qed.

Lemma normalize_kp_score_shape_witness :
  0 <= 0.25 <= 1
  /\ Pose._normalize_kp_score 0.25 true = Py.Ok 0.25
  /\ 1 < 1.5
  /\ (exists s, Pose._normalize_kp_score 1.5 true = Py.Ok s
                /\ 1 / 2 < s <= 0.9)
  /\ Pose._normalize_kp_score 1 false = Py.Ok (1 / 2).
Proof.
  assert (H1 : 0 <= 0.25 <= 1) by lra.
  assert (H2 : 1 < 1.5) by lra.
  assert (H3 : 0 <= 1 <= 2) by lra.
  destruct (normalize_kp_score_shape 0.25) as (Ha & _).
  destruct (normalize_kp_score_shape 1.5) as (_ & Hb & _).
  destruct (normalize_kp_score_shape 1) as (_ & _ & _ & Hc & _).
  split; [exact H1 |]. split; [exact (Ha H1) |]. split; [exact H2 |]. split.
  - destruct (Hb H2) as (s & Hs & _ & Hr & Hnear). exists s.
    split; [exact Hs |]. split; [exact (proj1 Hr) | apply Hnear; lra].
  - exact (Hc H3).
Defined.

(** ** main.py: polling, fetching and the life of a job *)

Section Polling.
Import Main Handlers.

Lemma percent_range (processed t : Z) :
  0 <= Rmin 100 (Rmax 0 (IZR processed / IZR t * 100)) <= 100.
Proof. case_minmax. Qed.

End Polling.

(** X13. What [annotate_progress] reports as [percent] for a registered job:
    nothing when the total is unknown or not positive; otherwise a number
    in [[0, 100]], equal to [processed / total * 100] while
    [0 <= processed <= total] and to 100 from [processed >= total] on. *)
Theorem annotate_progress_percent (w : Main.World) (job_id : string)
    (job : Main.Job) (Hjob : Main._JOBS w !! job_id = Some job) :
  exists progress,
    Handlers.annotate_progress job_id w = (w, Py.Ok progress)
    /\ (Handlers.progress_percent progress = None <->
        match Main.total job with
        | None => True
        | Some t => (t <= 0)%Z
        end)
    /\ (forall pct, Handlers.progress_percent progress = Some pct ->
          0 <= pct <= 100
          /\ exists t, Main.total job = Some t /\ (0 < t)%Z
             /\ ((0 <= Main.processed job <= t)%Z ->
                 pct = IZR (Main.processed job) / IZR t * 100)
             /\ ((t <= Main.processed job)%Z -> pct = 100)).
Proof.
  unfold Handlers.annotate_progress, Main.bind, Main.get_jobs, Main.ret.
  rewrite Hjob. eexists. split; [reflexivity |].
  cbn [Handlers.progress_percent].
  destruct (Main.total job) as [t |].
  - destruct (Z.ltb_spec 0 t) as [Ht | Ht].
    + split; [split; [discriminate | lia] |].
      intros pct [= <-]. split; [apply percent_range |].
      exists t. split; [reflexivity |]. split; [exact Ht |].
      assert (HtR : 0 < IZR t) by (apply IZR_lt; exact Ht).
      split.
      * intros [H0 H1]. apply IZR_le in H0, H1.
        assert (Hq : 0 <= IZR (Main.processed job) / IZR t <= 1).
        { split.
          - apply Rmult_le_pos; [exact H0 | left; apply Rinv_0_lt_compat, HtR].
          - apply (Rmult_le_reg_r (IZR t)); [exact HtR |].
            unfold Rdiv. rewrite Rmult_assoc, Rinv_l, Rmult_1_r, Rmult_1_l by lra.
            exact H1. }
        case_minmax.
      * intros H1. apply IZR_le in H1.
        assert (Hq : 1 <= IZR (Main.processed job) / IZR t).
        { apply (Rmult_le_reg_r (IZR t)); [exact HtR |].
          unfold Rdiv. rewrite Rmult_assoc, Rinv_l, Rmult_1_r, Rmult_1_l by lra.
          exact H1. }
        case_minmax.
    + split; [split; [intros _; exact Ht | reflexivity] |]. discriminate.
  - split; [tauto | discriminate].
Qed.

Lemma annotate_progress_percent_witness :
  Main._JOBS Samples.world_running !! "job1"%string = Some Samples.running_job
  /\ exists progress,
       Handlers.annotate_progress "job1" Samples.world_running
       = (Samples.world_running, Py.Ok progress)
       /\ Handlers.progress_percent progress = Some (5 / 10 * 100).
Proof.
  assert (H : Main._JOBS Samples.world_running !! "job1"%string
              = Some Samples.running_job) by apply lookup_singleton_eq.
  split; [exact H |].
  destruct (annotate_progress_percent Samples.world_running "job1"
              Samples.running_job H) as (progress & Hp & Hnone & Hsome).
  exists progress. split; [exact Hp |].
  destruct (Handlers.progress_percent progress) as [pct |] eqn:Hpct.
  - destruct (Hsome pct eq_refl) as (_ & t & Ht & _ & Hin & _).
    injection Ht as <-. rewrite Hin; [reflexivity |].
    cbn [Main.processed Samples.running_job]. lia.
  - exfalso. assert (Hle : (10 <= 0)%Z) by (apply Hnone; reflexivity). lia.
Defined.

(** X14. A job just registered by [_start_job_state] polls as [running] with no
    frame processed and no error, at 0 percent when its total is positive;
    its result is not ready (409); and no other job is touched. *)
Theorem start_job_then_poll (w : Main.World) (job_id filename : string)
    (total_frames : option Z) :
  let started := Handlers._start_job_state job_id filename total_frames w in
  snd started = Py.Ok job_id
  /\ Handlers.annotate_progress job_id (fst started)
     = (fst started,
        Py.Ok (Handlers.mkProgress Main.running 0 total_frames
                 (match total_frames with
                  | Some t => if (0 <? t)%Z then Some 0 else None
                  | None => None
                  end) None))
  /\ Handlers.annotate_result job_id (fst started)
     = (fst started, Py.Raise Handlers.job_not_finished)
  /\ (forall other, other <> job_id ->
        Main._JOBS (fst started) !! other = Main._JOBS w !! other)
  /\ Main._STOP_EVENT (fst started) = Main._STOP_EVENT w
  /\ Main.files (fst started) = Main.files w.
Proof.
  unfold Handlers._start_job_state, Handlers.annotate_progress,
    Handlers.annotate_result, Main.bind, Main.get_jobs, Main.put_jobs, Main.ret,
    Main.raise.
  cbn [fst snd Main._JOBS Main._STOP_EVENT Main.files].
  rewrite lookup_insert_eq.
  cbn [Main.status Main.processed Main.total Main.error_message].
  repeat split.
  - do 3 f_equal. destruct total_frames as [t |]; [| reflexivity].
    destruct (0 <? t)%Z; [| reflexivity]. f_equal.
    unfold Rdiv. rewrite !Rmult_0_l. case_minmax.
  - intros other Hne. apply lookup_insert_ne. congruence.
Qed.

Section DownloadName.
Import Handlers.

Lemma before_last_dot_none (s : string) :
  Str.contains "."%char s = false -> before_last_dot s = None.
Proof.
  induction s as [| c s IH]; [reflexivity |]. cbn [Str.contains before_last_dot].
  intros H. apply orb_false_iff in H. destruct H as [Hc Hs].
  rewrite (IH Hs). rewrite Ascii.eqb_sym in Hc. rewrite Hc. reflexivity.
Qed.

Lemma before_last_dot_app (stem ext : string) :
  Str.contains "."%char ext = false ->
  before_last_dot (stem ++ "." ++ ext) = Some stem.
Proof.
  intros Hext. induction stem as [| c stem IH].
  - change (before_last_dot (String "." ext) = Some EmptyString).
    cbn [before_last_dot]. rewrite (before_last_dot_none ext Hext).
    reflexivity.
  - change (before_last_dot (String c (stem ++ "." ++ ext))
            = Some (String c stem)).
    cbn [before_last_dot]. rewrite IH. reflexivity.
Qed.

End DownloadName.

(** X15. The finished video is served under the upload's name with its last
    extension replaced by [_annotated.mp4]: [clip.v2.mov] becomes
    [clip.v2_annotated.mp4], a name without a dot gets the suffix appended,
    and the state is left as it was, so fetching again gives the same. *)
Theorem annotate_result_download_name (w : Main.World) (job_id : string)
    (job : Main.Job) (path : string)
    (Hjob : Main._JOBS w !! job_id = Some job)
    (Hdone : Main.status job = Main.done)
    (Hpath : Main.out_path job = Some path)
    (Hnonempty : path <> EmptyString)
    (Hfile : path ∈ Main.files w) :
  (forall stem ext,
     Main.filename job = (stem ++ "." ++ ext)%string ->
     Str.contains "."%char ext = false ->
     Handlers.annotate_result job_id w
     = (w, Py.Ok (Handlers.mkFileResponse path "video/mp4"
                    (stem ++ "_annotated.mp4"))))
  /\ (Main.filename job <> EmptyString ->
      Str.contains "."%char (Main.filename job) = false ->
      Handlers.annotate_result job_id w
      = (w, Py.Ok (Handlers.mkFileResponse path "video/mp4"
                     (Main.filename job ++ "_annotated.mp4"))))
  /\ (Main.filename job = EmptyString ->
      Handlers.annotate_result job_id w
      = (w, Py.Ok (Handlers.mkFileResponse path "video/mp4"
                     "annotated_annotated.mp4"))).
Proof.
  assert (Hserve : Handlers.annotate_result job_id w
            = (w, Py.Ok (Handlers.mkFileResponse path "video/mp4"
                           ((if String.eqb (Main.filename job) ""
                             then "annotated"
                             else Handlers.rsplit_dot_head (Main.filename job))
                            ++ "_annotated.mp4")))).
  { unfold Handlers.annotate_result, Main.bind, Main.get_jobs,
      Main.path_exists, Main.ret.
    rewrite Hjob, bool_decide_true by exact Hdone. cbn [negb]. rewrite Hpath.
    destruct path as [| c path']; [congruence |].
    rewrite bool_decide_true by exact Hfile. reflexivity. }
  rewrite Hserve. split; [| split].
  - intros stem ext Hname Hext. rewrite Hname.
    assert (Hne : String.eqb (stem ++ "." ++ ext) "" = false).
    { destruct stem; reflexivity. }
    rewrite Hne. unfold Handlers.rsplit_dot_head.
    rewrite (before_last_dot_app stem ext Hext). reflexivity.
  - intros Hne Hnodot.
    assert (Hneb : String.eqb (Main.filename job) "" = false).
    { destruct (Main.filename job); [congruence | reflexivity]. }
    rewrite Hneb. unfold Handlers.rsplit_dot_head.
    rewrite (before_last_dot_none _ Hnodot). reflexivity.
  - intros ->. reflexivity.
Qed.

Lemma annotate_result_download_name_witness :
  Main._JOBS Samples.world_done !! "job1"%string = Some Samples.done_job
  /\ Handlers.annotate_result "job1" Samples.world_done
     = (Samples.world_done,
        Py.Ok (Handlers.mkFileResponse "/tmp/out.mp4" "video/mp4"
                 "clip_annotated.mp4")).
Proof.
  assert (H : Main._JOBS Samples.world_done !! "job1"%string
              = Some Samples.done_job) by apply lookup_singleton_eq.
  split; [exact H |].
  assert (Hfile : "/tmp/out.mp4"%string ∈ Main.files Samples.world_done)
    by (cbn [Main.files Samples.world_done]; apply elem_of_singleton;
        reflexivity).
  destruct (annotate_result_download_name Samples.world_done "job1"
              Samples.done_job "/tmp/out.mp4" H eq_refl eq_refl
              ltac:(discriminate) Hfile) as (Hstem & _).
  exact (Hstem "clip"%string "mp4"%string eq_refl eq_refl).
Defined.

(** X16. After [_error_job] a registered job polls as [error] with the message
    and its frame count as it was, and its result is refused as not
    finished (409), whatever output path it had. *)
Theorem error_job_then_query (w : Main.World) (job_id message : string)
    (job : Main.Job) (Hjob : Main._JOBS w !! job_id = Some job) :
  let failed := fst (Handlers._error_job job_id message w) in
  (exists progress,
     Handlers.annotate_progress job_id failed = (failed, Py.Ok progress)
     /\ Handlers.progress_status progress = Main.error
     /\ Handlers.progress_error progress = Some message
     /\ Handlers.progress_processed progress = Main.processed job
     /\ Handlers.progress_total progress = Main.total job)
  /\ Handlers.annotate_result job_id failed
     = (failed, Py.Raise Handlers.job_not_finished).
Proof.
  intros failed. subst failed.
  rewrite (error_job_registered w job_id job message Hjob). cbn [fst].
  unfold Handlers.annotate_progress, Handlers.annotate_result, Main.bind,
    Main.get_jobs, Main.ret, Main.raise.
  cbn [Main._JOBS]. rewrite lookup_insert_eq. split.
  - eexists. split; [reflexivity |]. repeat split.
  - reflexivity.
Qed.

Lemma error_job_then_query_witness :
  Main._JOBS Samples.world_done !! "job1"%string = Some Samples.done_job
  /\ Handlers.annotate_result "job1"
       (fst (Handlers._error_job "job1" "Server stopping" Samples.world_done))
     = (fst (Handlers._error_job "job1" "Server stopping" Samples.world_done),
        Py.Raise Handlers.job_not_finished).
Proof.
  assert (H : Main._JOBS Samples.world_done !! "job1"%string
              = Some Samples.done_job) by apply lookup_singleton_eq.
  split; [exact H |].
  destruct (error_job_then_query Samples.world_done "job1" "Server stopping"
              Samples.done_job H) as [_ Hr].
  exact Hr.
Defined.

(** X17. A job taken through [_start_job_state], [_update_job] and [_finish_job]
    polls as [done] with the frames counted, and while the output file is on
    disk its result is served from the recorded path. *)
Theorem finished_job_is_served (w : Main.World)
    (job_id filename path : string) (total_frames : option Z) (frames : Z)
    (Hnonempty : path <> EmptyString) (Hfile : path ∈ Main.files w) :
  let finished :=
    fst ((exec Handlers._start_job_state job_id filename total_frames;
          exec Handlers._update_job job_id frames None;
          Handlers._finish_job job_id path) w) in
  (exists progress,
     Handlers.annotate_progress job_id finished = (finished, Py.Ok progress)
     /\ Handlers.progress_status progress = Main.done
     /\ Handlers.progress_processed progress = frames
     /\ Handlers.progress_total progress = total_frames
     /\ Handlers.progress_error progress = None)
  /\ exists response,
       Handlers.annotate_result job_id finished = (finished, Py.Ok response)
       /\ Handlers.response_path response = path.
Proof.
  intros finished.
  set (job := Main.mkJob Main.done frames total_frames None (Some path) filename).
  assert (Hjob : Main._JOBS finished !! job_id = Some job).
  { subst finished.
    unfold Handlers._start_job_state, Handlers._update_job,
      Handlers._finish_job, Main.bind, Main.get_jobs, Main.put_jobs, Main.ret.
    cbn [fst Main._JOBS]. rewrite lookup_insert_eq.
    cbn [fst Main._JOBS]. rewrite lookup_insert_eq.
    cbn [fst Main._JOBS]. rewrite lookup_insert_eq. reflexivity. }
  assert (Hfiles : Main.files finished = Main.files w).
  { subst finished.
    unfold Handlers._start_job_state, Handlers._update_job,
      Handlers._finish_job, Main.bind, Main.get_jobs, Main.put_jobs, Main.ret.
    cbn [fst Main._JOBS]. rewrite lookup_insert_eq.
    cbn [fst Main._JOBS]. rewrite lookup_insert_eq. reflexivity. }
  split.
  - destruct (annotate_progress_registered finished job_id job Hjob)
      as (progress & Hp & H1 & H2 & H3 & H4).
    exists progress. split; [exact Hp |]. subst job. cbn in *. tauto.
  - apply (annotate_result_done finished job_id job path Hjob);
      try reflexivity; [exact Hnonempty |]. rewrite Hfiles. exact Hfile.
Qed.

Lemma finished_job_is_served_witness :
  "/tmp/out.mp4"%string <> EmptyString
  /\ "/tmp/out.mp4"%string ∈ Main.files Samples.world_done
  /\ exists response,
       Handlers.annotate_result "job2"
         (fst ((exec Handlers._start_job_state "job2" "b.mp4" None;
                exec Handlers._update_job "job2" 7 None;
                Handlers._finish_job "job2" "/tmp/out.mp4") Samples.world_done))
       = (fst ((exec Handlers._start_job_state "job2" "b.mp4" None;
                exec Handlers._update_job "job2" 7 None;
                Handlers._finish_job "job2" "/tmp/out.mp4") Samples.world_done),
          Py.Ok response)
       /\ Handlers.response_path response = "/tmp/out.mp4"%string.
Proof.
  assert (Hne : "/tmp/out.mp4"%string <> EmptyString) by discriminate.
  assert (Hfile : "/tmp/out.mp4"%string ∈ Main.files Samples.world_done)
    by (cbn [Main.files Samples.world_done]; apply elem_of_singleton;
        reflexivity).
  split; [exact Hne |]. split; [exact Hfile |].
  destruct (finished_job_is_served Samples.world_done "job2" "b.mp4"
              "/tmp/out.mp4" None 7 Hne Hfile) as [_ H].
  exact H.
Defined.

Section WorkerProgress.
Import Main Handlers Worker WorkerCount.

Variable job_id : string.

Lemma step_counted (s s' : State) :
  counted job_id s -> step job_id s s' ->
  counted job_id s'
  /\ (forall j j', _JOBS (world s) !! job_id = Some j ->
        _JOBS (world s') !! job_id = Some j' ->
        (processed j <= processed j')%Z).
Proof.
  intros (job & Hjob & Hcount) Hstep. unfold counted.
  destruct Hstep as [w | w count out_path | w done_frames out_path Hstop
                    | w done_frames out_path Hstop
                    | w done_frames out_path Hstop
                    | w out_path | w ph message Hraise | w ph];
    cbn [phase world] in *; unfold after;
    rewrite ?(error_job_registered w job_id job _ Hjob),
      ?(update_job_registered w job_id job _ _ Hjob),
      ?(finish_job_registered w job_id job _ Hjob);
    cbn [fst _JOBS].
  - rewrite lookup_insert_eq. split; [eexists; split; [reflexivity | exact I] |].
    intros j j' Hj [= <-]. rewrite Hjob in Hj. injection Hj as <-. simpl. lia.
  - rewrite lookup_insert_eq. split; [eexists; split; [reflexivity | simpl; lia] |].
    intros j j' Hj [= <-]. rewrite Hjob in Hj. injection Hj as <-. simpl. lia.
  - destruct ((done_frames + 1) mod 5 =? 0)%Z.
    + cbn [fst _JOBS]. rewrite lookup_insert_eq.
      split; [eexists; split; [reflexivity | simpl; lia] |].
      intros j j' Hj [= <-]. rewrite Hjob in Hj. injection Hj as <-. simpl. lia.
    + split; [exists job; split; [exact Hjob | lia] |].
      intros j j' Hj Hj'. rewrite Hj in Hj'. injection Hj' as <-. lia.
  - rewrite lookup_insert_eq. split; [eexists; split; [reflexivity | exact I] |].
    intros j j' Hj [= <-]. rewrite Hjob in Hj. injection Hj as <-. simpl. lia.
  - rewrite lookup_insert_eq. split; [eexists; split; [reflexivity | exact I] |].
    intros j j' Hj [= <-]. rewrite Hjob in Hj. injection Hj as <-. simpl. lia.
  - rewrite lookup_insert_eq. split; [eexists; split; [reflexivity | exact I] |].
    intros j j' Hj [= <-]. rewrite Hjob in Hj. injection Hj as <-. simpl. lia.
  - rewrite lookup_insert_eq. split; [eexists; split; [reflexivity | exact I] |].
    intros j j' Hj [= <-]. rewrite Hjob in Hj. injection Hj as <-. simpl. lia.
  - split; [exists job; split; [exact Hjob | exact Hcount] |].
    intros j j' Hj Hj'. change (_JOBS w !! job_id = Some j') in Hj'.
    rewrite Hj in Hj'. injection Hj' as <-. lia.
Qed.

Lemma run_counted (s s' : State) :
  counted job_id s -> rtc (step job_id) s s' ->
  counted job_id s'
  /\ (forall j j', _JOBS (world s) !! job_id = Some j ->
        _JOBS (world s') !! job_id = Some j' ->
        (processed j <= processed j')%Z).
Proof.
  intros Hs Hrun. induction Hrun as [s | s1 s2 s3 Hstep _ IH].
  - split; [exact Hs |]. intros j j' Hj Hj'. rewrite Hj in Hj'.
    injection Hj' as <-. lia.
  - destruct (step_counted s1 s2 Hs Hstep) as [Hs2 Hle].
    destruct (IH Hs2) as [Hs3 Hle'].
    split; [exact Hs3 |]. intros j j' Hj Hj'.
    destruct Hs2 as (j2 & Hj2 & _).
    specialize (Hle j j2 Hj Hj2). specialize (Hle' j2 j' Hj2 Hj'). lia.
Qed.

Lemma start_job_state_counted (w : World) (filename : string)
    (total_frames : option Z) :
  counted job_id
    (mkState starting
       (after (_start_job_state job_id filename total_frames) w)).
Proof.
  unfold counted, after, _start_job_state, Main.bind, get_jobs, put_jobs, ret.
  cbn [fst world phase _JOBS].
  eexists. split; [apply lookup_insert_eq |]. simpl. lia.
Qed.

End WorkerProgress.

(** X18. The life of a job under its worker. Take any run of the worker of a
    job just registered by [_start_job_state], observed at a first and at a
    later moment. The job is there at both; it is [running] exactly while
    the worker has not made its last registry call, so it is [done] or
    [error] once the worker is through; once it has left [running] it is
    never written again; and its frame count never goes down. *)
Theorem job_lifecycle_under_worker (w : Main.World)
    (job_id filename : string) (total_frames : option Z)
    (s1 s2 : Worker.State)
    (Hrun1 : rtc (Worker.step job_id)
               (Worker.mkState Worker.starting
                  (Worker.after
                     (Handlers._start_job_state job_id filename total_frames)
                     w))
               s1)
    (Hrun2 : rtc (Worker.step job_id) s1 s2) :
  exists job1 job2,
    Main._JOBS (Worker.world s1) !! job_id = Some job1
    /\ Main._JOBS (Worker.world s2) !! job_id = Some job2
    /\ (Main.status job1 = Main.running <-> Worker.phase s1 <> Worker.exited)
    /\ (Main.status job2 = Main.running <-> Worker.phase s2 <> Worker.exited)
    /\ (Main.status job1 <> Main.running -> job2 = job1)
    /\ (Main.processed job1 <= Main.processed job2)%Z.
Proof.
  pose proof (start_job_state_consistent w job_id filename total_frames) as H0.
  pose proof (start_job_state_counted job_id w filename total_frames) as C0.
  destruct (worker_lifecycle job_id _ _ H0 Hrun1) as [H1 _].
  destruct (run_counted job_id _ _ C0 Hrun1) as [C1 _].
  destruct (worker_lifecycle job_id _ _ H1 Hrun2) as [H2 Hkeep].
  destruct (run_counted job_id _ _ C1 Hrun2) as [_ Hle].
  destruct H1 as (job1 & Hjob1 & Hst1). destruct H2 as (job2 & Hjob2 & Hst2).
  exists job1, job2. split; [exact Hjob1 |]. split; [exact Hjob2 |].
  split; [exact Hst1 |]. split; [exact Hst2 |]. split.
  - intros Hn. specialize (Hkeep job1 Hjob1 Hn). congruence.
  - apply (Hle job1 job2 Hjob1 Hjob2).
Qed.

Lemma job_lifecycle_under_worker_witness :
  let w0 := Worker.after
              (Handlers._start_job_state "job1" "clip.mp4" (Some 2%Z))
              Samples.world_empty in
  let s1 := Worker.mkState Worker.starting w0 in
  let s2 := Worker.mkState Worker.exited
              (Worker.after (Handlers._error_job "job1" "Failed to read video")
                 w0) in
  rtc (Worker.step "job1") s1 s1
  /\ rtc (Worker.step "job1") s1 s2
  /\ exists job1 job2,
       Main._JOBS (Worker.world s1) !! "job1"%string = Some job1
       /\ Main._JOBS (Worker.world s2) !! "job1"%string = Some job2
       /\ (Main.status job2 = Main.running
           <-> Worker.phase s2 <> Worker.exited)
       /\ (Main.processed job1 <= Main.processed job2)%Z.
Proof.
  intros w0 s1 s2.
  assert (H1 : rtc (Worker.step "job1") s1 s1) by apply rtc_refl.
  assert (H2 : rtc (Worker.step "job1") s1 s2)
    by (apply rtc_once, Worker.step_cannot_open).
  split; [exact H1 |]. split; [exact H2 |].
  destruct (job_lifecycle_under_worker Samples.world_empty "job1" "clip.mp4"
              (Some 2%Z) s1 s2 H1 H2)
    as (job1 & job2 & Hj1 & Hj2 & _ & Hst & _ & Hle).
  exists job1, job2. tauto.
Defined.

(** ** device.py *)

Section DeviceKinds.

Lemma normalized_kinds :
  Str.lower (Str.strip "mps") = "mps"%string
  /\ Str.lower (Str.strip "cuda") = "cuda"%string
  /\ Str.lower (Str.strip "cpu") = "cpu"%string.
Proof. repeat split. Qed.

Lemma device_type_kinds (hw : Device.Hardware) (preferred : option string) :
  snd (Device.get_torch_device hw preferred) ∈ ["mps"; "cuda"; "cpu"]%string.
Proof.
  unfold Device.get_torch_device. cbn [snd].
  case_bool_decide as Hin; [exact Hin |].
  destruct (Device.mps_is_available hw && Device.mps_is_built hw);
    [set_solver |].
  destruct (Device.cuda_is_available hw); set_solver.
Qed.

End DeviceKinds.

(** X19. [get_torch_device] always answers one of [mps], [cuda], [cpu], as the
    type of the device it returns; and the answer is stable: asked again
    with its own answer as the preference it gives the same, whatever the
    hardware then reports. *)
Theorem get_torch_device_stable (hw hw' : Device.Hardware)
    (preferred : option string) :
  let '(device, device_type) := Device.get_torch_device hw preferred in
  Device.type device = device_type
  /\ (device_type = "mps" \/ device_type = "cuda" \/ device_type = "cpu")%string
  /\ Device.get_torch_device hw' (Some device_type) = (device, device_type).
Proof.
  pose proof (device_type_kinds hw preferred) as Hkind.
  destruct (Device.get_torch_device hw preferred) as [device device_type] eqn:Hget.
  cbn [snd] in Hkind.
  assert (Hdev : device = Device.mkTorchDevice device_type).
  { unfold Device.get_torch_device in Hget. injection Hget as <- <-.
    reflexivity. }
  subst device. split; [reflexivity |].
  assert (Hcases : (device_type = "mps" \/ device_type = "cuda"
                    \/ device_type = "cpu")%string).
  { apply elem_of_cons in Hkind. destruct Hkind as [-> | Hkind]; [tauto |].
    apply elem_of_cons in Hkind. destruct Hkind as [-> | Hkind]; [tauto |].
    apply list_elem_of_singleton in Hkind. tauto. }
  split; [exact Hcases |].
  destruct Hcases as [-> | [-> | ->]]; reflexivity.
Qed.

(** X20. An explicit preference wins over the hardware: whatever is available,
    a preference that reads [mps], [cuda] or [cpu] once surrounding
    whitespace is dropped and capitals are lowered is the answer. Without
    one, MPS is taken when available and built, else CUDA when available,
    else the CPU. *)
Theorem get_torch_device_preference (hw : Device.Hardware)
    (preferred : option string) :
  let normalized := Str.lower (Str.strip (default EmptyString preferred)) in
  (normalized ∈ ["mps"; "cuda"; "cpu"]%string ->
   snd (Device.get_torch_device hw preferred) = normalized)
  /\ (normalized ∉ ["mps"; "cuda"; "cpu"]%string ->
      (snd (Device.get_torch_device hw preferred) = "mps"%string <->
       Device.mps_is_available hw = true /\ Device.mps_is_built hw = true)
      /\ (snd (Device.get_torch_device hw preferred) = "cuda"%string <->
          (Device.mps_is_available hw && Device.mps_is_built hw = false)
          /\ Device.cuda_is_available hw = true)
      /\ (snd (Device.get_torch_device hw preferred) = "cpu"%string <->
          (Device.mps_is_available hw && Device.mps_is_built hw = false)
          /\ Device.cuda_is_available hw = false)).
Proof.
  intros normalized. unfold Device.get_torch_device. fold normalized.
  cbn [snd]. split.
  - intros Hin. rewrite bool_decide_true by exact Hin. reflexivity.
  - intros Hnotin. rewrite bool_decide_false by exact Hnotin.
    destruct (Device.mps_is_available hw), (Device.mps_is_built hw),
      (Device.cuda_is_available hw); cbn;
      repeat split; try discriminate; try tauto; intros [? ?]; discriminate.
Qed.

Lemma get_torch_device_preference_witness :
  Str.lower (Str.strip (default EmptyString (Some "  CUDA "%string)))
  ∈ ["mps"; "cuda"; "cpu"]%string
  /\ snd (Device.get_torch_device (Device.mkHardware true true false)
            (Some "  CUDA "%string)) = "cuda"%string.
Proof.
  assert (H : Str.lower (Str.strip (default EmptyString (Some "  CUDA "%string)))
              ∈ ["mps"; "cuda"; "cpu"]%string).
  { vm_compute Str.lower. set_solver. }
  split; [exact H |].
  destruct (get_torch_device_preference (Device.mkHardware true true false)
              (Some "  CUDA "%string)) as [Hpref _].
  exact (Hpref H).
Defined.

(** X21. [summarize_device] swallows every [Exception] of the CUDA probes: it
    raises only what is not an [Exception]. What it returns always has the
    device's type and a name. A capability is there only for a CUDA device
    all three of whose probes answered, and then the name is the probed one;
    when a probe raised an [Exception] the name is [unknown] and there is no
    capability, even if the name had been read. *)
Theorem summarize_device_total (cuda : Device.CudaProbe)
    (device : Device.TorchDevice) :
  match Device.summarize_device cuda device with
  | Py.Raise e => Py.is_Exception e = false /\ Device.type device = "cuda"%string
  | Py.Ok info =>
      Device.info_type info = Device.type device
      /\ Device.info_name info <> None
      /\ (forall capability,
            Device.info_capability info = Some capability ->
            Device.type device = "cuda"%string
            /\ exists idx name,
                 Device.current_device cuda = Py.Ok idx
                 /\ Device.get_device_name cuda idx = Py.Ok name
                 /\ Device.get_device_capability cuda idx = Py.Ok capability
                 /\ Device.info_name info = Some name)
      /\ (Device.type device = "cuda"%string ->
          Device.info_capability info = None ->
          Device.info_name info = Some "unknown"%string)
      /\ (Device.type device <> "cuda"%string ->
          Device.info_name info
          = Some (if String.eqb (Device.type device) "mps"
                  then "Apple Metal (MPS)" else "CPU")%string)
  end.
Proof.
  unfold Device.summarize_device.
  destruct (String.eqb_spec (Device.type device) "cuda") as [Hcuda | Hcuda].
  - destruct (Device.current_device cuda) as [idx | e] eqn:Hidx.
    + destruct (Device.get_device_name cuda idx) as [name | e] eqn:Hname.
      * destruct (Device.get_device_capability cuda idx) as [cap | e] eqn:Hcap.
        -- cbn. repeat split; try discriminate; try congruence.
           match goal with
           | H : Some cap = Some _ |- _ => injection H as <-
           end.
           exists idx, name. tauto.
        -- cbn. destruct (Py.is_Exception e) eqn:He; cbn;
             repeat split; try discriminate; try congruence.
      * cbn. destruct (Py.is_Exception e) eqn:He; cbn;
          repeat split; try discriminate; try congruence.
    + cbn. destruct (Py.is_Exception e) eqn:He; cbn;
        repeat split; try discriminate; try congruence.
  - destruct (String.eqb (Device.type device) "mps"); cbn;
      repeat split; try discriminate; try congruence.
Qed.

(** ** utils.py *)

Section DataUrls.

Lemma after_first_app (c : ascii) (header payload : string) :
  Str.contains c header = false ->
  Str.contains c (header ++ String c payload) = true
  /\ Str.after_first c (header ++ String c payload) = Some payload.
Proof.
  induction header as [| c' header IH]; intros H.
  - change (("" ++ String c payload)%string) with (String c payload).
    cbn [Str.contains Str.after_first]. rewrite Ascii.eqb_refl.
    split; reflexivity.
  - cbn [Str.contains] in H. apply orb_false_iff in H. destruct H as [Hc Hh].
    change ((String c' header ++ String c payload)%string)
      with (String c' (header ++ String c payload)).
    cbn [Str.contains Str.after_first]. rewrite Hc.
    destruct (IH Hh) as [H1 H2]. rewrite H1, H2. split; reflexivity.
Qed.

Lemma after_first_none (c : ascii) (s : string) :
  Str.contains c s = false -> Str.after_first c s = None.
Proof.
  induction s as [| c' s IH]; [reflexivity |]. cbn [Str.contains Str.after_first].
  intros H. apply orb_false_iff in H. destruct H as [Hc Hs].
  rewrite Hc. apply IH, Hs.
Qed.

End DataUrls.

(** X22. What [data_url_to_image] decodes. Of an input that, leading
    whitespace and capitals aside, starts with [data:] and has a comma, it
    decodes what follows the first comma; any other input it decodes whole.
    So a data URL and its bare payload give the same image or the same
    error, as long as the payload has no comma. *)
Theorem data_url_to_image_payload (b64decode : string -> Py.Result string)
    (open_rgb : string -> Py.Result Pose.Image) (header payload : string)
    (Hheader : Str.contains ","%char header = false)
    (Hdata : Str.startswith "data:"
               (Str.lower (Str.strip (header ++ "," ++ payload))) = true) :
  DataUrl.base64_part (header ++ "," ++ payload) = payload
  /\ (Str.contains ","%char payload = false ->
      DataUrl.base64_part payload = payload
      /\ DataUrl.data_url_to_image b64decode open_rgb
           (header ++ "," ++ payload)
         = DataUrl.data_url_to_image b64decode open_rgb payload)
  /\ (forall raw, Str.contains ","%char raw = false ->
        DataUrl.base64_part raw = raw)
  /\ (forall raw,
        Str.startswith "data:" (Str.lower (Str.strip raw)) = false ->
        DataUrl.base64_part raw = raw).
Proof.
  destruct (after_first_app ","%char header payload Hheader) as [Hin Hafter].
  assert (Hpart : DataUrl.base64_part (header ++ "," ++ payload) = payload).
  { unfold DataUrl.base64_part.
    change ((header ++ "," ++ payload)%string)
      with ((header ++ String "," payload)%string) in *.
    rewrite Hin, Hdata, Hafter. reflexivity. }
  assert (Hraw : forall raw, Str.contains ","%char raw = false ->
                   DataUrl.base64_part raw = raw).
  { intros raw H. unfold DataUrl.base64_part. rewrite H. reflexivity. }
  split; [exact Hpart |]. split; [| split; [exact Hraw |]].
  - intros Hp. split; [apply Hraw, Hp |].
    unfold DataUrl.data_url_to_image. rewrite Hpart, (Hraw payload Hp).
    reflexivity.
  - intros raw H. unfold DataUrl.base64_part. rewrite H, andb_false_r.
    reflexivity.
Qed.

Lemma data_url_to_image_payload_witness :
  Str.contains ","%char "  Data:image/png;base64" = false
  /\ Str.startswith "data:"
       (Str.lower (Str.strip ("  Data:image/png;base64" ++ "," ++ "QUJD")))
     = true
  /\ DataUrl.base64_part ("  Data:image/png;base64" ++ "," ++ "QUJD")
     = "QUJD"%string.
Proof.
  split; [reflexivity |]. split; [reflexivity |].
  destruct (data_url_to_image_payload (fun s => Py.Ok s)
              (fun _ => Py.Ok (Pose.mkImage 1 1))
              "  Data:image/png;base64" "QUJD" eq_refl eq_refl) as [H _].
  exact H.
Defined.

(** ** draw.py *)

Section Dicts.
Import Draw.

Context {V : Type}.
Implicit Types (d : Dict V) (k : string) (v : V).

Lemma dict_get_set_eq k v d : dict_get k (dict_set k v d) = Some v.
Proof.
  induction d as [| [k' v'] d IH]; cbn [dict_set dict_get].
  - rewrite String.eqb_refl. reflexivity.
  - destruct (String.eqb_spec k k') as [<- | Hne]; cbn [dict_get].
    + rewrite String.eqb_refl. reflexivity.
    + destruct (String.eqb_spec k k'); [congruence | exact IH].
Qed.

Lemma dict_get_set_ne k k' v d :
  k <> k' -> dict_get k (dict_set k' v d) = dict_get k d.
Proof.
  intros Hne. induction d as [| [k0 v0] d IH]; cbn [dict_set dict_get].
  - destruct (String.eqb_spec k k'); [congruence | reflexivity].
  - destruct (String.eqb_spec k' k0) as [<- | Hne0]; cbn [dict_get].
    + destruct (String.eqb_spec k k'); [congruence | reflexivity].
    + destruct (String.eqb_spec k k0); [reflexivity | exact IH].
Qed.

Lemma dict_set_keys k v d :
  NoDup (map fst d) -> NoDup (map fst (dict_set k v d)).
Proof.
  induction d as [| [k' v'] d IH]; cbn [dict_set map fst]; intros Hd.
  - apply NoDup_singleton.
  - destruct (String.eqb_spec k k') as [<- | Hne]; [exact Hd |].
    cbn [map fst]. apply NoDup_cons in Hd. destruct Hd as [Hnotin Hd].
    apply NoDup_cons. split; [| apply IH, Hd].
    intros Hin. apply Hnotin. clear -Hin Hne.
    induction d as [| [k0 v0] d IHd]; cbn [dict_set map fst] in *.
    + apply list_elem_of_singleton in Hin. congruence.
    + destruct (String.eqb_spec k k0) as [<- | Hne0]; [exact Hin |].
      cbn [map fst] in Hin. apply elem_of_cons in Hin.
      destruct Hin as [-> | Hin]; [left | right; apply IHd, Hin].
Qed.

Lemma dict_get_in k v d :
  NoDup (map fst d) -> In (k, v) d -> dict_get k d = Some v.
Proof.
  induction d as [| [k' v'] d IH]; cbn [map fst dict_get]; intros Hd Hin.
  - destruct Hin.
  - apply NoDup_cons in Hd. destruct Hd as [Hnotin Hd].
    destruct Hin as [[= -> ->] | Hin].
    + rewrite String.eqb_refl. reflexivity.
    + destruct (String.eqb_spec k k') as [<- | Hne]; [| apply IH; assumption].
      exfalso. apply Hnotin. apply list_elem_of_In.
      apply (in_map fst) in Hin. exact Hin.
Qed.

End Dicts.

Section KeypointsByName.
Import Draw.

Lemma find_app_last {A} (P : A -> bool) (l : list A) (a : A) :
  List.find P (l ++ [a])
  = match List.find P l with
    | Some x => Some x
    | None => if P a then Some a else None
    end.
Proof.
  induction l as [| b l IH]; cbn [app List.find].
  - reflexivity.
  - destruct (P b); [reflexivity | exact IH].
Qed.

Lemma kp_fold_get (kps : list Keypoint.t) (d : Dict (R * R * R))
    (name : string) :
  name <> EmptyString ->
  dict_get name (fold_left kp_step kps d)
  = match List.find (fun kp => bool_decide (Keypoint.name kp = Some name))
            (rev kps) with
    | Some kp => Some (Keypoint.x kp, Keypoint.y kp, Keypoint.score kp)
    | None => dict_get name d
    end.
Proof.
  intros Hname. revert d. induction kps as [| kp kps IH]; intros d.
  - reflexivity.
  - cbn [fold_left rev]. rewrite IH, find_app_last.
    destruct (List.find _ (rev kps)) as [kp' |]; [reflexivity |].
    unfold kp_step, truthy_name.
    case_bool_decide as Hkp.
    + rewrite Hkp. destruct name as [| c name']; [congruence |].
      apply dict_get_set_eq.
    + destruct (Keypoint.name kp) as [[| c name'] |]; try reflexivity.
      apply dict_get_set_ne. congruence.
Qed.

Lemma kp_fold_keys (kps : list Keypoint.t) (d : Dict (R * R * R)) :
  NoDup (map fst d) -> NoDup (map fst (fold_left kp_step kps d)).
Proof.
  revert d. induction kps as [| kp kps IH]; intros d Hd; [exact Hd |].
  cbn [fold_left]. apply IH. unfold kp_step.
  destruct (truthy_name kp); [apply dict_set_keys, Hd | exact Hd].
Qed.

Lemma kp_fold_empty_name (kps : list Keypoint.t) (d : Dict (R * R * R)) :
  dict_get EmptyString d = None ->
  dict_get EmptyString (fold_left kp_step kps d) = None.
Proof.
  revert d. induction kps as [| kp kps IH]; intros d Hd; [exact Hd |].
  cbn [fold_left]. apply IH. unfold kp_step, truthy_name.
  destruct (Keypoint.name kp) as [[| c name'] |]; try exact Hd.
  rewrite dict_get_set_ne by discriminate. exact Hd.
Qed.

Lemma kp_by_name_keys (person : PersonPose.t) :
  NoDup (map fst (_kp_by_name person)).
Proof. apply (kp_fold_keys _ []). apply NoDup_nil_2. Qed.

End KeypointsByName.

(** X23. [_kp_by_name] keeps, under each non-empty name, the last keypoint of
    that name in the list (where [_get_point] of the fall scorer takes the
    first); a name is a key exactly when some keypoint bears it, and unnamed
    or empty-named keypoints are left out. *)
Theorem kp_by_name_last_wins (person : PersonPose.t) (name : string)
    (Hname : name <> EmptyString) :
  Draw.dict_get name (Draw._kp_by_name person)
  = option_map
      (fun kp => (Keypoint.x kp, Keypoint.y kp, Keypoint.score kp))
      (List.find (fun kp => bool_decide (Keypoint.name kp = Some name))
         (rev (PersonPose.keypoints person)))
  /\ (Draw.dict_get name (Draw._kp_by_name person) = None
      <-> Fall._get_point person name = None)
  /\ Draw.dict_get EmptyString (Draw._kp_by_name person) = None.
Proof.
  assert (Hget : Draw.dict_get name (Draw._kp_by_name person)
            = option_map
                (fun kp => (Keypoint.x kp, Keypoint.y kp, Keypoint.score kp))
                (List.find (fun kp => bool_decide (Keypoint.name kp = Some name))
                   (rev (PersonPose.keypoints person)))).
  { unfold Draw._kp_by_name.
    rewrite (kp_fold_get (PersonPose.keypoints person) [] name Hname).
    destruct (List.find _ _); reflexivity. }
  split; [exact Hget |]. split.
  - rewrite Hget. unfold Fall._get_point.
    set (P := fun kp => bool_decide (Keypoint.name kp = Some name)).
    split; intros H.
    + destruct (List.find P (PersonPose.keypoints person)) as [kp |] eqn:Hfind;
        [| reflexivity].
      exfalso. apply find_some in Hfind. destruct Hfind as [Hin HP].
      destruct (List.find P (rev (PersonPose.keypoints person))) eqn:Hrev;
        [discriminate |].
      assert (Hin' : In kp (rev (PersonPose.keypoints person)))
        by (apply in_rev; rewrite rev_involutive; exact Hin).
      pose proof (find_none _ _ Hrev kp Hin') as Hf. congruence.
    + destruct (List.find P (rev (PersonPose.keypoints person))) as [kp |]
        eqn:Hrev; [| reflexivity].
      exfalso. apply find_some in Hrev. destruct Hrev as [Hin HP].
      apply in_rev in Hin.
      pose proof (find_none _ _ H kp Hin) as Hf. congruence.
  - apply (kp_fold_empty_name _ []). reflexivity.
Qed.

Lemma kp_by_name_last_wins_witness :
  "left_hip"%string <> EmptyString
  /\ Draw.dict_get "left_hip" (Draw._kp_by_name MoreSamples.standing)
     = Some (90, 150, 1).
Proof.
  assert (H : "left_hip"%string <> EmptyString) by discriminate.
  split; [exact H |].
  destruct (kp_by_name_last_wins MoreSamples.standing "left_hip" H) as [Hget _].
  rewrite Hget. reflexivity.
Defined.

Section Drawing.
Import Draw.

Lemma draw_each_spec {A} (shape_of : A -> option Shape) (items : list A)
    (frame : Frame) :
  draw_each shape_of items frame
  = mkFrame (frame_height frame) (frame_width frame)
      (drawn frame ++ omap shape_of items).
Proof.
  unfold draw_each. revert frame.
  induction items as [| item items IH]; intros frame; cbn [fold_left omap list_omap].
  - rewrite app_nil_r. destruct frame. reflexivity.
  - rewrite IH. destruct (shape_of item) as [shape |]; [| reflexivity].
    unfold draw. cbn [frame_height frame_width drawn].
    rewrite <- app_assoc. reflexivity.
Qed.

(** The shapes one person adds, in the order of the calls. *)
Let person_shapes (score_thresh : R) (radius thickness : Z)
    (person : PersonPose.t) : list Shape :=
  omap (keypoint_shape score_thresh radius) (_kp_by_name person)
  ++ omap (edge_shape (_kp_by_name person) score_thresh thickness)
       SKELETON_PAIRS
  ++ match bbox_shape person thickness with
     | Some shape => [shape]
     | None => []
     end.

Lemma draw_person_spec (score_thresh : R) (radius thickness : Z)
    (frame : Frame) (person : PersonPose.t) :
  draw_person score_thresh radius thickness frame person
  = mkFrame (frame_height frame) (frame_width frame)
      (drawn frame ++ person_shapes score_thresh radius thickness person).
Proof.
  unfold draw_person, person_shapes. rewrite !draw_each_spec.
  cbn [frame_height frame_width drawn].
  destruct (bbox_shape person thickness) as [shape |];
    unfold draw; cbn [frame_height frame_width drawn];
    rewrite <- ?app_assoc; [reflexivity |].
  rewrite app_nil_r. reflexivity.
Qed.

Lemma draw_people_spec (score_thresh : R) (radius thickness : Z)
    (people : list PersonPose.t) (frame : Frame) :
  fold_left (draw_person score_thresh radius thickness) people frame
  = mkFrame (frame_height frame) (frame_width frame)
      (drawn frame
       ++ concat (map (person_shapes score_thresh radius thickness) people)).
Proof.
  revert frame. induction people as [| person people IH]; intros frame;
    cbn [fold_left map concat].
  - rewrite app_nil_r. destruct frame. reflexivity.
  - rewrite IH, draw_person_spec. cbn [frame_height frame_width drawn].
    rewrite <- app_assoc. reflexivity.
Qed.

Lemma person_shapes_sound (score_thresh : R) (radius thickness : Z)
    (person : PersonPose.t) (shape : Shape) :
  In shape (person_shapes score_thresh radius thickness person) ->
  drawn_for person score_thresh shape
  /\ match shape with
     | circle _ r _ _ => r = radius
     | line _ _ _ t | rectangle _ _ _ t => t = thickness
     end.
Proof.
  unfold person_shapes. rewrite !in_app_iff. intros [H | [H | H]].
  - apply list_elem_of_In, list_elem_of_omap in H.
    destruct H as ([name [[x y] s]] & Hin & Hshape).
    unfold keypoint_shape in Hshape.
    destruct (Py.Rltb s score_thresh) eqn:Hlt; [discriminate |].
    injection Hshape as <-. cbn. split; [| reflexivity].
    split; [reflexivity |]. split; [reflexivity |].
    exists name, x, y, s. split.
    + apply dict_get_in; [apply kp_by_name_keys | apply list_elem_of_In, Hin].
    + split; [| reflexivity].
      destruct (Rle_dec score_thresh s) as [Hle | Hn]; [exact Hle |].
      exfalso. assert (Py.Rltb s score_thresh = true)
        by (apply Rltb_true; lra). congruence.
  - apply list_elem_of_In, list_elem_of_omap in H.
    destruct H as ([a b] & Hin & Hshape).
    unfold edge_shape in Hshape.
    destruct (dict_get a (_kp_by_name person)) as [[[x1 y1] s1] |] eqn:Ha;
      [| discriminate].
    destruct (dict_get b (_kp_by_name person)) as [[[x2 y2] s2] |] eqn:Hb;
      [| discriminate].
    destruct (Py.Rgeb s1 score_thresh) eqn:H1; [| discriminate].
    destruct (Py.Rgeb s2 score_thresh) eqn:H2; [| discriminate].
    injection Hshape as <-. cbn. split; [| reflexivity].
    split; [reflexivity |].
    exists a, b, x1, y1, s1, x2, y2, s2.
    apply Rgeb_true in H1, H2. apply list_elem_of_In in Hin.
    rewrite Ha, Hb. tauto.
  - unfold bbox_shape in H.
    destruct (PersonPose.bbox person)
      as [[| x1 [| y1 [| x2 [| y2 [| ? ?]]]]] |] eqn:Hbox;
      try destruct H.
    + subst shape. cbn. split; [| reflexivity]. split; [reflexivity |].
      exists x1, y1, x2, y2. rewrite Hbox. tauto.
    + destruct H.
Qed.

Lemma person_shapes_bbox (score_thresh : R) (radius thickness : Z)
    (person : PersonPose.t) (x1 y1 x2 y2 : R) :
  PersonPose.bbox person = Some [x1; y1; x2; y2] ->
  In (rectangle (point x1 y1) (point x2 y2) box_color thickness)
    (person_shapes score_thresh radius thickness person).
Proof.
  intros Hbox. unfold person_shapes, bbox_shape. rewrite Hbox.
  rewrite !in_app_iff. right. right. left. reflexivity.
Qed.

(** X24. [draw_skeleton] only adds to the frame: its size and what was drawn
    before stay, and an empty list of people adds nothing. Every shape added
    is, for some person of the list, a filled circle on a named keypoint or
    a skeleton edge between two named keypoints, each scored at least
    [score_thresh], or the rectangle of a box of four numbers; circles have
    the radius and the others the thickness computed from the frame, both at
    least 2. The box of every person that has four numbers is drawn; a box
    of another length is passed over. *)
Theorem draw_skeleton_sound (frame : Frame) (people : list PersonPose.t)
    (score_thresh : R) :
  let longer := Z.max (frame_height frame) (frame_width frame) in
  let thickness := Z.max 2 (Py.round (0.004 * IZR longer)) in
  let radius := Z.max 2 (Py.round (0.006 * IZR longer)) in
  exists added,
    draw_skeleton frame people score_thresh
    = mkFrame (frame_height frame) (frame_width frame) (drawn frame ++ added)
    /\ (people = [] -> added = [])
    /\ (2 <= thickness)%Z /\ (2 <= radius)%Z
    /\ Forall (fun shape =>
                 (exists person,
                    In person people /\ drawn_for person score_thresh shape)
                 /\ match shape with
                    | circle _ r _ _ => r = radius
                    | line _ _ _ t | rectangle _ _ _ t => t = thickness
                    end)
         added
    /\ (forall person x1 y1 x2 y2,
          In person people ->
          PersonPose.bbox person = Some [x1; y1; x2; y2] ->
          In (rectangle (point x1 y1) (point x2 y2) box_color thickness) added).
Proof.
  intros longer thickness radius.
  exists (concat (map (person_shapes score_thresh radius thickness) people)).
  split; [apply draw_people_spec |].
  split; [intros ->; reflexivity |].
  split; [apply Z.le_max_l |]. split; [apply Z.le_max_l |]. split.
  - apply List.Forall_forall. intros shape Hin.
    apply in_concat in Hin. destruct Hin as (shapes & Hshapes & Hin).
    apply in_map_iff in Hshapes. destruct Hshapes as (person & <- & Hperson).
    destruct (person_shapes_sound _ _ _ _ _ Hin) as [Hfor Hpen].
    split; [exists person; tauto | exact Hpen].
  - intros person x1 y1 x2 y2 Hperson Hbox.
    apply in_concat.
    exists (person_shapes score_thresh radius thickness person).
    split; [apply in_map, Hperson | apply person_shapes_bbox, Hbox].
Qed.

End Drawing.

(** ** main.py: worker threads, the estimator cache, [analyze_video] *)

Section WorkerThreads.
Import Workers.

Lemma list_remove_absent (t : Thread) (l : list Thread) :
  ~ In t l -> list_remove t l = None.
Proof.
  induction l as [| y l IH]; intros Hnotin; [reflexivity |].
  cbn [list_remove]. destruct (Nat.eqb_spec t y) as [-> | Hne].
  - exfalso. apply Hnotin. left. reflexivity.
  - rewrite IH; [reflexivity |]. intros Hin. apply Hnotin. right. exact Hin.
Qed.

Lemma list_remove_app_absent (t : Thread) (l : list Thread) :
  ~ In t l -> list_remove t (l ++ [t]) = Some l.
Proof.
  induction l as [| y l IH]; intros Hnotin; cbn [app list_remove].
  - rewrite Nat.eqb_refl. reflexivity.
  - destruct (Nat.eqb_spec t y) as [-> | Hne].
    + exfalso. apply Hnotin. left. reflexivity.
    + rewrite IH; [reflexivity |]. intros Hin. apply Hnotin. right. exact Hin.
Qed.

Lemma list_remove_count (t t' : Thread) (l rest : list Thread) :
  list_remove t l = Some rest ->
  count_occ Nat.eq_dec l t'
  = (count_occ Nat.eq_dec rest t' + if Nat.eq_dec t t' then 1 else 0)%nat.
Proof.
  revert rest. induction l as [| y l IH]; intros rest H; [discriminate |].
  cbn [list_remove] in H. destruct (Nat.eqb_spec t y) as [-> | Hne].
  - injection H as <-. cbn [count_occ].
    destruct (Nat.eq_dec y t'); lia.
  - destruct (list_remove t l) as [rest' |]; [| discriminate].
    injection H as <-. cbn [count_occ]. specialize (IH rest' eq_refl).
    destruct (Nat.eq_dec y t'); lia.
Qed.

End WorkerThreads.

(** X25. The list of worker threads. A thread that registers and later
    unregisters itself leaves the list as it found it; unregistering a
    thread that is not listed changes nothing (the [ValueError] is passed
    over); and unregistering never removes another thread: every other
    thread is listed as often as before, and the thread itself once less. *)
Theorem unregister_current_worker_spec (me : Workers.Thread)
    (workers : list Workers.Thread) :
  (~ In me workers ->
   Workers._unregister_current_worker me (Workers._register_worker me workers)
   = workers)
  /\ (~ In me workers ->
      Workers._unregister_current_worker me workers = workers)
  /\ (forall other, other <> me ->
        count_occ Nat.eq_dec (Workers._unregister_current_worker me workers)
          other
        = count_occ Nat.eq_dec workers other)
  /\ (In me workers ->
      S (count_occ Nat.eq_dec (Workers._unregister_current_worker me workers)
           me)
      = count_occ Nat.eq_dec workers me).
Proof.
  unfold Workers._unregister_current_worker, Workers._register_worker.
  split; [| split; [| split]].
  - intros H. rewrite (list_remove_app_absent me workers H). reflexivity.
  - intros H. rewrite (list_remove_absent me workers H). reflexivity.
  - intros other Hne.
    destruct (Workers.list_remove me workers) as [rest |] eqn:Hr;
      [| reflexivity].
    rewrite (list_remove_count me other workers rest Hr).
    destruct (Nat.eq_dec me other); [congruence | lia].
  - intros Hin.
    destruct (Workers.list_remove me workers) as [rest |] eqn:Hr.
    + rewrite (list_remove_count me me workers rest Hr).
      destruct (Nat.eq_dec me me); [lia | congruence].
    + exfalso. clear -Hin Hr. induction workers as [| y l IH]; [destruct Hin |].
      cbn [Workers.list_remove] in Hr.
      destruct (Nat.eqb_spec me y) as [-> | Hne]; [discriminate |].
      destruct (Workers.list_remove me l); [discriminate |].
      destruct Hin as [-> | Hin]; [congruence | apply IH; [exact Hin | reflexivity]].
Qed.

Lemma unregister_current_worker_spec_witness :
  ~ In 3%nat [1%nat; 2%nat]
  /\ Workers._unregister_current_worker 3%nat
       (Workers._register_worker 3%nat [1%nat; 2%nat]) = [1%nat; 2%nat].
Proof.
  assert (H : ~ In 3%nat [1%nat; 2%nat]).
  { intros [H | [H | []]]; discriminate. }
  split; [exact H |].
  destruct (unregister_current_worker_spec 3%nat [1%nat; 2%nat])
    as [Hback _].
  exact (Hback H).
Defined.

Section Estimators.
Import App.

Lemma get_torch_device_again (hw hw' : Device.Hardware)
    (preferred : option string) :
  Device.get_torch_device hw' (Some (snd (Device.get_torch_device hw preferred)))
  = Device.get_torch_device hw preferred.
Proof.
  pose proof (device_type_kinds hw preferred) as Hkind.
  destruct (Device.get_torch_device hw preferred) as [device key] eqn:Hget.
  cbn [snd] in *.
  assert (Hdev : device = Device.mkTorchDevice key).
  { unfold Device.get_torch_device in Hget. injection Hget as <- <-.
    reflexivity. }
  subst device.
  apply elem_of_cons in Hkind. destruct Hkind as [-> | Hkind]; [reflexivity |].
  apply elem_of_cons in Hkind. destruct Hkind as [-> | Hkind]; [reflexivity |].
  apply list_elem_of_singleton in Hkind. subst key. reflexivity.
Qed.

Lemma new_estimator_device (hw : Device.Hardware) (loader : Loader)
    (preferred : option string) (threshold : R) (side : Z)
    (estimator : Estimator) :
  new_estimator hw loader preferred threshold side = Py.Ok estimator ->
  device_type estimator = snd (Device.get_torch_device hw preferred)
  /\ device estimator = fst (Device.get_torch_device hw preferred).
Proof.
  unfold new_estimator.
  destruct (Device.get_torch_device hw preferred) as [dev key].
  destruct (try_sports2d loader) as [[model |] | e]; cbn [Py.bind].
  - intros [= <-]. split; reflexivity.
  - destruct (load_torchvision loader) as [model | e]; cbn [Py.bind].
    + intros [= <-]. split; reflexivity.
    + discriminate.
  - discriminate.
Qed.

End Estimators.

(** X26. How [PoseEstimator] picks its backend. A Sports2D module that is not
    found, or whose lookup or loading raises an [Exception], is not an
    error: the constructor falls back on torchvision, and it fails only
    with what the torchvision loader raises (or with something that is not
    an [Exception]). With torchvision, inference is never placed on MPS: a
    device of type [mps] is replaced by the CPU for inference, any other is
    kept; the recorded device stays what was selected. *)
Theorem new_estimator_backend (hw : Device.Hardware) (loader : App.Loader)
    (preferred : option string) (threshold : R) (side : Z) :
  match App.new_estimator hw loader preferred threshold side with
  | Py.Raise e =>
      Py.is_Exception e = false \/ App.load_torchvision loader = Py.Raise e
  | Py.Ok estimator =>
      App.device estimator = fst (Device.get_torch_device hw preferred)
      /\ Pose.score_threshold (App.pose estimator) = threshold
      /\ Pose.max_side (App.pose estimator) = side
      /\ match Pose.backend (App.pose estimator) with
         | Pose.sports2d =>
             App.find_sports2d loader = Py.Ok true
             /\ App.load_sports2d loader
                = Py.Ok (Pose.sports2d_predict (App.pose estimator))
             /\ App.inference_device estimator = App.device estimator
         | Pose.torchvision =>
             App.load_torchvision loader
             = Py.Ok (Pose.torchvision_model (App.pose estimator))
             /\ Device.type (App.inference_device estimator) <> "mps"%string
             /\ (Device.type (App.device estimator) = "mps"%string ->
                 Device.type (App.inference_device estimator) = "cpu"%string)
             /\ (Device.type (App.device estimator) <> "mps"%string ->
                 App.inference_device estimator = App.device estimator)
         end
  end.
Proof.
  unfold App.new_estimator, App.try_sports2d.
  destruct (Device.get_torch_device hw preferred) as [dev key]. cbn [fst].
  assert (Htorch :
    match
      (do model <- App.load_torchvision loader;
       Py.Ok (App.mkEstimator dev key
                (if String.eqb (Device.type dev) "mps"
                 then Device.mkTorchDevice "cpu" else dev)
                (Pose.mk threshold side Pose.torchvision (fun _ => []) model)))
    with
    | Py.Raise e =>
        Py.is_Exception e = false \/ App.load_torchvision loader = Py.Raise e
    | Py.Ok estimator =>
        App.device estimator = dev
        /\ Pose.score_threshold (App.pose estimator) = threshold
        /\ Pose.max_side (App.pose estimator) = side
        /\ match Pose.backend (App.pose estimator) with
           | Pose.sports2d =>
               App.find_sports2d loader = Py.Ok true
               /\ App.load_sports2d loader
                  = Py.Ok (Pose.sports2d_predict (App.pose estimator))
               /\ App.inference_device estimator = App.device estimator
           | Pose.torchvision =>
               App.load_torchvision loader
               = Py.Ok (Pose.torchvision_model (App.pose estimator))
               /\ Device.type (App.inference_device estimator) <> "mps"%string
               /\ (Device.type (App.device estimator) = "mps"%string ->
                   Device.type (App.inference_device estimator) = "cpu"%string)
               /\ (Device.type (App.device estimator) <> "mps"%string ->
                   App.inference_device estimator = App.device estimator)
           end
    end).
  { destruct (App.load_torchvision loader) as [model | e]; cbn;
      [| right; reflexivity].
    repeat split.
    - destruct (String.eqb_spec (Device.type dev) "mps") as [Hmps | Hmps];
        cbn; [discriminate | exact Hmps].
    - intros Hmps. rewrite Hmps. reflexivity.
    - intros Hmps.
      destruct (String.eqb_spec (Device.type dev) "mps"); [congruence |].
      reflexivity. }
  destruct (App.find_sports2d loader) as [[|] | e]; cbn [Py.bind].
  - destruct (App.load_sports2d loader) as [model | e]; cbn [Py.bind].
    + cbn. repeat split.
    + destruct (Py.is_Exception e) eqn:He; cbn [Py.bind];
        [exact Htorch | left; exact He].
  - exact Htorch.
  - destruct (Py.is_Exception e) eqn:He; cbn [Py.bind];
      [exact Htorch | left; exact He].
Qed.

(** X27. [get_estimator] keeps one estimator per device type. When it returns,
    the estimator is the one cached under the selected device type and
    bears that type; what was cached before is still there; and asking
    again, with the same preference or with the device type itself, on any
    hardware and with any loaders, returns the same estimator and changes
    nothing. When it raises, the cache is as before. *)
Theorem get_estimator_memoised (env : App.Env) (preferred : option string)
    (st : App.State) (Hcache : App.cache_ok st) :
  let key := snd (Device.get_torch_device (App.hardware env) preferred) in
  match App.get_estimator env preferred st with
  | (st', Py.Raise e) => st' = st /\ App._estimators st !! key = None
  | (st', Py.Ok estimator) =>
      App._estimators st' !! key = Some estimator
      /\ App.device_type estimator = key
      /\ Device.type (App.device estimator) = key
      /\ App.world st' = App.world st
      /\ (forall other e, App._estimators st !! other = Some e ->
            App._estimators st' !! other = Some e)
      /\ App.cache_ok st'
      /\ App.get_estimator env preferred st' = (st', Py.Ok estimator)
      /\ (forall env', App.get_estimator env' (Some key) st'
                       = (st', Py.Ok estimator))
  end.
Proof.
  intros key. unfold App.get_estimator.
  assert (Hagain : forall env' : App.Env,
            Device.get_torch_device (App.hardware env') (Some key)
            = Device.get_torch_device (App.hardware env) preferred)
    by (intros env'; apply get_torch_device_again).
  assert (Hkey : Device.type (fst (Device.get_torch_device (App.hardware env)
                                     preferred)) = key).
  { unfold Device.get_torch_device. reflexivity. }
  subst key.
  destruct (Device.get_torch_device (App.hardware env) preferred)
    as [dev key] eqn:Hget. cbn [snd fst] in *.
  destruct (App._estimators st !! key) as [cached |] eqn:Hlookup.
  - destruct (Hcache key cached Hlookup) as [Htype Hdev].
    split; [exact Hlookup |]. split; [exact Htype |]. split; [exact Hdev |].
    split; [reflexivity |]. split; [tauto |]. split; [exact Hcache |].
    split; [rewrite Hlookup; reflexivity |].
    intros env'. rewrite (Hagain env'), Hlookup. reflexivity.
  - destruct (App.new_estimator (App.hardware env) (App.loader env) (Some key)
                0.5 640) as [estimator | e] eqn:Hnew.
    + destruct (new_estimator_device _ _ _ _ _ _ Hnew) as [Htype Hdev].
      pose proof (Hagain env) as Hsame. rewrite Hsame in Htype, Hdev.
      cbn [snd fst] in Htype, Hdev.
      cbn [App._estimators App.world].
      assert (Hin : <[key := estimator]> (App._estimators st) !! key
                    = Some estimator) by apply lookup_insert_eq.
      split; [exact Hin |]. split; [exact Htype |].
      split; [rewrite Hdev; exact Hkey |]. split; [reflexivity |]. split.
      { intros other e He. rewrite lookup_insert_ne; [exact He |].
        intros <-. congruence. }
      split.
      { intros k e He. unfold App.cache_ok in Hcache.
        cbn [App._estimators] in He.
        destruct (decide (k = key)) as [-> | Hne].
        - rewrite lookup_insert_eq in He. injection He as <-.
          split; [exact Htype | rewrite Hdev; exact Hkey].
        - rewrite lookup_insert_ne in He by congruence. apply Hcache, He. }
      split; [rewrite Hin; reflexivity |].
      intros env'. rewrite (Hagain env'), Hin. reflexivity.
    + split; reflexivity.
Qed.

Lemma get_estimator_memoised_witness :
  App.cache_ok MoreSamples.fresh_state
  /\ match App.get_estimator MoreSamples.quiet_env None
             MoreSamples.fresh_state with
     | (st', Py.Raise _) => st' = MoreSamples.fresh_state
     | (st', Py.Ok estimator) =>
         App.get_estimator MoreSamples.quiet_env None st'
         = (st', Py.Ok estimator)
     end.
Proof.
  assert (H : App.cache_ok MoreSamples.fresh_state).
  { intros key estimator Hin. cbn in Hin. rewrite lookup_empty in Hin.
    discriminate. }
  split; [exact H |].
  pose proof (get_estimator_memoised MoreSamples.quiet_env None
                MoreSamples.fresh_state H) as Hmemo.
  cbv zeta in Hmemo.
  destruct (App.get_estimator MoreSamples.quiet_env None
              MoreSamples.fresh_state) as [st' [estimator | e]].
  - exact (proj1 (proj2 (proj2 (proj2 (proj2 (proj2 (proj2 Hmemo))))))).
  - exact (proj1 Hmemo).
Defined.

Section VideoLoop.
Import App.

Lemma predict_Ok_range (people : list PersonPose.t) (is_fall : bool)
    (fall_score : R) :
  Fall.predict people = Py.Ok (is_fall, fall_score) -> 0 <= fall_score <= 1.
Proof.
  intros H. destruct (all_or_some_malformed people) as [Hok | Hbad].
  - destruct people as [| p0 rest].
    + injection H as _ <-. lra.
    + rewrite (predict_nonempty p0 rest Hok) in H. injection H as _ <-.
      pose proof (fold_left_Rmax_in (map Fall.spec_score_person rest)
                    (Fall.spec_score_person p0)) as Hin.
      change (In (fold_left Rmax (map Fall.spec_score_person rest)
                    (Fall.spec_score_person p0))
                (map Fall.spec_score_person (p0 :: rest))) in Hin.
      apply in_map_iff in Hin. destruct Hin as (p & <- & _).
      apply spec_score_person_range.
  - rewrite (predict_malformed people Hbad) in H. discriminate.
Qed.

Lemma div3_skip (idx : Z) :
  (0 <= idx)%Z -> ((idx + 1) mod 3 <> 0)%Z -> ((idx + 1) / 3 = idx / 3)%Z.
Proof. intros. Z.to_euclidean_division_equations. lia. Qed.

Lemma div3_hit (idx : Z) :
  (0 <= idx)%Z -> ((idx + 1) mod 3 = 0)%Z -> ((idx + 1) / 3 = idx / 3 + 1)%Z.
Proof. intros. Z.to_euclidean_division_equations. lia. Qed.

Lemma video_loop_spec (estimator : Pose.t) (frames : list Pose.Image) :
  forall (idx analyzed : Z) (ff : list Z) (sc : list R)
         (analyzed' : Z) (ff' : list Z) (sc' : list R),
    (0 <= idx)%Z ->
    video_loop false estimator frames idx analyzed ff sc
    = Py.Ok (analyzed', ff', sc') ->
    let last := (idx + Z.of_nat (length frames))%Z in
    exists new_ff new_sc,
      ff' = ff ++ new_ff /\ sc' = sc ++ new_sc
      /\ (analyzed' = analyzed + (last / 3 - idx / 3))%Z
      /\ Z.of_nat (length new_sc) = (last / 3 - idx / 3)%Z
      /\ (length new_ff <= length new_sc)%nat
      /\ Forall (fun i => (idx < i <= last)%Z /\ (i mod 3 = 0)%Z) new_ff
      /\ StronglySorted Z.lt new_ff
      /\ Forall (fun s => 0 <= s <= 1) new_sc.
Proof.
  induction frames as [| frame frames IH];
    intros idx analyzed ff sc analyzed' ff' sc' Hidx H last.
  - cbn in H. injection H as <- <- <-. exists [], [].
    subst last. cbn [length Z.of_nat]. rewrite Z.add_0_r, !app_nil_r.
    repeat split; try constructor; lia.
  - cbn [video_loop] in H.
    assert (Hlast : last = (idx + 1 + Z.of_nat (length frames))%Z).
    { subst last. cbn [length]. lia. }
    destruct (Z.eqb_spec ((idx + 1) mod 3) 0) as [Hhit | Hskip]; cbn [negb] in H.
    + destruct (Pose.estimate estimator frame) as [people | e]; cbn [Py.bind] in H;
        [| discriminate].
      destruct (Fall.predict people) as [[is_fall fall_score] | e] eqn:Hpredict;
        cbn [Py.bind] in H; [| discriminate].
      pose proof (predict_Ok_range people is_fall fall_score Hpredict) as Hrange.
      apply IH in H; [| lia]. cbv zeta in H. rewrite <- Hlast in H.
      destruct H as (new_ff & new_sc & -> & -> & Ha & Hlen & Hle & Hff & Hsorted & Hsc).
      rewrite (div3_hit idx Hidx Hhit) in Ha, Hlen.
      assert (Hff' : Forall (fun i => (idx < i <= last)%Z /\ (i mod 3 = 0)%Z)
                       new_ff).
      { eapply Forall_impl; [exact Hff |]. simpl. intros i [Hi Hm]. split; lia. }
      destruct is_fall.
      * exists ((idx + 1)%Z :: new_ff), (fall_score :: new_sc).
        rewrite <- !app_assoc. cbn [app length].
        repeat split; try reflexivity; try lia.
        -- constructor; [| exact Hff'].
           split; [subst last; cbn [length]; lia | exact Hhit].
        -- constructor; [exact Hsorted |].
           eapply Forall_impl; [exact Hff |]. simpl. intros i [Hi _]. lia.
        -- constructor; [exact Hrange | exact Hsc].
      * exists new_ff, (fall_score :: new_sc).
        rewrite <- !app_assoc. cbn [app length].
        repeat split; try reflexivity; try lia; try assumption.
        constructor; [exact Hrange | exact Hsc].
    + apply IH in H; [| lia]. cbv zeta in H. rewrite <- Hlast in H.
      destruct H as (new_ff & new_sc & -> & -> & Ha & Hlen & Hle & Hff & Hsorted & Hsc).
      rewrite (div3_skip idx Hidx Hskip) in Ha, Hlen.
      exists new_ff, new_sc. repeat split; try assumption.
      eapply Forall_impl; [exact Hff |]. simpl. intros i [Hi Hm]. split; lia.
Qed.

Lemma sum_range (scores : list R) (a : R) :
  Forall (fun s => 0 <= s <= 1) scores ->
  a <= fold_left Rplus scores a <= a + INR (length scores).
Proof.
  revert a. induction scores as [| s scores IH]; intros a H.
  - cbn. lra.
  - apply Forall_cons in H. destruct H as [Hs H].
    cbn [fold_left]. specialize (IH (a + s) H).
    change (length (s :: scores)) with (S (length scores)).
    rewrite S_INR. lra.
Qed.

Lemma average_range (scores : list R) :
  Forall (fun s => 0 <= s <= 1) scores -> 0 <= average scores <= 1.
Proof.
  intros H. unfold average. destruct scores as [| s scores]; [lra |].
  pose proof (sum_range (s :: scores) 0 H) as Hsum.
  assert (Hn : 0 < INR (length (s :: scores))) by (apply lt_0_INR; cbn; lia).
  set (n := INR (length (s :: scores))) in *.
  set (total := fold_left Rplus (s :: scores) 0) in *.
  split.
  - apply Rmult_le_pos; [lra | left; apply Rinv_0_lt_compat, Hn].
  - apply (Rmult_le_reg_r n); [exact Hn |].
    unfold Rdiv. rewrite Rmult_assoc, Rinv_l, Rmult_1_r, Rmult_1_l by lra. lra.
Qed.

(** The loop looks only at every third frame. *)
Lemma video_loop_skips (stop : bool) (estimator : Pose.t)
    (frames frames' : list Pose.Image) :
  forall (idx analyzed : Z) (ff : list Z) (sc : list R),
    length frames = length frames' ->
    (forall i : nat, ((idx + Z.of_nat i + 1) mod 3 = 0)%Z ->
                     frames !! i = frames' !! i) ->
    video_loop stop estimator frames idx analyzed ff sc
    = video_loop stop estimator frames' idx analyzed ff sc.
Proof.
  revert frames'. induction frames as [| frame frames IH];
    intros [| frame' frames'] idx analyzed ff sc Hlen Hsame;
    try discriminate; [reflexivity |].
  cbn [video_loop]. destruct stop; [reflexivity |].
  assert (Hrest : forall i : nat,
            ((idx + 1 + Z.of_nat i + 1) mod 3 = 0)%Z ->
            frames !! i = frames' !! i).
  { intros i Hi. apply (Hsame (S i)).
    replace (idx + Z.of_nat (S i) + 1)%Z with (idx + 1 + Z.of_nat i + 1)%Z by lia.
    exact Hi. }
  injection Hlen as Hlen.
  destruct (Z.eqb_spec ((idx + 1) mod 3) 0) as [Hhit | Hskip]; cbn [negb].
  - assert (Hframe : frame = frame').
    { specialize (Hsame 0%nat). cbn in Hsame.
      rewrite Z.add_0_r in Hsame. specialize (Hsame Hhit). congruence. }
    subst frame'.
    destruct (Pose.estimate estimator frame) as [people | e]; cbn [Py.bind];
      [| reflexivity].
    destruct (Fall.predict people) as [[is_fall fall_score] | e];
      cbn [Py.bind]; [| reflexivity].
    apply IH; assumption.
  - apply IH; assumption.
Qed.

End VideoLoop.

Section AnalyzeVideo.
Import App.

Lemma get_estimator_world (env : Env) (preferred : option string) (st : State) :
  world (fst (get_estimator env preferred st)) = world st.
Proof.
  unfold get_estimator.
  destruct (Device.get_torch_device (hardware env) preferred)
    as [device device_type].
  destruct (_estimators st !! device_type); [reflexivity |].
  destruct (new_estimator _ _ _ _ _); reflexivity.
Qed.

Lemma get_estimator_keeps (env : Env) (preferred : option string) (st : State)
    (key : string) (estimator : Estimator) :
  _estimators st !! key = Some estimator ->
  _estimators (fst (get_estimator env preferred st)) !! key = Some estimator.
Proof.
  intros Hin. unfold get_estimator.
  destruct (Device.get_torch_device (hardware env) preferred)
    as [device device_type].
  destruct (_estimators st !! device_type) eqn:Hlookup; [exact Hin |].
  destruct (new_estimator _ _ _ _ _); [| exact Hin].
  cbn [fst _estimators]. rewrite lookup_insert_ne; [exact Hin |].
  intros ->. congruence.
Qed.

Lemma as_http_error_Ok {A} (env : Env) (r : Py.Result A) (a : A) :
  as_http_error env r = Py.Ok a -> r = Py.Ok a.
Proof.
  destruct r as [a' | e]; [intros H; exact H |].
  destruct e; cbn; intros H; discriminate.
Qed.

Lemma as_http_error_Raise {A} (env : Env) (r : Py.Result A) (e : Py.Exc) :
  as_http_error env r = Py.Raise e -> Py.is_Exception e = true ->
  exists status detail, e = Py.HTTPException status detail.
Proof.
  destruct r as [a | e0]; [discriminate |].
  destruct e0; cbn; intros H He; injection H as <-; eauto; discriminate.
Qed.

(** X28. [analyze_video], main.py: what a report that was returned says. The
    video is the list of frames the capture delivers, [None] when it could
    not be opened. A report is only returned when the video was opened and
    the stop event is not set; the globals of the job registry are as
    before; every third frame was analysed, so [analyzed_frames] is the
    number of frames divided by 3 (floor); [fall_frames] holds multiples of
    3 between 3 and the number of frames, strictly increasing, and never
    more of them than analysed frames; [any_fall] says whether that list is
    non-empty; the average fall score lies in [0, 1]; a video shorter than
    three frames gives a report of zero analysed frames, no fall and
    average 0.0. *)
Theorem analyze_video_report (env : Env) (video : option (list Pose.Image))
    (st st' : State) (response : VideoAnalyzeResponse)
    (Hreturned : analyze_video env video st = (st', Py.Ok response)) :
  exists frames : list Pose.Image,
    let n := Z.of_nat (length frames) in
    video = Some frames
    /\ Main._STOP_EVENT (world st) = false
    /\ world st' = world st
    /\ analyzed_frames response = (n / 3)%Z
    /\ Forall (fun i => (3 <= i <= n)%Z /\ (i mod 3 = 0)%Z)
         (fall_frames response)
    /\ StronglySorted Z.lt (fall_frames response)
    /\ (Z.of_nat (length (fall_frames response)) <= analyzed_frames response)%Z
    /\ (any_fall response = true <-> fall_frames response <> [])
    /\ 0 <= average_fall_score response <= 1
    /\ ((n < 3)%Z ->
        analyzed_frames response = 0%Z /\ any_fall response = false
        /\ average_fall_score response = 0).
Proof.
  unfold analyze_video in Hreturned.
  destruct (Main._STOP_EVENT (world st)) eqn:Hstop; [discriminate |].
  pose proof (get_estimator_world env (PREFERRED_DEVICE env) st) as Hworld.
  destruct (get_estimator env (PREFERRED_DEVICE env) st) as [st1 got].
  cbn [fst] in Hworld. rewrite Hworld, Hstop in Hreturned.
  match type of Hreturned with
  | match as_http_error env ?r with _ => _ end = _ =>
      destruct (as_http_error env r) as [[device_info [[analyzed ff] sc]] | e]
        eqn:Htried; [| discriminate]
  end.
  injection Hreturned as -> <-.
  apply as_http_error_Ok in Htried.
  destruct got as [estimator | e]; cbn [Py.bind] in Htried; [| discriminate].
  destruct (Device.summarize_device (cuda env) (device estimator))
    as [info | e]; cbn [Py.bind] in Htried; [| discriminate].
  destruct video as [frames |]; [| discriminate].
  destruct (video_loop false (pose estimator) frames 0 0 [] [])
    as [[[analyzed0 ff0] sc0] | e] eqn:Hloop; cbn [Py.bind] in Htried;
    [| discriminate].
  injection Htried as -> -> -> ->.
  apply video_loop_spec in Hloop; [| lia]. cbv zeta in Hloop.
  destruct Hloop as (new_ff & new_sc & -> & -> & Ha & Hlen & Hle & Hff
                     & Hsorted & Hsc).
  cbn [app] in *. rewrite Z.add_0_l in *.
  change (0 / 3)%Z with 0%Z in *. rewrite Z.sub_0_r in *. rewrite Z.add_0_l in Ha.
  exists frames. cbv zeta.
  cbn [analyzed_frames fall_frames any_fall average_fall_score].
  split; [reflexivity |]. split; [reflexivity |]. split; [exact Hworld |].
  split; [exact Ha |].
  split.
  { eapply Forall_impl; [exact Hff |]. simpl. intros i [Hi Hm].
    split; [| exact Hm]. split; [| lia].
    revert Hm. destruct Hi as [Hi _]. revert Hi.
    generalize i. intros j Hj Hm. Z.to_euclidean_division_equations. lia. }
  split; [exact Hsorted |].
  split; [lia |].
  split.
  { destruct new_ff; cbn; split; intros H; congruence. }
  split; [apply average_range; exact Hsc |].
  intros Hshort.
  assert (Hnone : (Z.of_nat (length frames) / 3 = 0)%Z).
  { apply Z.div_small. lia. }
  rewrite Hnone in *.
  destruct new_sc; [| cbn in Hlen; lia].
  destruct new_ff; [| cbn in Hle; lia].
  repeat split; [exact Ha].
Qed.

Lemma analyze_video_report_witness :
  exists st' response,
    analyze_video MoreSamples.quiet_env (Some MoreSamples.three_frames)
      MoreSamples.fresh_state = (st', Py.Ok response)
    /\ analyzed_frames response = 1%Z
    /\ 0 <= average_fall_score response <= 1.
Proof.
  assert (Hrun : { out : State * VideoAnalyzeResponse |
             analyze_video MoreSamples.quiet_env (Some MoreSamples.three_frames)
               MoreSamples.fresh_state = (fst out, Py.Ok (snd out)) }).
  { eexists (_, _). cbn [fst snd].
    unfold analyze_video, get_estimator.
    vm_compute (Device.get_torch_device _ _). cbv beta iota.
    change (_estimators MoreSamples.fresh_state)
      with (∅ : gmap string Estimator).
    rewrite lookup_empty.
    vm_compute (new_estimator _ _ _ _ _). cbv beta iota.
    cbn [world Py.bind device].
    vm_compute (Device.summarize_device _ _). cbn [Py.bind].
    reflexivity. }
  destruct Hrun as [[st' response] Hrun]. cbn [fst snd] in Hrun.
  exists st', response. split; [exact Hrun |].
  destruct (analyze_video_report _ _ _ _ _ Hrun)
    as (frames & Hvideo & _ & _ & Ha & _ & _ & _ & _ & Havg & _).
  injection Hvideo as <-. split; [exact Ha | exact Havg].
Defined.

(** X29. [analyze_video], main.py: the frames it skips are never looked at. Two
    videos with the same number of frames that agree on every third frame
    (the frames counted 3, 6, 9, ...) give the same outcome, whether a
    report or an error, and leave the same state. *)
Theorem analyze_video_skips_frames (env : Env)
    (frames frames' : list Pose.Image) (st : State)
    (Hlength : length frames = length frames')
    (Hthird : forall i : nat,
        ((Z.of_nat i + 1) mod 3 = 0)%Z -> frames !! i = frames' !! i) :
  analyze_video env (Some frames) st = analyze_video env (Some frames') st.
Proof.
  unfold analyze_video.
  destruct (Main._STOP_EVENT (world st)); [reflexivity |].
  destruct (get_estimator env (PREFERRED_DEVICE env) st) as [st1 got].
  destruct got as [estimator | e]; [| reflexivity].
  cbn [Py.bind].
  destruct (Device.summarize_device (cuda env) (device estimator))
    as [info | e]; [| reflexivity].
  cbn [Py.bind].
  rewrite (video_loop_skips (Main._STOP_EVENT (world st1)) (pose estimator)
             frames frames' 0 0 [] [] Hlength); [reflexivity |].
  intros i Hi. apply Hthird. rewrite Z.add_0_l in Hi. exact Hi.
Qed.

Lemma analyze_video_skips_frames_witness :
  analyze_video MoreSamples.quiet_env
    (Some [Samples.image_640x480; Samples.image_1280x960;
           Samples.image_640x480]) MoreSamples.fresh_state
  = analyze_video MoreSamples.quiet_env
      (Some [Samples.image_10000x1; Samples.image_640x480;
             Samples.image_640x480]) MoreSamples.fresh_state.
Proof.
  apply analyze_video_skips_frames; [reflexivity |].
  intros [| [| [| i]]] Hi; try reflexivity; vm_compute in Hi; discriminate.
Defined.

(** X30. [analyze_video], main.py: how it fails and what it leaves behind.
    Whatever the outcome, the job registry, the stop event and the files
    are as before, and no estimator leaves the cache. With the stop event
    set the call raises HTTP 503 at once and creates no estimator. Every
    [Exception] that escapes is an [HTTPException]. A video that cannot be
    opened gives, once the stop event is unset and the estimator and the
    device summary were obtained, HTTP 400; an [Exception] from the
    estimator or the detector on an analysed frame surfaces as HTTP 500
    carrying [str] of it. *)
Theorem analyze_video_failures (env : Env) (video : option (list Pose.Image))
    (st : State) :
  let '(st', outcome) := analyze_video env video st in
  world st' = world st
  /\ (forall key estimator,
        _estimators st !! key = Some estimator ->
        _estimators st' !! key = Some estimator)
  /\ (Main._STOP_EVENT (world st) = true ->
      st' = st /\ outcome = Py.Raise server_stopping)
  /\ (forall e, outcome = Py.Raise e -> Py.is_Exception e = true ->
      exists status detail, e = Py.HTTPException status detail)
  /\ (video = None -> Main._STOP_EVENT (world st) = false ->
      forall estimator info,
        snd (get_estimator env (PREFERRED_DEVICE env) st) = Py.Ok estimator ->
        Device.summarize_device (cuda env) (device estimator) = Py.Ok info ->
        outcome = Py.Raise failed_to_read)
  /\ (forall frames estimator info e,
        video = Some frames -> Main._STOP_EVENT (world st) = false ->
        snd (get_estimator env (PREFERRED_DEVICE env) st) = Py.Ok estimator ->
        Device.summarize_device (cuda env) (device estimator) = Py.Ok info ->
        video_loop false (pose estimator) frames 0 0 [] [] = Py.Raise e ->
        Py.is_Exception e = true ->
        (forall status detail, e <> Py.HTTPException status detail) ->
        outcome = Py.Raise (Py.HTTPException 500 (str env e))).
Proof.
  unfold analyze_video.
  destruct (Main._STOP_EVENT (world st)) eqn:Hstop.
  { split; [reflexivity |]. split; [tauto |]. split; [tauto |].
    split; [intros e [= <-] _; unfold server_stopping; eauto |].
    split; [discriminate |]. intros; discriminate. }
  pose proof (get_estimator_world env (PREFERRED_DEVICE env) st) as Hworld.
  pose proof (get_estimator_keeps env (PREFERRED_DEVICE env) st) as Hkeeps.
  destruct (get_estimator env (PREFERRED_DEVICE env) st) as [st1 got].
  cbn [fst snd] in *. rewrite Hworld, Hstop.
  match goal with
  | |- context [as_http_error env ?r] =>
      set (tried := r); destruct (as_http_error env tried)
        as [[device_info [[analyzed ff] sc]] | e0] eqn:Htried
  end.
  - split; [exact Hworld |]. split; [exact Hkeeps |].
    split; [discriminate |]. split; [discriminate |].
    apply as_http_error_Ok in Htried. subst tried.
    split.
    + intros -> _ estimator info -> Hinfo. cbn [Py.bind] in Htried.
      rewrite Hinfo in Htried. discriminate.
    + intros frames estimator info e -> _ -> Hinfo Hloop _ _.
      cbn [Py.bind] in Htried. rewrite Hinfo in Htried. cbn [Py.bind] in Htried.
      rewrite Hloop in Htried. discriminate.
  - split; [exact Hworld |]. split; [exact Hkeeps |].
    split; [discriminate |].
    split.
    { intros e [= <-] He. exact (as_http_error_Raise env tried e0 Htried He). }
    subst tried. split.
    + intros -> _ estimator info -> Hinfo. cbn [Py.bind] in Htried.
      rewrite Hinfo in Htried. cbn in Htried. injection Htried as <-.
      reflexivity.
    + intros frames estimator info e -> _ -> Hinfo Hloop He Hnot.
      cbn [Py.bind] in Htried. rewrite Hinfo in Htried. cbn [Py.bind] in Htried.
      rewrite Hloop in Htried. cbn [Py.bind] in Htried.
      destruct e; cbn in Htried, He; try discriminate;
        try (injection Htried as <-; reflexivity).
      exfalso. eapply Hnot. reflexivity.
Qed.

End AnalyzeVideo.
